(** * AntWarmer: a fail-safe relay controller for heating loops

    A shallow embedding of [src/main.cpp] (the two-loop controller) and of
    the parts of [src/oldsystem.cpp] (the legacy single-loop sketch) that
    differ from it, followed by the properties of the panic latch, the
    per-loop state machine, the desync watchdog and the status LED.

    Conventions.
    - The statics of [Panic] and [LEDMan], the two global controllers
      [nico] and [trap] and [GLastReadMs] are the fields of one record
      [World]; a method of a controller takes the controller's name
      (a [CtrlId], the model of the [this] pointer) and the world.
    - [unsigned long] and [uint32_t] are 32-bit: a [Z] in [0, 2^32) with
      the wrap-around of [millis()] and of subtractions written out.
    - [float] is IEEE-754 binary32: [spec_float] with the operations of
      [SpecFloat] at precision 24 and maximal exponent 128.
    - What the program does to its collaborators (pins, the one-wire bus,
      the serial port) is appended to [trace], oldest event first.
    - [millis()] reads the hardware clock: the n-th read of a run returns
      [clk n], for an arbitrary [clk]; the world counts the reads. *)

From Stdlib Require Import ZArith Bool String.
From Stdlib Require Import Floats.SpecFloat.
From stdpp Require Import base list.

Local Open Scope Z_scope.

(** ** Numbers *)

Definition float : Set := spec_float.

Definition fadd : float -> float -> float := SFadd 24 128.
Definition fsub : float -> float -> float := SFsub 24 128.
(** [a == b], [a < b], [a <= b] of C++; [a >= b] is written [fle b a]. *)
Definition feq : float -> float -> bool := SFeqb.
Definition flt : float -> float -> bool := SFltb.
Definition fle : float -> float -> bool := SFleb.

(** The binary32 number nearest to [m * 2^e]. *)
Definition f32 (m e : Z) : float := binary_normalize 24 128 m e false.

Definition wrap32 (z : Z) : Z := z mod 2 ^ 32.
(** [a - b] on [unsigned long]. *)
Definition sub32 (a b : Z) : Z := wrap32 (a - b).

(** ** Configuration *)

Definition TEMP_ALLOWANCE : float := f32 1 (-2).          (* 0.25f *)

Definition HIGH : Z := 1.
Definition LOW : Z := 0.
Definition OUTPUT : Z := 1.
(** From the board's [pins_arduino.h], which is not part of the sketch:
    pin 13 on the Uno and Nano boards. *)
Definition LED_BUILTIN : Z := 13.
(** From [DallasTemperature.h], which is not part of the sketch:
    [#define DEVICE_DISCONNECTED_C -127]. *)
Definition DEVICE_DISCONNECTED_C : float := f32 (-127) 0.

Definition RELAY_ACTIVE_STATE : Z := HIGH.
Definition RELAY_INACTIVE_STATE : Z := LOW.

Definition READ_INTERVAL_MS : Z := 2000.

(** ** Data model *)

Module PanicReason.
Inductive t : Set :=
| None
| SensorDisconnected
| OverMax
| DesyncNoRise
| LEDRegisterFail
| Other.
End PanicReason.

Record PanicInfo : Set := mkPanicInfo {
  ms : Z;
  line : Z;
  uid : Z;
  reason : PanicReason.t
}.

Inductive State : Set := HEATING | COOLING | OFF.

Record DesyncMan : Set := mkDesyncMan {
  start_time_ : Z;
  start_temp_ : float;
  not_inited_ : bool
}.

Record TempController : Set := mkTempController {
  uid_ : Z;
  st_ : State;
  heater_is_off_ : bool;
  target_ : float;
  max_ : float;
  one_wire_ : Z;          (* the pin of [one_wire_] and [sensor_] *)
  relay_pin_ : Z;
  desync_man_ : DesyncMan
}.

(** The two global controllers; [Some c] is the pointer [&c], [None] is
    [nullptr]. *)
Inductive CtrlId : Set := Nico | Trap.

#[global] Instance CtrlId_eq_dec : EqDecision CtrlId.
Proof. solve_decision. Defined.

(** A [Panic::Callback]: the sketch only ever builds the lambdas
    [[](){ c.Off(); }]. A null function pointer is [None]. *)
Inductive Callback : Set := CallOff (c : CtrlId).

Inductive Printable : Set :=
| PStr (s : string)
| PInt (n : Z)
| PFloat (f : float).

Inductive Event : Set :=
| PinMode (pin mode : Z)
| DigitalWrite (pin level : Z)
| SensorBegin (pin : Z)
| RequestTemperatures (pin : Z)
| SerialBegin (baud : Z)
| SerialPrint (v : Printable)
| SerialPrintln.

Record World : Set := mkWorld {
  (* class Panic *)
  is_panic_ : bool;
  callbacks_ : list (option Callback);
  callback_count_ : nat;
  panic_info_ : PanicInfo;
  (* class LEDMan *)
  controllers_ : list (option CtrlId);
  num_controllers_ : nat;
  currentStateIndex_ : Z;
  ledOn_ : bool;
  lastToggleMs_ : Z;
  (* globals *)
  nico : TempController;
  trap : TempController;
  GLastReadMs : Z;
  (* environment *)
  reads : nat;
  trace : list Event
}.

(** *** Field updates *)

Definition set_st (v : State) (t : TempController) : TempController :=
  mkTempController (uid_ t) v (heater_is_off_ t) (target_ t) (max_ t)
    (one_wire_ t) (relay_pin_ t) (desync_man_ t).
Definition set_heater_is_off (v : bool) (t : TempController) : TempController :=
  mkTempController (uid_ t) (st_ t) v (target_ t) (max_ t)
    (one_wire_ t) (relay_pin_ t) (desync_man_ t).
Definition set_desync_man (v : DesyncMan) (t : TempController) : TempController :=
  mkTempController (uid_ t) (st_ t) (heater_is_off_ t) (target_ t) (max_ t)
    (one_wire_ t) (relay_pin_ t) v.

Definition set_is_panic (v : bool) (w : World) : World :=
  mkWorld v (callbacks_ w) (callback_count_ w) (panic_info_ w)
    (controllers_ w) (num_controllers_ w) (currentStateIndex_ w) (ledOn_ w)
    (lastToggleMs_ w) (nico w) (trap w) (GLastReadMs w) (reads w) (trace w).
Definition set_callbacks (v : list (option Callback)) (n : nat) (w : World) : World :=
  mkWorld (is_panic_ w) v n (panic_info_ w)
    (controllers_ w) (num_controllers_ w) (currentStateIndex_ w) (ledOn_ w)
    (lastToggleMs_ w) (nico w) (trap w) (GLastReadMs w) (reads w) (trace w).
Definition set_panic_info (v : PanicInfo) (w : World) : World :=
  mkWorld (is_panic_ w) (callbacks_ w) (callback_count_ w) v
    (controllers_ w) (num_controllers_ w) (currentStateIndex_ w) (ledOn_ w)
    (lastToggleMs_ w) (nico w) (trap w) (GLastReadMs w) (reads w) (trace w).
Definition set_controllers (v : list (option CtrlId)) (n : nat) (w : World) : World :=
  mkWorld (is_panic_ w) (callbacks_ w) (callback_count_ w) (panic_info_ w)
    v n (currentStateIndex_ w) (ledOn_ w)
    (lastToggleMs_ w) (nico w) (trap w) (GLastReadMs w) (reads w) (trace w).
Definition set_led (idx : Z) (on : bool) (last : Z) (w : World) : World :=
  mkWorld (is_panic_ w) (callbacks_ w) (callback_count_ w) (panic_info_ w)
    (controllers_ w) (num_controllers_ w) idx on
    last (nico w) (trap w) (GLastReadMs w) (reads w) (trace w).
Definition set_GLastReadMs (v : Z) (w : World) : World :=
  mkWorld (is_panic_ w) (callbacks_ w) (callback_count_ w) (panic_info_ w)
    (controllers_ w) (num_controllers_ w) (currentStateIndex_ w) (ledOn_ w)
    (lastToggleMs_ w) (nico w) (trap w) v (reads w) (trace w).
Definition set_reads (v : nat) (w : World) : World :=
  mkWorld (is_panic_ w) (callbacks_ w) (callback_count_ w) (panic_info_ w)
    (controllers_ w) (num_controllers_ w) (currentStateIndex_ w) (ledOn_ w)
    (lastToggleMs_ w) (nico w) (trap w) (GLastReadMs w) v (trace w).
Definition set_trace (v : list Event) (w : World) : World :=
  mkWorld (is_panic_ w) (callbacks_ w) (callback_count_ w) (panic_info_ w)
    (controllers_ w) (num_controllers_ w) (currentStateIndex_ w) (ledOn_ w)
    (lastToggleMs_ w) (nico w) (trap w) (GLastReadMs w) (reads w) v.

(** The object a controller name denotes, and its replacement. *)
Definition ctrl (c : CtrlId) (w : World) : TempController :=
  match c with Nico => nico w | Trap => trap w end.
Definition set_ctrl (c : CtrlId) (t : TempController) (w : World) : World :=
  match c with
  | Nico =>
    mkWorld (is_panic_ w) (callbacks_ w) (callback_count_ w) (panic_info_ w)
      (controllers_ w) (num_controllers_ w) (currentStateIndex_ w) (ledOn_ w)
      (lastToggleMs_ w) t (trap w) (GLastReadMs w) (reads w) (trace w)
  | Trap =>
    mkWorld (is_panic_ w) (callbacks_ w) (callback_count_ w) (panic_info_ w)
      (controllers_ w) (num_controllers_ w) (currentStateIndex_ w) (ledOn_ w)
      (lastToggleMs_ w) (nico w) t (GLastReadMs w) (reads w) (trace w)
  end.

(** ** Collaborators *)

Definition emit (e : Event) (w : World) : World :=
  set_trace (trace w ++ [e]) w.

Definition pinMode (pin mode : Z) : World -> World := emit (PinMode pin mode).
Definition digitalWrite (pin level : Z) : World -> World :=
  emit (DigitalWrite pin level).

(** [Logger<true>]: [print] hands every argument to [Serial.print], in
    order; [println] ends the line. *)
Definition Log_print (vs : list Printable) (w : World) : World :=
  set_trace (trace w ++ map SerialPrint vs) w.
Definition Log_println (vs : list Printable) (w : World) : World :=
  emit SerialPrintln (Log_print vs w).
Definition Log_begin (baud : Z) : World -> World := emit (SerialBegin baud).

(** * The program *)

Section Program.

(** The hardware clock, by number of the read. *)
Variable clk : nat -> Z.

Definition millis (w : World) : Z * World :=
  (wrap32 (clk (reads w)), set_reads (S (reads w)) w).

(** ** Panic handler *)

Definition PanicReasonStr (r : PanicReason.t) : string :=
  match r with
  | PanicReason.SensorDisconnected => "SensorDisconnected"
  | PanicReason.OverMax => "OverMax"
  | PanicReason.DesyncNoRise => "DesyncNoRise"
  | PanicReason.LEDRegisterFail => "LEDRegisterFail"
  | PanicReason.Other => "Other"
  | PanicReason.None => "None"
  end.

Definition MAX_CALLBACKS : nat := 4.

Definition Panic_IsPanic (w : World) : bool := is_panic_ w.

(** [TempController::Off], placed here because the panic callbacks call
    it. The early return on an already inactive output is commented out
    in the source (it is marked as apparently bad there), so the relay is
    written on every call. *)
Definition TempController_Off (c : CtrlId) (w : World) : World :=
  let w1 := digitalWrite (relay_pin_ (ctrl c w)) RELAY_INACTIVE_STATE w in
  let w2 := if Panic_IsPanic w1
            then set_ctrl c (set_st OFF (ctrl c w1)) w1
            else w1 in
  set_ctrl c (set_heater_is_off true (ctrl c w2)) w2.

(** The call [callbacks_[i]()] through a non-null pointer. *)
Definition invoke (cb : Callback) (w : World) : World :=
  match cb with CallOff c => TempController_Off c w end.

(** [Panic::Init]: the array argument with its [static_assert]. *)
Record CallbackArray : Set := mkCallbackArray {
  cbs : list (option Callback);
  cbs_static_assert : bool_decide (length cbs <= MAX_CALLBACKS)%nat = true
}.

Fixpoint Panic_Init_loop (src : list (option Callback)) (i : nat)
    (dst : list (option Callback)) : list (option Callback) :=
  match src with
  | [] => dst
  | cb :: rest => Panic_Init_loop rest (S i) (<[i := cb]> dst)
  end.

Definition Panic_Init (a : CallbackArray) (w : World) : World :=
  set_callbacks (Panic_Init_loop (cbs a) 0 (callbacks_ w)) (length (cbs a)) w.

Definition Panic_PrintPanic (w : World) : World :=
  match reason (panic_info_ w) with
  | PanicReason.None => Log_println [PStr "Panic: <none>"] w
  | r =>
    let w1 := Log_println [PStr "Panic (latched):"] w in
    let w2 := Log_println [PStr (PanicReasonStr r)]
                (Log_print [PStr "  Reason: "] w1) in
    let w3 := Log_println [PInt (uid (panic_info_ w2))]
                (Log_print [PStr "  UID: "] w2) in
    let w4 := Log_println [PInt (line (panic_info_ w3))]
                (Log_print [PStr "  Line: "] w3) in
    Log_println [PInt (ms (panic_info_ w4))]
      (Log_print [PStr "  Millis: "] w4)
  end.

(** The number of values of an [unsigned char]. *)
Definition UCHAR_RANGE : nat := 256.

(** The loop over [callbacks_] of [StartPanic], from index [i]; [i] is an
    [unsigned char], so [n = 256 - i] more values of it remain. The count
    and the slot are read from the current state at every round. A slot
    outside the array is never read while [callback_count_ <= 4]; the
    model skips it. *)
Fixpoint Panic_run_callbacks (n i : nat) (w : World) : World :=
  match n with
  | O => w
  | S n' =>
    if bool_decide (i < callback_count_ w)%nat then
      let w1 := match callbacks_ w !! i with
                | Some (Some cb) => invoke cb w
                | _ => w
                end in
      Panic_run_callbacks n' (S i) w1
    else w
  end.

(** [uid] is a [uint8_t] and [line] a [uint16_t] at every call. *)
Definition Panic_StartPanic (r : PanicReason.t) (uid line : Z) (w : World)
    : World :=
  if is_panic_ w then w
  else
    let w1 := set_is_panic true w in
    let (now, w2) := millis w1 in
    let w3 := set_panic_info (mkPanicInfo now line uid r) w2 in
    let w4 := Panic_run_callbacks UCHAR_RANGE 0 w3 in
    let w5 := Log_println [PStr "PANIC START"] w4 in
    Panic_PrintPanic w5.

(** The macro [PANIC(uid, reason)]; [line] is the [__LINE__] of the use. *)
Definition PANIC (uid : Z) (r : PanicReason.t) (line : Z) : World -> World :=
  Panic_StartPanic r uid line.

(** ** LEDMan *)

Definition MAX_CONTROLLERS : nat := 4.

Definition LEDMan_Register (tc : option CtrlId) (w : World) : World :=
  match tc with
  | None => PANIC 0 PanicReason.LEDRegisterFail 209 w
  | Some _ =>
    if bool_decide (MAX_CONTROLLERS <= num_controllers_ w)%nat
    then PANIC 0 PanicReason.LEDRegisterFail 209 w
    else set_controllers (<[num_controllers_ w := tc]> (controllers_ w))
           (S (num_controllers_ w)) w
  end.

Definition LEDMan_HalfPeriodForState (state : Z) : Z :=
  match state with
  | 0 => 50
  | 1 => 1000
  | _ => 10000
  end.

(** ** Temperature controller *)

Definition NEEDED_TEMP_CHANGE : float := f32 1 (-2).     (* 0.25f *)
Definition TIME_TO_WAIT : Z := 180000.

Definition DesyncMan_new : DesyncMan :=
  mkDesyncMan 0 (S754_zero false) true.

Definition set_desync (c : CtrlId) (d : DesyncMan) (w : World) : World :=
  set_ctrl c (set_desync_man d (ctrl c w)) w.

(** The methods of [c.desync_man_]. *)
Definition DesyncMan_Reset (c : CtrlId) (w : World) : World :=
  let d := desync_man_ (ctrl c w) in
  set_desync c (mkDesyncMan (start_time_ d) (start_temp_ d) true) w.

Definition DesyncMan_Begin (c : CtrlId) (temp_c : float) (w : World) : World :=
  let (now, w1) := millis w in
  set_desync c (mkDesyncMan now temp_c false) w1.

Definition DesyncMan_Update (c : CtrlId) (temp_c : float) (w : World)
    : bool * World :=
  let w1 := if not_inited_ (desync_man_ (ctrl c w))
            then DesyncMan_Begin c temp_c w
            else w in
  let (now, w2) := millis w1 in
  let d := desync_man_ (ctrl c w2) in
  (bool_decide (TIME_TO_WAIT <= sub32 now (start_time_ d))
     && flt (fsub temp_c (start_temp_ d)) NEEDED_TEMP_CHANGE,
   w2).

Definition TempController_new (uid : Z) (target max : float)
    (sen_wire_pin relay_pin : Z) : TempController :=
  mkTempController uid COOLING true target max sen_wire_pin relay_pin
    DesyncMan_new.

Definition TempController_Begin (c : CtrlId) (w : World) : World :=
  let w1 := pinMode (relay_pin_ (ctrl c w)) OUTPUT w in
  let w2 := digitalWrite (relay_pin_ (ctrl c w1)) RELAY_INACTIVE_STATE w1 in
  emit (SensorBegin (one_wire_ (ctrl c w2))) w2.

Definition TempController_PrintState (c : CtrlId) (temp_c : float)
    (w : World) : World :=
  let w1 := Log_print [PStr "CTRL: "; PInt (uid_ (ctrl c w));
                       PStr " Temp: "; PFloat temp_c] w in
  let w2 := match st_ (ctrl c w1) with
            | HEATING => Log_print [PStr " ST: HEATING"] w1
            | COOLING => Log_print [PStr " ST: COOLING"] w1
            | OFF => Log_print [PStr " ST: OFF"] w1
            end in
  Log_print [PStr (String (Ascii.ascii_of_nat 10) EmptyString)] w2.

Definition TempController_IsHeating (c : CtrlId) (w : World) : bool :=
  negb (heater_is_off_ (ctrl c w)).

Definition TempController_On (c : CtrlId) (w : World) : World :=
  if negb (heater_is_off_ (ctrl c w)) then w
  else
    let w1 := digitalWrite (relay_pin_ (ctrl c w)) RELAY_ACTIVE_STATE w in
    set_ctrl c (set_heater_is_off false (ctrl c w1)) w1.

Definition TempController_Update (c : CtrlId) (current_temp_c : float)
    (w : World) : World :=
  match st_ (ctrl c w) with
  | OFF => w
  | st =>
    if fle (max_ (ctrl c w)) current_temp_c then
      TempController_Off c (PANIC (uid_ (ctrl c w)) PanicReason.OverMax 358 w)
    else
      match st with
      | HEATING =>
        let (desync, w1) := DesyncMan_Update c current_temp_c w in
        if desync then
          TempController_Off c
            (PANIC (uid_ (ctrl c w1)) PanicReason.DesyncNoRise 367 w1)
        else if fle (fadd (target_ (ctrl c w1)) TEMP_ALLOWANCE) current_temp_c
        then
          let w2 := TempController_Off c w1 in
          set_ctrl c (set_st COOLING (ctrl c w2)) w2
        else w1
      | COOLING =>
        if fle current_temp_c (fsub (target_ (ctrl c w)) TEMP_ALLOWANCE) then
          let w1 := DesyncMan_Reset c w in
          let w2 := TempController_On c w1 in
          set_ctrl c (set_st HEATING (ctrl c w2)) w2
        else w
      | OFF => w
      end
  end.

(** [temp_c] is what [sensor_.getTempCByIndex(0)] returns when it is
    called. *)
Definition TempController_Loop (c : CtrlId) (temp_c : float) (w : World)
    : World :=
  if Panic_IsPanic w then w
  else
    let w1 := emit (RequestTemperatures (one_wire_ (ctrl c w))) w in
    if feq temp_c DEVICE_DISCONNECTED_C then
      let w2 := PANIC (uid_ (ctrl c w1)) PanicReason.SensorDisconnected 394 w1 in
      Log_println [PStr "CTRL: "; PInt (uid_ (ctrl c w2));
                   PStr "Heater -> OFF (fail-safe)"] w2
    else
      TempController_Update c temp_c (TempController_PrintState c temp_c w1).

(** ** LEDMan, continued *)

(** The loop of [UpdateState] over the registry. An entry below
    [num_controllers_] is never null (see [registry_ok]); the model reads
    a null or missing entry as not heating. *)
Fixpoint LEDMan_any_heating (n i : nat) (any_heating : bool) (w : World)
    : bool :=
  match n with
  | O => any_heating
  | S n' =>
    let h := match controllers_ w !! i with
             | Some (Some c) => TempController_IsHeating c w
             | _ => false
             end in
    LEDMan_any_heating n' (S i) (any_heating || h) w
  end.

Definition LEDMan_new_state (w : World) : Z :=
  if Panic_IsPanic w then 0
  else if LEDMan_any_heating (num_controllers_ w) 0 false w then 1 else 2.

Definition LEDMan_UpdateState (w : World) : World :=
  let new_state := LEDMan_new_state w in
  if bool_decide (new_state <> currentStateIndex_ w) then
    let (now, w1) := millis w in
    set_led new_state true now w1
  else w.

Definition LEDMan_Update (w : World) : World :=
  let w1 := LEDMan_UpdateState w in
  let (now, w2) := millis w1 in
  let elapsed := sub32 now (lastToggleMs_ w2) in
  let halfPeriod := LEDMan_HalfPeriodForState (currentStateIndex_ w2) in
  let w3 := if bool_decide (halfPeriod <= elapsed)
            then set_led (currentStateIndex_ w2) (negb (ledOn_ w2)) now w2
            else w2 in
  digitalWrite LED_BUILTIN (if ledOn_ w3 then HIGH else LOW) w3.

(** ** Globals, setup and loop *)

Definition initial_world : World :=
  mkWorld
    false (replicate MAX_CALLBACKS None) 0%nat
    (mkPanicInfo 0 0 0 PanicReason.None)
    (replicate MAX_CONTROLLERS None) 0%nat 0 false 0
    (TempController_new 1 (f32 24 0) (f32 28 0) 2 8)
    (TempController_new 2 (f32 25 0) (f32 28 0) 4 12)
    0
    0%nat [].

Definition setup_cbs : CallbackArray :=
  mkCallbackArray [Some (CallOff Nico); Some (CallOff Trap)] eq_refl.

Definition setup (w : World) : World :=
  let w1 := pinMode LED_BUILTIN OUTPUT w in
  let w2 := TempController_Begin Trap (TempController_Begin Nico w1) in
  let w3 := Log_begin 9600 w2 in
  let w4 := Log_println
              [PStr (String (Ascii.ascii_of_nat 10)
                       "Nico temp controller starting...")] w3 in
  let w5 := Log_println [PStr "Target: 26 C, hysteresis: +/-0.5 C"] w4 in
  let w6 := Panic_Init setup_cbs w5 in
  LEDMan_Register (Some Trap) (LEDMan_Register (Some Nico) w6).

(** One pass of the Arduino [loop]; [sample c] is the reading of [c]'s
    sensor during this pass. *)
Definition loop (sample : CtrlId -> float) (w : World) : World :=
  let w1 := LEDMan_Update w in
  let (now, w2) := millis w1 in
  if bool_decide (sub32 now (GLastReadMs w2) < READ_INTERVAL_MS) then w2
  else
    let w3 := set_GLastReadMs now w2 in
    if Panic_IsPanic w3 then Panic_PrintPanic w3
    else
      TempController_Loop Trap (sample Trap)
        (TempController_Loop Nico (sample Nico) w3).

End Program.

(** * The legacy sketch

    [src/oldsystem.cpp]: one loop, kept in statics. Its [Logger] is the
    [Logger<false>] instance, whose functions do nothing, so no call of
    [Log] appears below. *)

Module Legacy.

Definition ONE_WIRE_BUS_PIN : Z := 2.
Definition RELAY_PIN : Z := 8.
Definition TARGET_TEMP_C : float := f32 24 0.
Definition TEMP_MAX : float := f32 28 0.

(** The two lambdas of [setup]: [LEDIndicator::SetState(LEDState::PANIC)]
    and [TempController::Off()]. *)
Inductive Callback : Set := CallSetStatePanic | CallOff.

Record World : Set := mkWorld {
  (* class Panic *)
  is_panic_ : bool;
  callbacks_ : list (option Callback);
  callback_count_ : nat;
  (* LEDMan<10000, 1000, 50> *)
  currentStateIndex_ : nat;
  ledOn_ : bool;
  lastToggleMs_ : Z;
  (* class TempController *)
  st_ : State;
  heater_is_off_ : bool;
  (* globals *)
  GLastReadMs : Z;
  GUndetectedCount : Z;
  (* environment *)
  reads : nat;
  trace : list Event
}.

Definition set_panic (p : bool) (cbs : list (option Callback)) (n : nat)
    (w : World) : World :=
  mkWorld p cbs n (currentStateIndex_ w) (ledOn_ w) (lastToggleMs_ w)
    (st_ w) (heater_is_off_ w) (GLastReadMs w) (GUndetectedCount w)
    (reads w) (trace w).
Definition set_led (idx : nat) (on : bool) (last : Z) (w : World) : World :=
  mkWorld (is_panic_ w) (callbacks_ w) (callback_count_ w) idx on last
    (st_ w) (heater_is_off_ w) (GLastReadMs w) (GUndetectedCount w)
    (reads w) (trace w).
Definition set_controller (st : State) (off : bool) (w : World) : World :=
  mkWorld (is_panic_ w) (callbacks_ w) (callback_count_ w)
    (currentStateIndex_ w) (ledOn_ w) (lastToggleMs_ w)
    st off (GLastReadMs w) (GUndetectedCount w) (reads w) (trace w).
Definition set_globals (last count : Z) (w : World) : World :=
  mkWorld (is_panic_ w) (callbacks_ w) (callback_count_ w)
    (currentStateIndex_ w) (ledOn_ w) (lastToggleMs_ w)
    (st_ w) (heater_is_off_ w) last count (reads w) (trace w).
Definition set_env (n : nat) (tr : list Event) (w : World) : World :=
  mkWorld (is_panic_ w) (callbacks_ w) (callback_count_ w)
    (currentStateIndex_ w) (ledOn_ w) (lastToggleMs_ w)
    (st_ w) (heater_is_off_ w) (GLastReadMs w) (GUndetectedCount w) n tr.

Definition emit (e : Event) (w : World) : World :=
  set_env (reads w) (trace w ++ [e]) w.
Definition digitalWrite (pin level : Z) : World -> World :=
  emit (DigitalWrite pin level).

(** [namespace LEDState]. *)
Module LEDState.
Definition COOLING : nat := 0.
Definition HEATING : nat := 1.
Definition PANIC : nat := 2.
End LEDState.

Section Program.

Variable clk : nat -> Z.

Definition millis (w : World) : Z * World :=
  (wrap32 (clk (reads w)), set_env (S (reads w)) (trace w) w).

Definition MAX_CALLBACKS : nat := 4.

Definition IsPanic (w : World) : bool := is_panic_ w.

Definition durations_ : list Z := [10000; 1000; 50].
Definition NumStates : nat := 3.

(** [LEDMan::SetState] for a state below [NumStates]. *)
Definition LED_enter (state : nat) (w : World) : World :=
  if bool_decide (state <> currentStateIndex_ w) then
    let (now, w1) := millis w in
    set_led state true now w1
  else w.

Definition Off (w : World) : World :=
  if heater_is_off_ w then w
  else
    let w1 := digitalWrite RELAY_PIN RELAY_INACTIVE_STATE w in
    let w2 := if IsPanic w1 then set_controller OFF (heater_is_off_ w1) w1
              else w1 in
    set_controller (st_ w2) true w2.

Definition On (w : World) : World :=
  if negb (heater_is_off_ w) then w
  else
    let w1 := digitalWrite RELAY_PIN RELAY_ACTIVE_STATE w in
    set_controller (st_ w1) false w1.

(** The call through a non-null callback; [LEDState::PANIC] is below
    [NumStates], so that [SetState] takes its second branch. *)
Definition invoke (cb : Callback) (w : World) : World :=
  match cb with
  | CallSetStatePanic => LED_enter LEDState.PANIC w
  | CallOff => Off w
  end.

Fixpoint run_callbacks (n i : nat) (w : World) : World :=
  match n with
  | O => w
  | S n' =>
    if bool_decide (i < callback_count_ w)%nat then
      let w1 := match callbacks_ w !! i with
                | Some (Some cb) => invoke cb w
                | _ => w
                end in
      run_callbacks n' (S i) w1
    else w
  end.

Definition StartPanic (w : World) : World :=
  if is_panic_ w then w
  else
    run_callbacks UCHAR_RANGE 0
      (set_panic true (callbacks_ w) (callback_count_ w) w).

Definition RegisterCallback (cb : option Callback) (w : World) : World :=
  if bool_decide (callback_count_ w < MAX_CALLBACKS)%nat then
    set_panic (is_panic_ w) (<[callback_count_ w := cb]> (callbacks_ w))
      (S (callback_count_ w)) w
  else StartPanic w.

Definition SetState (state : nat) (w : World) : World :=
  if bool_decide (NumStates <= state)%nat then
    let w1 := StartPanic w in
    let w2 := set_led (currentStateIndex_ w1) false (lastToggleMs_ w1) w1 in
    digitalWrite LED_BUILTIN LOW w2
  else LED_enter state w.

Definition LED_Update (w : World) : World :=
  let (now, w1) := millis w in
  let elapsed := sub32 now (lastToggleMs_ w1) in
  let halfPeriod := default 0 (durations_ !! currentStateIndex_ w1) in
  let w2 := if bool_decide (halfPeriod <= elapsed)
            then set_led (currentStateIndex_ w1) (negb (ledOn_ w1)) now w1
            else w1 in
  digitalWrite LED_BUILTIN (if ledOn_ w2 then HIGH else LOW) w2.

Definition Update (current_temp_c : float) (w : World) : World :=
  match st_ w with
  | OFF => w
  | st =>
    if flt TEMP_MAX current_temp_c then Off (StartPanic w)
    else
      match st with
      | HEATING =>
        if fle (fadd TARGET_TEMP_C TEMP_ALLOWANCE) current_temp_c then
          let w1 := Off w in
          let w2 := set_controller COOLING (heater_is_off_ w1) w1 in
          SetState LEDState.COOLING w2
        else w
      | COOLING =>
        if fle current_temp_c (fsub TARGET_TEMP_C TEMP_ALLOWANCE) then
          let w1 := On w in
          let w2 := set_controller HEATING (heater_is_off_ w1) w1 in
          SetState LEDState.HEATING w2
        else w
      | OFF => w
      end
  end.

Definition initial_world : World :=
  mkWorld false (replicate MAX_CALLBACKS None) 0%nat
    0%nat false 0 COOLING true 0 0 0%nat [].

Definition setup (w : World) : World :=
  let w1 := emit (PinMode RELAY_PIN OUTPUT) w in
  let w2 := digitalWrite RELAY_PIN RELAY_INACTIVE_STATE w1 in
  let w3 := emit (PinMode LED_BUILTIN OUTPUT) w2 in
  let w4 := SetState LEDState.COOLING w3 in
  let w5 := RegisterCallback (Some CallSetStatePanic) w4 in
  let w6 := RegisterCallback (Some CallOff) w5 in
  emit (SensorBegin ONE_WIRE_BUS_PIN) w6.

(** One pass of [loop]; [tempC] is the reading of the sensor during this
    pass. *)
Definition loop (tempC : float) (w : World) : World :=
  let w1 := LED_Update w in
  let (now, w2) := millis w1 in
  if bool_decide (sub32 now (GLastReadMs w2) < READ_INTERVAL_MS) then w2
  else
    let w3 := set_globals now (GUndetectedCount w2) w2 in
    if IsPanic w3 then Off w3
    else
      let w4 := emit (RequestTemperatures ONE_WIRE_BUS_PIN) w3 in
      if feq tempC DEVICE_DISCONNECTED_C then
        if bool_decide (5 <= GUndetectedCount w4) then Off (StartPanic w4)
        else set_globals (GLastReadMs w4) (GUndetectedCount w4 + 1) w4
      else
        Update tempC (set_globals (GLastReadMs w4) 0 w4).

End Program.

End Legacy.

(** * Executions *)

(** The public operations of the sketch, as a caller can issue them. *)
Inductive Op : Set :=
| OpInit (a : CallbackArray)
| OpStartPanic (r : PanicReason.t) (uid line : Z)
| OpPrintPanic
| OpRegister (tc : option CtrlId)
| OpLEDUpdateState
| OpLEDUpdate
| OpBegin (c : CtrlId)
| OpOff (c : CtrlId)
| OpUpdate (c : CtrlId) (temp_c : float)
| OpLoop (c : CtrlId) (temp_c : float)
| OpSetup
| OpMainLoop (sample : CtrlId -> float).

Section Executions.

Variable clk : nat -> Z.

Definition step (op : Op) (w : World) : World :=
  match op with
  | OpInit a => Panic_Init a w
  | OpStartPanic r uid line => Panic_StartPanic clk r uid line w
  | OpPrintPanic => Panic_PrintPanic w
  | OpRegister tc => LEDMan_Register clk tc w
  | OpLEDUpdateState => LEDMan_UpdateState clk w
  | OpLEDUpdate => LEDMan_Update clk w
  | OpBegin c => TempController_Begin c w
  | OpOff c => TempController_Off c w
  | OpUpdate c temp_c => TempController_Update clk c temp_c w
  | OpLoop c temp_c => TempController_Loop clk c temp_c w
  | OpSetup => setup clk w
  | OpMainLoop sample => loop clk sample w
  end.

Definition run (ops : list Op) (w : World) : World :=
  foldl (fun w op => step op w) w ops.

(** Every operation but [Panic::Init] and [setup], which the sketch runs
    once, before the first pass of [loop]. *)
Definition runtime_op (op : Op) : Prop :=
  match op with
  | OpInit _ | OpSetup => False
  | _ => True
  end.

(** The levels written to [pin], oldest first. *)
Definition pin_writes (pin : Z) (tr : list Event) : list Z :=
  omap (fun e => match e with
                 | DigitalWrite p level =>
                   if bool_decide (p = pin) then Some level else None
                 | _ => None
                 end) tr.

(** The callbacks [cbs], invoked one after the other. *)
Definition invoke_all (cbs : list Callback) (w : World) : World :=
  foldl (fun w cb => invoke cb w) w cbs.

(** The relay write of a shutdown callback. *)
Definition shutdown_write (w : World) (cb : Callback) : Event :=
  match cb with
  | CallOff c => DigitalWrite (relay_pin_ (ctrl c w)) RELAY_INACTIVE_STATE
  end.

(** The non-null callbacks of the table, in the order of their slots. *)
Definition registered_callbacks (w : World) : list Callback :=
  omap id (take (callback_count_ w) (callbacks_ w)).


(** A sequence of [Update] calls on the watchdog of [c], with their
    results. *)
Fixpoint DesyncMan_Updates (c : CtrlId) (ts : list float) (w : World)
    : list bool * World :=
  match ts with
  | [] => ([], w)
  | t :: ts' =>
    let (r, w1) := DesyncMan_Update clk c t w in
    let (rs, w2) := DesyncMan_Updates c ts' w1 in
    (r :: rs, w2)
  end.

(** A sequence of samples fed to [Update]. *)
Definition TempController_Updates (c : CtrlId) (ts : list float) (w : World)
    : World :=
  foldl (fun w t => TempController_Update clk c t w) w ts.

End Executions.

(** * Vocabulary of the statements *)

(** ** Effects on the trace *)

(** Every relay or LED write is of the inactive (low) level. *)
Definition only_low (d : list Event) : Prop :=
  forall p l, DigitalWrite p l ∈ d -> l = RELAY_INACTIVE_STATE.

(** Only output to the serial port. *)
Definition serial_only (d : list Event) : Prop :=
  forall e, e ∈ d -> (exists v, e = SerialPrint v) \/ e = SerialPrintln.

(** No relay is switched on: a write is to the LED or of the inactive
    level. *)
Definition no_activation (d : list Event) : Prop :=
  forall p l, DigitalWrite p l ∈ d ->
    p = LED_BUILTIN \/ l = RELAY_INACTIVE_STATE.

(** Only the status LED and the serial port. *)
Definition indicator_only (d : list Event) : Prop :=
  forall e, e ∈ d ->
    (exists l, e = DigitalWrite LED_BUILTIN l) \/
    (exists v, e = SerialPrint v) \/ e = SerialPrintln.

(** ** Effects on the state *)

(** A controller shut off after a fault: [OFF], output inactive. *)
Definition quench (t : TempController) : TempController :=
  set_heater_is_off true (set_st OFF t).

(** A controller is as it was, or has been shut off. *)
Definition shut (t t' : TempController) : Prop := t' = t \/ t' = quench t.

(** The first three assignments of [StartPanic]: the latch, the clock read
    and the fault record. *)
Definition latch_set (now : Z) (r : PanicReason.t) (uid line : Z) (w : World) :=
  set_panic_info (mkPanicInfo now line uid r)
    (set_reads (S (reads w)) (set_is_panic true w)).

(** An operation that only logs. *)
Definition logs_only (w w' : World) : Prop :=
  exists d, w' = set_trace (trace w ++ d) w /\ serial_only d.

(** An operation that at most shuts controllers off: what the shutdown
    callbacks and the steps around them do. *)
Record shutdown (w w' : World) : Prop := mk_shutdown {
  sd_is_panic : is_panic_ w = true -> is_panic_ w' = true;
  sd_panic_info : is_panic_ w = true -> panic_info_ w' = panic_info_ w;
  sd_callbacks : callbacks_ w' = callbacks_ w;
  sd_callback_count : callback_count_ w' = callback_count_ w;
  sd_controllers : controllers_ w' = controllers_ w;
  sd_num_controllers : num_controllers_ w' = num_controllers_ w;
  sd_currentStateIndex : currentStateIndex_ w' = currentStateIndex_ w;
  sd_ledOn : ledOn_ w' = ledOn_ w;
  sd_lastToggleMs : lastToggleMs_ w' = lastToggleMs_ w;
  sd_GLastReadMs : GLastReadMs w' = GLastReadMs w;
  sd_nico : shut (nico w) (nico w');
  sd_trap : shut (trap w) (trap w');
  sd_trace : exists d, trace w' = trace w ++ d /\ only_low d
}.

(** Everything of a controller but its watchdog. *)
Definition ctl (t : TempController) :=
  (uid_ t, st_ t, heater_is_off_ t, target_ t, max_ t, one_wire_ t,
   relay_pin_ t).

(** An operation that leaves the latch, the tables and the controllers
    (up to their watchdogs) alone and switches no relay on. *)
Record frame (w w' : World) : Prop := mk_frame {
  fr_is_panic : is_panic_ w' = is_panic_ w;
  fr_panic_info : panic_info_ w' = panic_info_ w;
  fr_callbacks : callbacks_ w' = callbacks_ w;
  fr_callback_count : callback_count_ w' = callback_count_ w;
  fr_controllers : controllers_ w' = controllers_ w;
  fr_num_controllers : num_controllers_ w' = num_controllers_ w;
  fr_nico : ctl (nico w') = ctl (nico w);
  fr_trap : ctl (trap w') = ctl (trap w);
  fr_trace : exists d, trace w' = trace w ++ d /\ no_activation d
}.

(** What the constructor of a controller fixes. *)
Definition consts (t : TempController) :=
  (uid_ t, target_ t, max_ t, one_wire_ t, relay_pin_ t).

(** ** Invariants *)

(** A controller in [OFF] has its output inactive, and the latch is
    triggered. *)
Definition off_ok (c : CtrlId) (w : World) : Prop :=
  st_ (ctrl c w) = OFF ->
  heater_is_off_ (ctrl c w) = true /\ is_panic_ w = true.

(** The registry of [LEDMan]: four slots, at most four entries, none of
    them null. *)
Definition registry_ok (w : World) : Prop :=
  length (controllers_ w) = MAX_CONTROLLERS /\
  (num_controllers_ w <= MAX_CONTROLLERS)%nat /\
  forall i, (i < num_controllers_ w)%nat ->
    exists c, controllers_ w !! i = Some (Some c).

(** What every operation keeps: the triggered latch with its record, the
    constants of the controllers, [off_ok] and [registry_ok]. *)
Record evolves (w w' : World) : Prop := mk_evolves {
  ev_is_panic : is_panic_ w = true -> is_panic_ w' = true;
  ev_panic_info : is_panic_ w = true -> panic_info_ w' = panic_info_ w;
  ev_consts : forall c, consts (ctrl c w') = consts (ctrl c w);
  ev_off_ok : forall c, off_ok c w -> off_ok c w';
  ev_registry : registry_ok w -> registry_ok w'
}.

(** Every controller has a shutdown callback in the table. *)
Definition covered (w : World) : Prop :=
  forall c, exists i,
    (i < callback_count_ w)%nat /\ (i < UCHAR_RANGE)%nat /\
    callbacks_ w !! i = Some (Some (CallOff c)).

(** Every controller is in [OFF] with its output inactive. *)
Definition all_off (w : World) : Prop :=
  forall c, st_ (ctrl c w) = OFF /\ heater_is_off_ (ctrl c w) = true.

(** The sketch after [setup]: a callback for every controller, and all
    controllers off once the latch is triggered. *)
Definition fail_safe (w : World) : Prop :=
  covered w /\ (is_panic_ w = true -> all_off w).

(** What every operation of a run keeps: the callback table and
    [fail_safe]; and from a triggered latch with all controllers off it
    stays there and switches no relay on. *)
Record safe_run (w w' : World) : Prop := mk_safe_run {
  sr_callbacks : callbacks_ w' = callbacks_ w;
  sr_callback_count : callback_count_ w' = callback_count_ w;
  sr_fail_safe : fail_safe w -> is_panic_ w' = true -> all_off w';
  sr_latched :
    is_panic_ w = true -> all_off w ->
    is_panic_ w' = true /\ all_off w' /\
    exists d, trace w' = trace w ++ d /\ no_activation d
}.

(** ** The watchdog, the band and the LED *)

(** The test of [DesyncMan::Update], against the baseline [d] at clock
    value [now]. *)
Definition no_rise (d : DesyncMan) (now : Z) (t : float) : Prop :=
  TIME_TO_WAIT <= sub32 now (start_time_ d) /\
  flt (fsub t (start_temp_ d)) NEEDED_TEMP_CHANGE = true.

(** The sample is strictly inside the band around the target of [c]. *)
Definition in_band (c : CtrlId) (w : World) (t : float) : Prop :=
  flt (fsub (target_ (ctrl c w)) TEMP_ALLOWANCE) t = true /\
  flt t (fadd (target_ (ctrl c w)) TEMP_ALLOWANCE) = true.

(** Some registered controller reports [IsHeating]. *)
Definition some_heating (w : World) : Prop :=
  exists j c, (j < num_controllers_ w)%nat /\
    controllers_ w !! j = Some (Some c) /\
    TempController_IsHeating c w = true.

(** The fault tests of [Update] in [HEATING]: the sample is at or over
    the maximum, or the watchdog reports no rise. *)
Definition heating_fault (clk : nat -> Z) (c : CtrlId) (t : float)
    (w : World) : bool :=
  fle (max_ (ctrl c w)) t || fst (DesyncMan_Update clk c t w).

(** The cause [Update] records for a fault in [HEATING]. *)
Definition heating_cause (c : CtrlId) (t : float) (w : World)
    : PanicReason.t :=
  if fle (max_ (ctrl c w)) t then PanicReason.OverMax
  else PanicReason.DesyncNoRise.

(** ** Clocks of the concrete runs *)

(** Two reads one second into the run, the later ones three minutes
    after. *)
Definition clk_three_minutes (n : nat) : Z :=
  if (n <? 2)%nat then 1000 else 181000.

(** A clock that advances by 2.5 s from one read to the next. *)
Definition clk_steady (n : nat) : Z := 2500 * Z.of_nat (S n).

(** [nico] reads 23.0 and starts heating, [trap] reads disconnected. *)
Definition sample_fault (c : CtrlId) : float :=
  match c with Nico => f32 23 0 | Trap => DEVICE_DISCONNECTED_C end.

(** ** Moves of the sketch *)

(** No relay is written: every write is to the status LED. *)
Definition LED_writes_only (d : list Event) : Prop :=
  forall p l, DigitalWrite p l ∈ d -> p = LED_BUILTIN.

(** An operation that leaves the latch, the tables and the controllers
    (up to their watchdogs) alone and writes no relay. *)
Record silent (w w' : World) : Prop := mk_silent {
  si_is_panic : is_panic_ w' = is_panic_ w;
  si_panic_info : panic_info_ w' = panic_info_ w;
  si_callbacks : callbacks_ w' = callbacks_ w;
  si_callback_count : callback_count_ w' = callback_count_ w;
  si_controllers : controllers_ w' = controllers_ w;
  si_num_controllers : num_controllers_ w' = num_controllers_ w;
  si_nico : ctl (nico w') = ctl (nico w);
  si_trap : ctl (trap w') = ctl (trap w);
  si_trace : exists d, trace w' = trace w ++ d /\ LED_writes_only d
}.

(** The branch of [Update] that leaves [COOLING]. *)
Definition enter_heating (c : CtrlId) (w : World) : World :=
  let w2 := TempController_On c (DesyncMan_Reset c w) in
  set_ctrl c (set_st HEATING (ctrl c w2)) w2.

(** The branch of [Update] that leaves [HEATING] for [COOLING]. *)
Definition leave_heating (c : CtrlId) (w : World) : World :=
  let w2 := TempController_Off c w in
  set_ctrl c (set_st COOLING (ctrl c w2)) w2.

(** The store of [LEDMan::Register]. *)
Definition register_store (c : CtrlId) (w : World) : World :=
  set_controllers (<[num_controllers_ w := Some c]> (controllers_ w))
    (S (num_controllers_ w)) w.

(** [Inv] is kept by the moves every operation of a run is made of; [ok]
    holds of the causes the latch may be triggered with. *)
Record stable (ok : PanicReason.t -> Prop) (Inv : World -> Prop) : Prop :=
  mk_stable {
  sb_silent : forall w w', silent w w' -> Inv w -> Inv w';
  sb_Off : forall c w, Inv w -> Inv (TempController_Off c w);
  sb_latch : forall now r u l w,
    is_panic_ w = false -> ok r -> Inv w -> Inv (latch_set now r u l w);
  sb_heat : forall c w,
    st_ (ctrl c w) = COOLING -> Inv w -> Inv (enter_heating c w);
  sb_cool : forall c w,
    st_ (ctrl c w) = HEATING -> Inv w -> Inv (leave_heating c w);
  sb_register : forall c w,
    (num_controllers_ w < MAX_CONTROLLERS)%nat -> Inv w ->
    Inv (register_store c w)
}.

(** The causes the sketch itself raises. *)
Definition sketch_causes (ok : PanicReason.t -> Prop) : Prop :=
  ok PanicReason.SensorDisconnected /\ ok PanicReason.OverMax /\
  ok PanicReason.DesyncNoRise /\ ok PanicReason.LEDRegisterFail.

(** A direct [StartPanic] has a cause of [ok]. *)
Definition caused (ok : PanicReason.t -> Prop) (op : Op) : Prop :=
  match op with
  | OpStartPanic r _ _ => ok r
  | _ => True
  end.

(** The operations of the passes of [loop]: not [Init], [setup] or
    [Begin]. *)
Definition pass_op (op : Op) : Prop :=
  match op with
  | OpInit _ | OpSetup | OpBegin _ => False
  | _ => True
  end.

(** ** Further invariants *)

(** Any cause but [None]. *)
Definition named (r : PanicReason.t) : Prop := r <> PanicReason.None.

(** Any cause. *)
Definition any_cause (r : PanicReason.t) : Prop := True.

(** The fault record is the initial one until the latch is triggered, and
    names a cause afterwards. *)
Definition record_ok (w : World) : Prop :=
  (is_panic_ w = false ->
   panic_info_ w = mkPanicInfo 0 0 0 PanicReason.None) /\
  (is_panic_ w = true -> reason (panic_info_ w) <> PanicReason.None).

(** What [PrintPanic] prints of a record with a cause. *)
Definition panic_report (i : PanicInfo) : list Event :=
  [SerialPrint (PStr "Panic (latched):"); SerialPrintln;
   SerialPrint (PStr "  Reason: ");
   SerialPrint (PStr (PanicReasonStr (reason i))); SerialPrintln;
   SerialPrint (PStr "  UID: "); SerialPrint (PInt (uid i)); SerialPrintln;
   SerialPrint (PStr "  Line: "); SerialPrint (PInt (line i)); SerialPrintln;
   SerialPrint (PStr "  Millis: "); SerialPrint (PInt (ms i)); SerialPrintln].

(** An active output belongs to a controller in [HEATING]. *)
Definition active_is_heating (w : World) : Prop :=
  forall c, heater_is_off_ (ctrl c w) = false -> st_ (ctrl c w) = HEATING.

(** The level the output flag of a controller stands for. *)
Definition relay_level (t : TempController) : Z :=
  if heater_is_off_ t then RELAY_INACTIVE_STATE else RELAY_ACTIVE_STATE.

(** The relays have pins of their own, and the last level written to each
    is the one its controller's flag stands for. *)
Definition relays_agree (w : World) : Prop :=
  relay_pin_ (nico w) <> relay_pin_ (trap w) /\
  (forall c, relay_pin_ (ctrl c w) <> LED_BUILTIN) /\
  forall c, last (pin_writes (relay_pin_ (ctrl c w)) (trace w)) =
            Some (relay_level (ctrl c w)).

(** ** The legacy sketch in operation *)

(** The passes of the legacy [loop], one for every reading. *)
Definition Legacy_run (clk : nat -> Z) (ts : list float)
    (w : Legacy.World) : Legacy.World :=
  foldl (fun w t => Legacy.loop clk t w) w ts.

(** The callback table the legacy [setup] builds. *)
Definition Legacy_table : list (option Legacy.Callback) :=
  [Some Legacy.CallSetStatePanic; Some Legacy.CallOff; None; None].

(** The legacy statics between two passes: the table of [setup]; with the
    latch triggered the heater is off, the controller is not in
    [HEATING] and the LED shows the panic pattern; with the latch
    untriggered the controller is in [HEATING] with the heater on or in
    [COOLING] with the heater off, and the LED shows the pattern of that
    state; the relay has last been written the level of the heater flag;
    and at most five missing readings are counted. *)
Definition Legacy_sound (w : Legacy.World) : Prop :=
  Legacy.callbacks_ w = Legacy_table /\
  Legacy.callback_count_ w = 2%nat /\
  (Legacy.is_panic_ w = true ->
   Legacy.heater_is_off_ w = true /\ Legacy.st_ w <> HEATING /\
   Legacy.currentStateIndex_ w = Legacy.LEDState.PANIC) /\
  (Legacy.is_panic_ w = false ->
   (Legacy.st_ w = HEATING /\ Legacy.heater_is_off_ w = false /\
    Legacy.currentStateIndex_ w = Legacy.LEDState.HEATING) \/
   (Legacy.st_ w = COOLING /\ Legacy.heater_is_off_ w = true /\
    Legacy.currentStateIndex_ w = Legacy.LEDState.COOLING)) /\
  last (pin_writes Legacy.RELAY_PIN (Legacy.trace w)) =
    Some (if Legacy.heater_is_off_ w then RELAY_INACTIVE_STATE
          else RELAY_ACTIVE_STATE) /\
  0 <= Legacy.GUndetectedCount w <= 5.

(** * Proofs *)

(** ** Comparison of binary32 numbers *)

Lemma SFcompare_Lt_Gt (a b : float) :
  SFcompare a b = Some Lt -> SFcompare b a = Some Gt.
Proof.
  destruct a as [sa|sa| |sa ma ea], b as [sb|sb| |sb mb eb]; simpl;
    try discriminate; try (destruct sa; discriminate);
    try (destruct sb; discriminate);
    try (destruct sa, sb; (discriminate || reflexivity)).
  change (Pos.compare_cont Eq ma mb) with (Pos.compare ma mb).
  change (Pos.compare_cont Eq mb ma) with (Pos.compare mb ma).
  rewrite (Z.compare_antisym ea eb), (Pos.compare_antisym ma mb).
  destruct sa, sb, (ea ?= eb)%Z, (ma ?= mb)%positive; simpl;
    intros; congruence.
Qed.

(** [a < b] excludes [b <= a]. *)
Lemma flt_not_fle (a b : float) : flt a b = true -> fle b a = false.
Proof.
  unfold flt, fle, SFltb, SFleb. intros H.
  destruct (SFcompare a b) as [[]|] eqn:E; try discriminate.
  now rewrite (SFcompare_Lt_Gt _ _ E).
Qed.

(** Unfold the operations that are not recursive, down to field updates. *)
Ltac prims :=
  unfold TempController_Off, TempController_On, TempController_IsHeating,
    TempController_Begin, TempController_PrintState,
    DesyncMan_Update, DesyncMan_Begin, DesyncMan_Reset, set_desync,
    Panic_PrintPanic, Panic_IsPanic, millis,
    Log_begin, Log_println, Log_print, digitalWrite, pinMode, emit in *.

(** ** Shutting down *)

Lemma shut_refl t : shut t t.
Proof. now left. Qed.

Lemma shut_trans t1 t2 t3 : shut t1 t2 -> shut t2 t3 -> shut t1 t3.
Proof. intros [->| ->] [->| ->]; unfold shut; auto. Qed.

Lemma only_low_nil : only_low [].
Proof. intros p l H. inversion H. Qed.

Lemma only_low_app d1 d2 : only_low d1 -> only_low d2 -> only_low (d1 ++ d2).
Proof.
  intros H1 H2 p l [H|H]%elem_of_app; eauto.
Qed.

Lemma only_low_prints vs : only_low (map SerialPrint vs).
Proof.
  intros p l H. apply list_elem_of_In, in_map_iff in H as (v & Hv & _).
  discriminate.
Qed.

(** What [Off] does, field by field. *)
Lemma Off_world c w :
  TempController_Off c w =
  set_ctrl c
    (set_heater_is_off true
       (if is_panic_ w then set_st OFF (ctrl c w) else ctrl c w))
    (set_trace
       (trace w ++ [DigitalWrite (relay_pin_ (ctrl c w)) RELAY_INACTIVE_STATE])
       w).
Proof. destruct c, w; prims; cbn; now case_match. Qed.

Lemma shutdown_refl w : shutdown w w.
Proof.
  split; auto using shut_refl.
  exists []. split; [now rewrite app_nil_r | apply only_low_nil].
Qed.

Lemma shutdown_trans w1 w2 w3 :
  shutdown w1 w2 -> shutdown w2 w3 -> shutdown w1 w3.
Proof.
  intros H1 H2.
  destruct (sd_trace _ _ H1) as (d1 & E1 & L1).
  destruct (sd_trace _ _ H2) as (d2 & E2 & L2).
  destruct H1, H2. split; try congruence; eauto using shut_trans.
  - intros H. rewrite sd_panic_info1; auto.
  - exists (d1 ++ d2). split; [|now apply only_low_app].
    now rewrite E2, E1, app_assoc.
Qed.

Lemma shutdown_ctrl c w w' : shutdown w w' -> shut (ctrl c w) (ctrl c w').
Proof. intros []. now destruct c. Qed.

Lemma Off_shutdown c w : is_panic_ w = true -> shutdown w (TempController_Off c w).
Proof.
  intros H. rewrite Off_world, H.
  destruct c, w; cbn in *; split; cbn; auto using shut_refl;
    try (right; reflexivity);
    eexists; (split; [reflexivity|]);
    intros p l E%list_elem_of_singleton; congruence.
Qed.

Lemma Off_latch c w :
  is_panic_ (TempController_Off c w) = is_panic_ w /\
  panic_info_ (TempController_Off c w) = panic_info_ w /\
  reads (TempController_Off c w) = reads w.
Proof. rewrite Off_world. now destruct c, w. Qed.

Lemma run_callbacks_latch n : forall i w,
  is_panic_ (Panic_run_callbacks n i w) = is_panic_ w /\
  panic_info_ (Panic_run_callbacks n i w) = panic_info_ w /\
  reads (Panic_run_callbacks n i w) = reads w.
Proof.
  induction n as [|n IH]; intros i w; cbn; [easy|].
  case_bool_decide; [|easy].
  destruct (callbacks_ w !! i) as [[[c]|]|]; [|apply IH..].
  unfold invoke.
  destruct (IH (S i) (TempController_Off c w)) as (-> & -> & ->).
  apply Off_latch.
Qed.

Lemma run_callbacks_shutdown n : forall i w,
  is_panic_ w = true -> shutdown w (Panic_run_callbacks n i w).
Proof.
  induction n as [|n IH]; intros i w H; cbn; [apply shutdown_refl|].
  case_bool_decide; [|apply shutdown_refl].
  destruct (callbacks_ w !! i) as [[[c]|]|]; [|now apply IH..].
  unfold invoke.
  eapply shutdown_trans; [now apply Off_shutdown|].
  apply IH. now rewrite (proj1 (Off_latch c w)).
Qed.

Lemma serial_only_only_low d : serial_only d -> only_low d.
Proof. intros H p l [(v & [=])|[=]]%H. Qed.

Lemma serial_only_app d1 d2 :
  serial_only d1 -> serial_only d2 -> serial_only (d1 ++ d2).
Proof. intros H1 H2 e [H|H]%elem_of_app; eauto. Qed.

Lemma serial_only_prints vs : serial_only (map SerialPrint vs).
Proof.
  intros e H. apply list_elem_of_In, in_map_iff in H as (v & <- & _).
  left. now exists v.
Qed.

Lemma serial_only_println : serial_only [SerialPrintln].
Proof. intros e H%list_elem_of_singleton. now right. Qed.

Lemma logs_only_trans w1 w2 w3 :
  logs_only w1 w2 -> logs_only w2 w3 -> logs_only w1 w3.
Proof.
  intros (d1 & -> & H1) (d2 & -> & H2). exists (d1 ++ d2).
  split; [|now apply serial_only_app]. cbn. now rewrite app_assoc.
Qed.

Lemma Log_print_logs vs w : logs_only w (Log_print vs w).
Proof. exists (map SerialPrint vs). split; [easy|apply serial_only_prints]. Qed.

Lemma Log_println_logs vs w : logs_only w (Log_println vs w).
Proof.
  eapply logs_only_trans; [apply (Log_print_logs vs)|].
  exists [SerialPrintln]. split; [easy|apply serial_only_println].
Qed.

Lemma PrintPanic_logs w : logs_only w (Panic_PrintPanic w).
Proof.
  unfold Panic_PrintPanic.
  destruct (reason (panic_info_ w)); cbv zeta;
    [ apply Log_println_logs | .. ];
    do 4 (eapply logs_only_trans;
            [|eapply logs_only_trans;
                [apply Log_print_logs|apply Log_println_logs]]);
    apply Log_println_logs.
Qed.

Lemma logs_only_shutdown w w' : logs_only w w' -> shutdown w w'.
Proof.
  intros (d & -> & H). destruct w; split; cbn; auto using shut_refl.
  exists d. auto using serial_only_only_low.
Qed.

Lemma logs_only_latch w w' :
  logs_only w w' ->
  is_panic_ w' = is_panic_ w /\ panic_info_ w' = panic_info_ w /\
  reads w' = reads w.
Proof. now intros (d & -> & H). Qed.

(** The fuel of the callback loop covers the callback table; from here on
    it is not unfolded. *)
Lemma UCHAR_RANGE_bound : (MAX_CALLBACKS <= UCHAR_RANGE)%nat.
Proof. unfold MAX_CALLBACKS, UCHAR_RANGE. lia. Qed.

#[local] Opaque UCHAR_RANGE.

Section PanicFacts.
Variable clk : nat -> Z.

Lemma StartPanic_unfold r u l w :
  is_panic_ w = false ->
  Panic_StartPanic clk r u l w =
  Panic_PrintPanic
    (Log_println [PStr "PANIC START"]
       (Panic_run_callbacks UCHAR_RANGE 0
          (latch_set (wrap32 (clk (reads w))) r u l w))).
Proof. unfold Panic_StartPanic. now intros ->. Qed.

Lemma StartPanic_latched r u l w :
  is_panic_ w = true -> Panic_StartPanic clk r u l w = w.
Proof. unfold Panic_StartPanic. now intros ->. Qed.

Lemma StartPanic_spec r u l w :
  let w' := Panic_StartPanic clk r u l w in
  is_panic_ w' = true /\
  shutdown w w' /\
  (is_panic_ w = false ->
   panic_info_ w' = mkPanicInfo (wrap32 (clk (reads w))) l u r /\
   reads w' = S (reads w)).
Proof.
  destruct (is_panic_ w) eqn:E; cbv zeta.
  { rewrite StartPanic_latched by exact E.
    split; [exact E|split; [apply shutdown_refl|discriminate]]. }
  rewrite StartPanic_unfold by exact E.
  remember (latch_set (wrap32 (clk (reads w))) r u l w) as w1 eqn:E1.
  remember (Panic_run_callbacks UCHAR_RANGE 0 w1) as w2 eqn:E2.
  assert (logs_only w2 (Panic_PrintPanic (Log_println [PStr "PANIC START"] w2)))
    as L by (eapply logs_only_trans;
               [apply Log_println_logs|apply PrintPanic_logs]).
  assert (is_panic_ w1 = true) as P1 by now subst w1.
  destruct (logs_only_latch _ _ L) as (-> & -> & ->).
  rewrite E2.
  destruct (run_callbacks_latch UCHAR_RANGE 0 w1) as (-> & -> & ->).
  split; [exact P1|]. split; [|now subst w1].
  assert (shutdown w w1) as S1.
  { subst w1. destruct w; cbn in E; subst; split; cbn;
      auto using shut_refl; try discriminate.
    exists []. split; [now rewrite app_nil_r|apply only_low_nil]. }
  eapply shutdown_trans; [exact S1|].
  eapply shutdown_trans; [now apply run_callbacks_shutdown|].
  rewrite <- E2. now apply logs_only_shutdown.
Qed.

End PanicFacts.

Arguments Panic_StartPanic : simpl never.

(** ** Steps that leave the latch and the outputs alone *)

Lemma no_activation_nil : no_activation [].
Proof. intros p l H. inversion H. Qed.

Lemma no_activation_app d1 d2 :
  no_activation d1 -> no_activation d2 -> no_activation (d1 ++ d2).
Proof. intros H1 H2 p l [H|H]%elem_of_app; eauto. Qed.

Lemma only_low_no_activation d : only_low d -> no_activation d.
Proof. intros H p l Hin. right. eauto. Qed.

Lemma frame_refl w : frame w w.
Proof.
  split; auto. exists []. split; [now rewrite app_nil_r|apply no_activation_nil].
Qed.

Lemma frame_trans w1 w2 w3 : frame w1 w2 -> frame w2 w3 -> frame w1 w3.
Proof.
  intros H1 H2.
  destruct (fr_trace _ _ H1) as (d1 & E1 & L1).
  destruct (fr_trace _ _ H2) as (d2 & E2 & L2).
  destruct H1, H2. split; try congruence.
  exists (d1 ++ d2). split; [|now apply no_activation_app].
  now rewrite E2, E1, app_assoc.
Qed.

Lemma frame_ctrl c w w' : frame w w' -> ctl (ctrl c w') = ctl (ctrl c w).
Proof. intros []. now destruct c. Qed.

Lemma logs_only_frame w w' : logs_only w w' -> frame w w'.
Proof.
  intros (d & -> & H). destruct w; split; cbn; auto.
  exists d. auto using only_low_no_activation, serial_only_only_low.
Qed.

(** A step that appends the events [d] and nothing else one can see from
    the latch, the tables or the outputs. *)
Ltac frame_by d :=
  split; cbn; auto; exists d; 
  (split; [rewrite ?app_nil_r, <- ?app_assoc; reflexivity|]);
  intros p l Hin; apply list_elem_of_In in Hin; cbn in Hin;
  intuition (try congruence; eauto).

Lemma emit_frame e w :
  (forall p l, e = DigitalWrite p l ->
     p = LED_BUILTIN \/ l = RELAY_INACTIVE_STATE) ->
  frame w (emit e w).
Proof. intros H. destruct w. frame_by [e]. Qed.

Lemma Begin_frame c w : frame w (TempController_Begin c w).
Proof.
  unfold TempController_Begin, pinMode, digitalWrite. cbv zeta.
  eapply frame_trans;
    [eapply frame_trans; [apply emit_frame|apply emit_frame]|apply emit_frame];
    intros p l [=]; auto.
Qed.

Lemma PrintState_frame c t w : frame w (TempController_PrintState c t w).
Proof.
  apply logs_only_frame. unfold TempController_PrintState. cbv zeta.
  eapply logs_only_trans; [apply Log_print_logs|].
  eapply logs_only_trans; [|apply Log_print_logs].
  destruct (st_ _); apply Log_print_logs.
Qed.

Lemma DesyncMan_Reset_frame c w : frame w (DesyncMan_Reset c w).
Proof.
  unfold DesyncMan_Reset, set_desync. destruct c, w; frame_by (@nil Event).
Qed.

Section FrameFacts.
Variable clk : nat -> Z.

Lemma DesyncMan_Update_frame c t w :
  frame w (snd (DesyncMan_Update clk c t w)).
Proof.
  unfold DesyncMan_Update, DesyncMan_Begin, set_desync, millis.
  destruct c, w; cbn; destruct (not_inited_ _); cbn; frame_by (@nil Event).
Qed.

Lemma LEDMan_UpdateState_frame w : frame w (LEDMan_UpdateState clk w).
Proof.
  unfold LEDMan_UpdateState, millis. case_bool_decide; [|apply frame_refl].
  destruct w; frame_by (@nil Event).
Qed.

Lemma LEDMan_Update_frame w : frame w (LEDMan_Update clk w).
Proof.
  unfold LEDMan_Update. cbv zeta.
  eapply frame_trans; [apply LEDMan_UpdateState_frame|].
  generalize (LEDMan_UpdateState clk w). clear w. intros w.
  unfold millis. cbn. case_bool_decide; cbn.
  - destruct w. frame_by [DigitalWrite LED_BUILTIN (if negb ledOn_0 then HIGH else LOW)].
  - destruct w. frame_by [DigitalWrite LED_BUILTIN (if ledOn_0 then HIGH else LOW)].
Qed.

End FrameFacts.

(** ** What every operation keeps *)

Lemma evolves_refl w : evolves w w.
Proof. split; auto. Qed.

Lemma evolves_trans w1 w2 w3 : evolves w1 w2 -> evolves w2 w3 -> evolves w1 w3.
Proof.
  intros [] []. split; auto.
  - intros H. rewrite ev_panic_info1; auto.
  - intros c. rewrite ev_consts1. auto.
Qed.

Lemma frame_evolves w w' : frame w w' -> evolves w w'.
Proof.
  intros H. split.
  - intros <-. apply H.
  - intros _. apply H.
  - intros c. pose proof (frame_ctrl c _ _ H) as E. unfold ctl in E.
    unfold consts. congruence.
  - intros c. unfold off_ok. pose proof (frame_ctrl c _ _ H) as E.
    unfold ctl in E. rewrite (fr_is_panic _ _ H).
    assert (st_ (ctrl c w') = st_ (ctrl c w)) as -> by congruence.
    assert (heater_is_off_ (ctrl c w') = heater_is_off_ (ctrl c w)) as ->
      by congruence.
    auto.
  - unfold registry_ok.
    rewrite (fr_controllers _ _ H), (fr_num_controllers _ _ H). auto.
Qed.

Lemma Off_evolves c w : evolves w (TempController_Off c w).
Proof.
  rewrite Off_world. split.
  - now destruct c, w.
  - now destruct c, w.
  - intros c'. now destruct c, c', w, is_panic_.
  - intros c'. unfold off_ok.
    destruct c, c', w, is_panic_; cbn; intuition congruence.
  - unfold registry_ok. now destruct c, w.
Qed.

Lemma shut_consts t t' : shut t t' -> consts t' = consts t.
Proof. now intros [->| ->]. Qed.

Lemma shutdown_evolves w w' :
  is_panic_ w' = true -> shutdown w w' -> evolves w w'.
Proof.
  intros P H. split.
  - auto.
  - apply H.
  - intros c. apply shut_consts, shutdown_ctrl, H.
  - intros c. unfold off_ok. rewrite P.
    destruct (shutdown_ctrl c _ _ H) as [->| ->]; cbn; intuition.
  - unfold registry_ok.
    rewrite (sd_controllers _ _ H), (sd_num_controllers _ _ H). auto.
Qed.

Lemma Init_evolves a w : evolves w (Panic_Init a w).
Proof. split; auto; intros c; now destruct c. Qed.

Section EvolvesFacts.
Variable clk : nat -> Z.

Lemma StartPanic_evolves r u l w : evolves w (Panic_StartPanic clk r u l w).
Proof.
  destruct (StartPanic_spec clk r u l w) as (P & S & _).
  now apply shutdown_evolves.
Qed.

Lemma registry_ok_insert c w :
  registry_ok w -> (num_controllers_ w < MAX_CONTROLLERS)%nat ->
  registry_ok
    (set_controllers (<[num_controllers_ w := Some c]> (controllers_ w))
       (S (num_controllers_ w)) w).
Proof.
  intros (L & B & E) Hlt. unfold registry_ok. cbn.
  rewrite length_insert. split; [exact L|]. split; [lia|].
  intros i Hi. destruct (decide (i = num_controllers_ w)) as [->|Hne].
  - exists c. apply list_lookup_insert_eq. lia.
  - rewrite list_lookup_insert_ne by congruence. apply E. lia.
Qed.

Lemma Register_evolves tc w : evolves w (LEDMan_Register clk tc w).
Proof.
  unfold LEDMan_Register, PANIC. destruct tc as [c|].
  2: apply StartPanic_evolves.
  case_bool_decide; [apply StartPanic_evolves|].
  split; auto.
  intros R. apply registry_ok_insert; [exact R|lia].
Qed.

End EvolvesFacts.

(** ** Reading a field of an updated controller *)

Section SetCtrl.
Variables (c : CtrlId) (t : TempController) (w : World).

Lemma ctrl_set_ctrl_eq : ctrl c (set_ctrl c t w) = t.
Proof. now destruct c. Qed.
Lemma ctrl_set_ctrl_ne c' : c' <> c -> ctrl c' (set_ctrl c t w) = ctrl c' w.
Proof. now destruct c, c'. Qed.
Lemma is_panic_set_ctrl : is_panic_ (set_ctrl c t w) = is_panic_ w.
Proof. now destruct c. Qed.
Lemma panic_info_set_ctrl : panic_info_ (set_ctrl c t w) = panic_info_ w.
Proof. now destruct c. Qed.
Lemma controllers_set_ctrl : controllers_ (set_ctrl c t w) = controllers_ w.
Proof. now destruct c. Qed.
Lemma num_controllers_set_ctrl :
  num_controllers_ (set_ctrl c t w) = num_controllers_ w.
Proof. now destruct c. Qed.
Lemma trace_set_ctrl : trace (set_ctrl c t w) = trace w.
Proof. now destruct c. Qed.
End SetCtrl.

Lemma On_world c w :
  TempController_On c w =
  if heater_is_off_ (ctrl c w)
  then set_ctrl c (set_heater_is_off false (ctrl c w))
         (set_trace
            (trace w ++ [DigitalWrite (relay_pin_ (ctrl c w)) RELAY_ACTIVE_STATE])
            w)
  else w.
Proof.
  unfold TempController_On, digitalWrite, emit.
  destruct c, w; cbn; now destruct (heater_is_off_ _).
Qed.

(** Entering [HEATING] or [COOLING], with whatever [f] does to the output. *)
Lemma set_st_evolves c st (f : World -> World) w :
  st <> OFF ->
  (forall w, is_panic_ (f w) = is_panic_ w /\
             panic_info_ (f w) = panic_info_ w /\
             controllers_ (f w) = controllers_ w /\
             num_controllers_ (f w) = num_controllers_ w /\
             consts (ctrl c (f w)) = consts (ctrl c w) /\
             forall c', c' <> c -> ctrl c' (f w) = ctrl c' w) ->
  evolves w (set_ctrl c (set_st st (ctrl c (f w))) (f w)).
Proof.
  intros Hst Hf. destruct (Hf w) as (P & I & C & N & K & O). split.
  - intros <-. now destruct c.
  - intros _. now destruct c.
  - intros c'. destruct (decide (c' = c)) as [->|Hne].
    + rewrite ctrl_set_ctrl_eq. exact K.
    + rewrite ctrl_set_ctrl_ne by exact Hne. now rewrite O.
  - intros c'. unfold off_ok. destruct (decide (c' = c)) as [->|Hne].
    + rewrite ctrl_set_ctrl_eq. cbn. congruence.
    + rewrite ctrl_set_ctrl_ne, is_panic_set_ctrl, O, P by exact Hne. auto.
  - unfold registry_ok.
    now rewrite controllers_set_ctrl, num_controllers_set_ctrl, C, N.
Qed.

Lemma Off_keeps c w :
  is_panic_ (TempController_Off c w) = is_panic_ w /\
  panic_info_ (TempController_Off c w) = panic_info_ w /\
  controllers_ (TempController_Off c w) = controllers_ w /\
  num_controllers_ (TempController_Off c w) = num_controllers_ w /\
  consts (ctrl c (TempController_Off c w)) = consts (ctrl c w) /\
  forall c', c' <> c -> ctrl c' (TempController_Off c w) = ctrl c' w.
Proof.
  rewrite Off_world. destruct c, w, is_panic_; cbn; repeat split; auto;
    intros [] ?; cbn; congruence.
Qed.

Lemma On_keeps c w :
  is_panic_ (TempController_On c w) = is_panic_ w /\
  panic_info_ (TempController_On c w) = panic_info_ w /\
  controllers_ (TempController_On c w) = controllers_ w /\
  num_controllers_ (TempController_On c w) = num_controllers_ w /\
  consts (ctrl c (TempController_On c w)) = consts (ctrl c w) /\
  forall c', c' <> c -> ctrl c' (TempController_On c w) = ctrl c' w.
Proof.
  rewrite On_world. destruct c, w; cbn; destruct (heater_is_off_ _); cbn;
    repeat split; auto; intros [] ?; cbn; congruence.
Qed.

Section UpdateFacts.
Variable clk : nat -> Z.

Lemma panic_Off_evolves r u l c w :
  evolves w (TempController_Off c (PANIC clk u r l w)).
Proof.
  eapply evolves_trans; [apply StartPanic_evolves|apply Off_evolves].
Qed.

Lemma Update_evolves c t w : evolves w (TempController_Update clk c t w).
Proof.
  unfold TempController_Update.
  destruct (st_ (ctrl c w)) eqn:St; [| |apply evolves_refl];
    (destruct (fle (max_ (ctrl c w)) t); [apply panic_Off_evolves|]).
  - destruct (DesyncMan_Update clk c t w) as [desync w1] eqn:D.
    assert (evolves w w1) as E1.
    { replace w1 with (snd (DesyncMan_Update clk c t w)) by now rewrite D.
      apply frame_evolves, DesyncMan_Update_frame. }
    destruct desync.
    { eapply evolves_trans; [exact E1|apply panic_Off_evolves]. }
    destruct (fle _ t); [|exact E1].
    eapply evolves_trans; [exact E1|].
    apply (set_st_evolves c COOLING (TempController_Off c));
      [discriminate|apply Off_keeps].
  - destruct (fle t _); [|apply evolves_refl].
    eapply evolves_trans;
      [apply frame_evolves, (DesyncMan_Reset_frame c)|].
    apply (set_st_evolves c HEATING (TempController_On c));
      [discriminate|apply On_keeps].
Qed.

Lemma Loop_evolves c t w : evolves w (TempController_Loop clk c t w).
Proof.
  unfold TempController_Loop, Panic_IsPanic.
  destruct (is_panic_ w); [apply evolves_refl|]. cbv zeta.
  assert (evolves w (emit (RequestTemperatures (one_wire_ (ctrl c w))) w))
    as E by (apply frame_evolves, emit_frame; intros p l [=]).
  eapply evolves_trans; [exact E|].
  destruct (feq t DEVICE_DISCONNECTED_C).
  - eapply evolves_trans; [apply StartPanic_evolves|].
    apply frame_evolves, logs_only_frame, Log_println_logs.
  - eapply evolves_trans;
      [apply frame_evolves, PrintState_frame|apply Update_evolves].
Qed.

Lemma setup_evolves w : evolves w (setup clk w).
Proof.
  unfold setup. cbv zeta.
  repeat first
    [ apply evolves_refl
    | eapply evolves_trans; [|apply Register_evolves]
    | eapply evolves_trans; [|apply Init_evolves]
    | eapply evolves_trans;
        [|apply frame_evolves, logs_only_frame, Log_println_logs]
    | eapply evolves_trans; [|apply frame_evolves, Begin_frame]
    | eapply evolves_trans;
        [|apply frame_evolves, emit_frame; intros p l [=]] ].
Qed.

Lemma loop_evolves sample w : evolves w (loop clk sample w).
Proof.
  unfold loop. cbv zeta.
  eapply evolves_trans; [apply frame_evolves, (LEDMan_Update_frame clk)|].
  generalize (LEDMan_Update clk w). clear w. intros w.
  unfold millis, Panic_IsPanic. cbn.
  assert (forall v, evolves w (set_reads v w)) as Er
    by (intros v; destruct w; split; auto; intros []; auto).
  case_bool_decide; [apply Er|].
  eapply evolves_trans; [apply (Er (S (reads w)))|].
  eapply evolves_trans.
  { instantiate (1 := set_GLastReadMs (wrap32 (clk (reads w)))
                        (set_reads (S (reads w)) w)).
    destruct w; split; auto; intros []; auto. }
  destruct (is_panic_ w).
  - apply frame_evolves, logs_only_frame, PrintPanic_logs.
  - eapply evolves_trans; apply Loop_evolves.
Qed.

Lemma step_evolves op w : evolves w (step clk op w).
Proof.
  destruct op; cbn [step].
  - apply Init_evolves.
  - apply StartPanic_evolves.
  - apply frame_evolves, logs_only_frame, PrintPanic_logs.
  - apply Register_evolves.
  - apply frame_evolves, LEDMan_UpdateState_frame.
  - apply frame_evolves, LEDMan_Update_frame.
  - apply frame_evolves, Begin_frame.
  - apply Off_evolves.
  - apply Update_evolves.
  - apply Loop_evolves.
  - apply setup_evolves.
  - apply loop_evolves.
Qed.

Lemma run_evolves ops : forall w, evolves w (run clk ops w).
Proof.
  induction ops as [|op ops IH]; intros w; [apply evolves_refl|].
  cbn. eapply evolves_trans; [apply step_evolves|apply IH].
Qed.

End UpdateFacts.

(** ** The callback loop, as a fold over the registered callbacks *)

Lemma Off_trace c w :
  trace (TempController_Off c w) =
  trace w ++ [DigitalWrite (relay_pin_ (ctrl c w)) RELAY_INACTIVE_STATE].
Proof. rewrite Off_world. now destruct c, w. Qed.

Lemma invoke_table cb w :
  callbacks_ (invoke cb w) = callbacks_ w /\
  callback_count_ (invoke cb w) = callback_count_ w.
Proof. destruct cb as [c]. cbn. rewrite Off_world. now destruct c, w. Qed.

Lemma run_callbacks_foldl n : forall i w,
  (callback_count_ w <= i + n)%nat ->
  Panic_run_callbacks n i w =
  invoke_all
    (omap id (take (callback_count_ w - i) (drop i (callbacks_ w)))) w.
Proof.
  induction n as [|n IH]; intros i w Hle; cbn [Panic_run_callbacks].
  { replace (callback_count_ w - i)%nat with 0%nat by lia. reflexivity. }
  case_bool_decide as Hi.
  2: { replace (callback_count_ w - i)%nat with 0%nat by lia. reflexivity. }
  replace (callback_count_ w - i)%nat with (S (callback_count_ w - S i)) by lia.
  destruct (callbacks_ w !! i) as [o|] eqn:L.
  - rewrite (drop_S _ _ _ L). cbn [take omap].
    destruct o as [cb|]; cbn.
    + destruct (invoke_table cb w) as (Ec & En).
      rewrite IH by (rewrite En; lia). now rewrite Ec, En.
    + apply IH. lia.
  - apply lookup_ge_None in L.
    rewrite IH by lia. rewrite !drop_ge by lia. now rewrite !take_nil.
Qed.

Lemma invoke_all_trace cbs : forall w,
  trace (invoke_all cbs w) = trace w ++ map (shutdown_write w) cbs.
Proof.
  induction cbs as [|[c] cbs IH]; intros w; cbn.
  { now rewrite app_nil_r. }
  change (foldl _ ?w0 cbs) with (invoke_all cbs w0). rewrite IH.
  rewrite Off_trace, <- app_assoc. cbn. do 2 f_equal.
  apply map_ext. intros [c']. cbn.
  pose proof (ev_consts _ _ (Off_evolves c w) c') as E.
  unfold consts in E. congruence.
Qed.

Lemma invoke_all_untouched c cbs : forall w,
  CallOff c ∉ cbs -> ctrl c (invoke_all cbs w) = ctrl c w.
Proof.
  induction cbs as [|[c'] cbs IH]; intros w Hn; cbn; [reflexivity|].
  change (foldl _ ?w0 cbs) with (invoke_all cbs w0).
  apply not_elem_of_cons in Hn as [Hne Hn].
  rewrite IH by exact Hn.
  apply Off_keeps. congruence.
Qed.


Section LatchFacts.
Variable clk : nat -> Z.

Lemma StartPanic_registered r u l w :
  is_panic_ w = false -> (callback_count_ w <= MAX_CALLBACKS)%nat ->
  Panic_StartPanic clk r u l w =
  Panic_PrintPanic
    (Log_println [PStr "PANIC START"]
       (invoke_all (registered_callbacks w)
          (latch_set (wrap32 (clk (reads w))) r u l w))).
Proof.
  intros P B. rewrite StartPanic_unfold by exact P.
  rewrite run_callbacks_foldl by (pose proof UCHAR_RANGE_bound; cbn; lia).
  cbn. now rewrite Nat.sub_0_r.
Qed.

Lemma StartPanic_trace r u l w :
  is_panic_ w = false -> (callback_count_ w <= MAX_CALLBACKS)%nat ->
  exists logs,
    trace (Panic_StartPanic clk r u l w) =
    trace w ++ map (shutdown_write w) (registered_callbacks w) ++ logs /\
    serial_only logs.
Proof.
  intros P B. rewrite StartPanic_registered by assumption.
  set (w1 := latch_set _ r u l w). set (w2 := invoke_all _ w1).
  assert (logs_only w2 (Panic_PrintPanic (Log_println [PStr "PANIC START"] w2)))
    as (logs & -> & Hl)
    by (eapply logs_only_trans; [apply Log_println_logs|apply PrintPanic_logs]).
  exists logs. split; [|exact Hl]. cbn. unfold w2.
  rewrite invoke_all_trace, <- app_assoc.
  replace (map (shutdown_write w1) (registered_callbacks w))
    with (map (shutdown_write w) (registered_callbacks w))
    by (apply map_ext; now intros [[]]).
  reflexivity.
Qed.



End LatchFacts.

(** ** The states of a controller *)

Section StateFacts.
Variable clk : nat -> Z.

(** C3. From the initial state of a controller ([COOLING], output
    inactive) and under any operations: in state [OFF] the output is
    inactive and the latch is triggered, and a step that enters [OFF]
    ends with the latch triggered. *)
Theorem OFF_implies_inactive ops w0 c :
  st_ (ctrl c w0) = COOLING -> heater_is_off_ (ctrl c w0) = true ->
  let w := run clk ops w0 in
  (st_ (ctrl c w) = OFF ->
   heater_is_off_ (ctrl c w) = true /\ Panic_IsPanic w = true) /\
  (forall op,
     st_ (ctrl c w) <> OFF -> st_ (ctrl c (step clk op w)) = OFF ->
     Panic_IsPanic (step clk op w) = true /\
     heater_is_off_ (ctrl c (step clk op w)) = true).
Proof.
  intros St _ w. split.
  - apply (ev_off_ok _ _ (run_evolves clk ops w0) c).
    unfold off_ok. congruence.
  - intros op Hne Hoff.
    destruct (ev_off_ok _ _ (step_evolves clk op w) c) as (H1 & H2);
      [unfold off_ok; congruence|exact Hoff|]. auto.
Qed.

(** C10. [Register] with a null pointer or a full registry triggers the
    latch with [LEDRegisterFail] and leaves the registry as it is;
    otherwise it stores the pointer in the next slot and counts it. The
    registry never holds more than four entries or a null entry. *)
Theorem LEDMan_Register_bounded tc w :
  registry_ok w ->
  let w' := LEDMan_Register clk tc w in
  ((tc = None \/ (MAX_CONTROLLERS <= num_controllers_ w)%nat) ->
   Panic_IsPanic w' = true /\
   (is_panic_ w = false ->
    panic_info_ w' =
    mkPanicInfo (wrap32 (clk (reads w))) 209 0 PanicReason.LEDRegisterFail) /\
   controllers_ w' = controllers_ w /\
   num_controllers_ w' = num_controllers_ w) /\
  (forall c, tc = Some c -> (num_controllers_ w < MAX_CONTROLLERS)%nat ->
   w' = set_controllers (<[num_controllers_ w := Some c]> (controllers_ w))
          (S (num_controllers_ w)) w /\
   take (S (num_controllers_ w)) (controllers_ w') =
   take (num_controllers_ w) (controllers_ w) ++ [Some c]) /\
  registry_ok w' /\
  (forall ops, registry_ok (run clk ops w')).
Proof.
  intros R w'.
  assert (registry_ok w') as R'
    by (apply (ev_registry _ _ (Register_evolves clk tc w)), R).
  split; [|split; [|split; [exact R'|]]].
  - intros Hfail.
    assert (w' = Panic_StartPanic clk PanicReason.LEDRegisterFail 0 209 w) as ->.
    { unfold w', LEDMan_Register, PANIC. destruct tc as [c|]; [|reflexivity].
      destruct Hfail as [?|Hfull]; [discriminate|].
      now rewrite bool_decide_eq_true_2. }
    destruct (StartPanic_spec clk PanicReason.LEDRegisterFail 0 209 w)
      as (P & S & I).
    split; [exact P|]. split; [intros H; now apply I|].
    split; apply S.
  - intros c -> Hlt.
    assert (w' = set_controllers
                   (<[num_controllers_ w := Some c]> (controllers_ w))
                   (S (num_controllers_ w)) w) as ->.
    { unfold w', LEDMan_Register.
      rewrite bool_decide_eq_false_2 by lia. reflexivity. }
    split; [reflexivity|]. cbn.
    destruct R as (L & _ & _).
    erewrite take_S_r by (apply list_lookup_insert_eq; lia).
    now rewrite take_insert_ge by lia.
  - intros ops. apply (ev_registry _ _ (run_evolves clk ops w')), R'.
Qed.

(** In [HEATING] or [COOLING], [Update] with a sample at or above
    [max_] does nothing but raise [OverMax] and call [Off]: the latch is
    triggered, the state is [OFF], the output is inactive and its relay
    is written inactive; the watchdog is not consulted and no relay is
    switched on. *)
Lemma Update_over_max_main c t w :
  st_ (ctrl c w) <> OFF -> fle (max_ (ctrl c w)) t = true ->
  let w' := TempController_Update clk c t w in
  w' = TempController_Off c
         (Panic_StartPanic clk PanicReason.OverMax (uid_ (ctrl c w)) 358 w) /\
  Panic_IsPanic w' = true /\
  (is_panic_ w = false ->
   panic_info_ w' =
   mkPanicInfo (wrap32 (clk (reads w))) 358 (uid_ (ctrl c w))
     PanicReason.OverMax) /\
  st_ (ctrl c w') = OFF /\
  heater_is_off_ (ctrl c w') = true /\
  desync_man_ (ctrl c w') = desync_man_ (ctrl c w) /\
  (exists d,
     trace w' = trace w ++ d /\ only_low d /\
     DigitalWrite (relay_pin_ (ctrl c w)) RELAY_INACTIVE_STATE ∈ d).
Proof.
  intros St Hmax w'.
  assert (w' = TempController_Off c
            (Panic_StartPanic clk PanicReason.OverMax (uid_ (ctrl c w)) 358 w))
    as E.
  { unfold w', TempController_Update, PANIC. rewrite Hmax.
    now destruct (st_ (ctrl c w)). }
  split; [exact E|]. rewrite E. clear E w'. unfold Panic_IsPanic.
  destruct (StartPanic_spec clk PanicReason.OverMax (uid_ (ctrl c w)) 358 w)
    as (P & S & I).
  set (w1 := Panic_StartPanic _ _ _ _ w) in *.
  destruct (Off_latch c w1) as (-> & -> & _).
  split; [exact P|]. split; [intros H; now apply I|].
  pose proof (shutdown_ctrl c _ _ S) as Sc.
  destruct (sd_trace _ _ S) as (d & Et & Ld).
  rewrite Off_trace, Off_world, P, ctrl_set_ctrl_eq. cbn.
  split; [reflexivity|]. split; [reflexivity|].
  split; [now destruct Sc as [->| ->]|].
  exists (d ++ [DigitalWrite (relay_pin_ (ctrl c w)) RELAY_INACTIVE_STATE]).
  assert (relay_pin_ (ctrl c w1) = relay_pin_ (ctrl c w)) as ->
    by now destruct Sc as [->| ->].
  split; [now rewrite Et, app_assoc|]. split.
  - apply only_low_app; [exact Ld|].
    intros p l H%list_elem_of_singleton. congruence.
  - apply elem_of_app. right. now apply list_elem_of_singleton.
Qed.

End StateFacts.

(** ** A disconnected sensor *)

Lemma logs_only_ctrl c w w' : logs_only w w' -> ctrl c w' = ctrl c w.
Proof. intros (d & -> & _). now destruct c. Qed.

Lemma invoke_all_shutdown cbs : forall w,
  is_panic_ w = true -> shutdown w (invoke_all cbs w).
Proof.
  induction cbs as [|[c] cbs IH]; intros w P; cbn; [apply shutdown_refl|].
  eapply shutdown_trans; [now apply (Off_shutdown c)|].
  apply IH. now rewrite (proj1 (Off_latch c w)).
Qed.

Section SensorFacts.
Variable clk : nat -> Z.

(** A pass of [Loop] whose reading is [DEVICE_DISCONNECTED_C] raises
    [SensorDisconnected] at once: the fault is recorded with the
    controller's id, the clock is read for the timestamp only, no
    watchdog changes and no controller changes except by being shut off;
    every relay write of the pass is the write of a shutdown callback,
    and a controller that no callback names is left as it was. *)
Lemma Loop_disconnected_main c t w :
  is_panic_ w = false -> (callback_count_ w <= MAX_CALLBACKS)%nat ->
  feq t DEVICE_DISCONNECTED_C = true ->
  let w' := TempController_Loop clk c t w in
  Panic_IsPanic w' = true /\
  panic_info_ w' =
  mkPanicInfo (wrap32 (clk (reads w))) 394 (uid_ (ctrl c w))
    PanicReason.SensorDisconnected /\
  reads w' = S (reads w) /\
  (forall c', desync_man_ (ctrl c' w') = desync_man_ (ctrl c' w) /\
              shut (ctrl c' w) (ctrl c' w')) /\
  (exists logs,
     trace w' =
     trace w ++ RequestTemperatures (one_wire_ (ctrl c w))
       :: map (shutdown_write w) (registered_callbacks w) ++ logs /\
     serial_only logs) /\
  (forall c', CallOff c' ∉ registered_callbacks w ->
              ctrl c' w' = ctrl c' w).
Proof.
  intros P B D w'.
  set (w1 := emit (RequestTemperatures (one_wire_ (ctrl c w))) w).
  set (w2 := Panic_StartPanic clk PanicReason.SensorDisconnected
               (uid_ (ctrl c w1)) 394 w1).
  assert (logs_only w2 w') as L.
  { unfold w', TempController_Loop, Panic_IsPanic, PANIC.
    rewrite P, D. apply Log_println_logs. }
  assert (is_panic_ w1 = false) as P1 by exact P.
  assert (callback_count_ w1 <= MAX_CALLBACKS)%nat as B1 by exact B.
  assert (forall c', ctrl c' w1 = ctrl c' w) as C1 by now intros [].
  destruct (StartPanic_spec clk PanicReason.SensorDisconnected
              (uid_ (ctrl c w1)) 394 w1) as (P2 & S2 & I2). fold w2 in P2, S2, I2.
  destruct (I2 P1) as (I & Rd).
  destruct (logs_only_latch _ _ L) as (EP & EI & ER).
  unfold Panic_IsPanic. rewrite EP, EI, ER, I, Rd, C1.
  do 3 (split; [easy|]). split; [|split].
  - intros c'. rewrite (logs_only_ctrl c' _ _ L), <- C1.
    pose proof (shutdown_ctrl c' _ _ S2) as Sc.
    split; [now destruct Sc as [->| ->]|exact Sc].
  - destruct (StartPanic_trace clk PanicReason.SensorDisconnected
                (uid_ (ctrl c w1)) 394 w1 P1 B1) as (l1 & E1 & N1).
    fold w2 in E1. destruct L as (l2 & -> & N2).
    exists (l1 ++ l2). split; [|now apply serial_only_app].
    cbn. rewrite E1. cbn. rewrite <- !app_assoc. reflexivity.
  - intros c' Hn. rewrite (logs_only_ctrl c' _ _ L). unfold w2.
    rewrite StartPanic_registered by assumption.
    erewrite logs_only_ctrl
      by (eapply logs_only_trans; [apply Log_println_logs|apply PrintPanic_logs]).
    rewrite invoke_all_untouched by exact Hn. now destruct c'.
Qed.

End SensorFacts.

(** ** The desync watchdog *)

Section DesyncFacts.
Variable clk : nat -> Z.

Lemma DesyncMan_Update_inited c t w :
  not_inited_ (desync_man_ (ctrl c w)) = false ->
  DesyncMan_Update clk c t w =
  (bool_decide (TIME_TO_WAIT <=
                sub32 (wrap32 (clk (reads w)))
                  (start_time_ (desync_man_ (ctrl c w))))
   && flt (fsub t (start_temp_ (desync_man_ (ctrl c w)))) NEEDED_TEMP_CHANGE,
   set_reads (S (reads w)) w).
Proof.
  intros H. unfold DesyncMan_Update. rewrite H. unfold millis.
  now destruct c, w.
Qed.

Lemma DesyncMan_Update_iff c t w :
  not_inited_ (desync_man_ (ctrl c w)) = false ->
  fst (DesyncMan_Update clk c t w) = true <->
  no_rise (desync_man_ (ctrl c w)) (wrap32 (clk (reads w))) t.
Proof.
  intros H. rewrite DesyncMan_Update_inited by exact H. cbn.
  unfold no_rise. rewrite andb_true_iff, bool_decide_eq_true. reflexivity.
Qed.

Lemma DesyncMan_Updates_inited c ts : forall w,
  not_inited_ (desync_man_ (ctrl c w)) = false ->
  let rs := fst (DesyncMan_Updates clk c ts w) in
  let w' := snd (DesyncMan_Updates clk c ts w) in
  desync_man_ (ctrl c w') = desync_man_ (ctrl c w) /\
  length rs = length ts /\
  forall k t, ts !! k = Some t ->
    rs !! k = Some true <->
    no_rise (desync_man_ (ctrl c w)) (wrap32 (clk (reads w + k))) t.
Proof.
  induction ts as [|t0 ts IH]; intros w H; cbn [DesyncMan_Updates].
  { cbn. split; [reflexivity|]. split; [reflexivity|]. intros k t [=]. }
  pose proof (DesyncMan_Update_iff c t0 w H) as Hiff.
  rewrite DesyncMan_Update_inited in * by exact H. cbn [fst] in Hiff.
  set (w1 := set_reads (S (reads w)) w) in *.
  assert (desync_man_ (ctrl c w1) = desync_man_ (ctrl c w)) as E
    by now destruct c.
  specialize (IH w1). rewrite E in IH. specialize (IH H).
  destruct (DesyncMan_Updates clk c ts w1) as [rs w2]. cbn [fst snd] in *.
  destruct IH as (IH1 & IH2 & IH3).
  split; [exact IH1|]. split; [cbn; now rewrite IH2|].
  intros [|k] t Hk.
  - injection Hk as <-. rewrite Nat.add_0_r, <- Hiff.
    cbn [lookup list_lookup]. split; congruence.
  - change ((t0 :: ts) !! S k) with (ts !! k) in Hk.
    change ((?r :: rs) !! S k) with (rs !! k).
    rewrite (IH3 k t Hk). subst w1. cbn [reads set_reads].
    now replace (S (reads w) + k)%nat with (reads w + S k)%nat by lia.
Qed.

(** C6, as the code has it. On a watchdog that is not initialised (new,
    or after [Reset]) the first [Update] records the clock and the
    sample as baseline, reads the clock a second time and compares: it
    returns false when less than the window lies between its two reads,
    and true exactly when the window does and the sample minus itself is
    below 0.25. Every later [Update] returns true exactly when the
    window has elapsed since the baseline and the sample is less than
    0.25 above the baseline sample; the baseline stays, also after a
    detection. *)
Theorem DesyncMan_Update_spec c t0 ts w :
  not_inited_ (desync_man_ (ctrl c w)) = true ->
  let base := mkDesyncMan (wrap32 (clk (reads w))) t0 false in
  let gap := sub32 (wrap32 (clk (S (reads w)))) (wrap32 (clk (reads w))) in
  let w1 := snd (DesyncMan_Update clk c t0 w) in
  let rs := fst (DesyncMan_Updates clk c ts w1) in
  let w2 := snd (DesyncMan_Updates clk c ts w1) in
  not_inited_ DesyncMan_new = true /\
  (forall w0, not_inited_ (desync_man_ (ctrl c (DesyncMan_Reset c w0))) = true) /\
  desync_man_ (ctrl c w1) = base /\
  reads w1 = S (S (reads w)) /\
  (gap < TIME_TO_WAIT -> fst (DesyncMan_Update clk c t0 w) = false) /\
  (fst (DesyncMan_Update clk c t0 w) = true <->
   TIME_TO_WAIT <= gap /\
   flt (fsub t0 t0) NEEDED_TEMP_CHANGE = true) /\
  desync_man_ (ctrl c w2) = base /\
  length rs = length ts /\
  forall k t, ts !! k = Some t ->
    rs !! k = Some true <->
    (TIME_TO_WAIT <= sub32 (wrap32 (clk (reads w1 + k))) (start_time_ base) /\
     flt (fsub t (start_temp_ base)) NEEDED_TEMP_CHANGE = true).
Proof.
  intros H base gap w1 rs w2.
  assert (DesyncMan_Update clk c t0 w =
          (bool_decide (TIME_TO_WAIT <= gap)
           && flt (fsub t0 t0) NEEDED_TEMP_CHANGE,
           set_reads (S (S (reads w))) (set_desync c base w))) as E.
  { unfold DesyncMan_Update, DesyncMan_Begin, millis, set_desync.
    rewrite H. now destruct c, w. }
  assert (desync_man_ (ctrl c w1) = base) as B1
    by (unfold w1; rewrite E; now destruct c, w).
  split; [reflexivity|]. split; [intros w0; now destruct c, w0|].
  split; [exact B1|].
  split; [unfold w1; rewrite E; now destruct c, w|].
  split.
  { intros Hg. rewrite E. cbn [fst].
    rewrite bool_decide_eq_false_2 by lia. reflexivity. }
  split.
  { rewrite E. cbn [fst]. rewrite andb_true_iff, bool_decide_eq_true.
    reflexivity. }
  assert (not_inited_ (desync_man_ (ctrl c w1)) = false) as N1
    by now rewrite B1.
  destruct (DesyncMan_Updates_inited c ts w1 N1) as (K1 & K2 & K3).
  fold rs w2 in K1, K2, K3. rewrite B1 in K1, K3.
  split; [exact K1|]. split; [exact K2|exact K3].
Qed.

End DesyncFacts.

(** C6, counterexample: a watchdog that is not initialised, on a clock
    that reads 1000 and then 181000: the first [Update] takes its
    baseline at 1000, compares it with 181000 and returns true. *)
Lemma first_Update_true_on_late_second_read :
  let w := set_reads 1 initial_world in
  not_inited_ (desync_man_ (ctrl Nico w)) = true /\
  clk_three_minutes (reads w) = 1000 /\
  clk_three_minutes (S (reads w)) = 181000 /\
  fst (DesyncMan_Update clk_three_minutes Nico (f32 23 0) w) = true /\
  desync_man_ (ctrl Nico
                 (snd (DesyncMan_Update clk_three_minutes Nico (f32 23 0) w)))
  = mkDesyncMan 1000 (f32 23 0) false.
Proof. vm_compute. repeat split. Qed.

(** ** The status LED *)

Lemma any_heating_iff n w : forall i acc,
  LEDMan_any_heating n i acc w = true <->
  acc = true \/
  exists j c, (i <= j < i + n)%nat /\
    controllers_ w !! j = Some (Some c) /\
    TempController_IsHeating c w = true.
Proof.
  induction n as [|n IH]; intros i acc; cbn [LEDMan_any_heating].
  { split; [now left|]. intros [H|(j & c & Hj & _)]; [exact H|lia]. }
  rewrite IH, orb_true_iff. split.
  - intros [[H|H]|(j & c & Hj & L & Hh)].
    + now left.
    + right. destruct (controllers_ w !! i) as [[c|]|] eqn:L; try discriminate.
      exists i, c. split; [lia|]. auto.
    + right. exists j, c. split; [lia|]. auto.
  - intros [H|(j & c & Hj & L & Hh)]; [now left; left|].
    destruct (decide (j = i)) as [->|Hne].
    + left. right. now rewrite L.
    + right. exists j, c. split; [lia|]. auto.
Qed.

Section LedFacts.
Variable clk : nat -> Z.

(** C8. For a registry as [Register] builds it: the pattern of a tick is
    0 when the latch [is_panic_] is triggered, else 1 when some
    registered controller reports [IsHeating] (its output flag says
    active), else 2, and nothing else; the half-periods are 50, 1000 and
    10000 ms. [UpdateState], which [Update] runs first, stores the
    pattern; when it differs from the stored one the phase is set to on
    and the toggle time to the clock, read once, and when it does not
    nothing changes. *)
Theorem LEDMan_pattern w :
  registry_ok w ->
  let p := LEDMan_new_state w in
  let w' := LEDMan_UpdateState clk w in
  Panic_IsPanic w = is_panic_ w /\
  (forall c, TempController_IsHeating c w = negb (heater_is_off_ (ctrl c w))) /\
  (is_panic_ w = true -> p = 0) /\
  (is_panic_ w = false -> some_heating w -> p = 1) /\
  (is_panic_ w = false -> ~ some_heating w -> p = 2) /\
  (p = 0 \/ p = 1 \/ p = 2) /\
  LEDMan_HalfPeriodForState 0 = 50 /\
  LEDMan_HalfPeriodForState 1 = 1000 /\
  LEDMan_HalfPeriodForState 2 = 10000 /\
  currentStateIndex_ w' = p /\
  (p <> currentStateIndex_ w ->
   w' = set_led p true (wrap32 (clk (reads w))) (set_reads (S (reads w)) w) /\
   ledOn_ w' = true /\ lastToggleMs_ w' = wrap32 (clk (reads w))) /\
  (p = currentStateIndex_ w -> w' = w) /\
  currentStateIndex_ (LEDMan_Update clk w) = p.
Proof.
  intros _ p w'.
  assert (LEDMan_any_heating (num_controllers_ w) 0 false w = true <->
          some_heating w) as Hh.
  { rewrite any_heating_iff. unfold some_heating. split.
    - intros [?|(j & c & Hj & H)]; [discriminate|]. exists j, c.
      split; [lia|exact H].
    - intros (j & c & Hj & H). right. exists j, c. split; [lia|exact H]. }
  assert (currentStateIndex_ w' = p) as Hidx.
  { unfold w', LEDMan_UpdateState. fold p. unfold millis.
    case_bool_decide as Hd; [reflexivity|]. symmetry.
    destruct (decide (p = currentStateIndex_ w)); [assumption|contradiction]. }
  split; [reflexivity|]. split; [reflexivity|].
  split; [|split; [|split; [|split]]].
  - unfold p, LEDMan_new_state, Panic_IsPanic. now intros ->.
  - unfold p, LEDMan_new_state, Panic_IsPanic. intros -> H%Hh. now rewrite H.
  - unfold p, LEDMan_new_state, Panic_IsPanic. intros -> H.
    destruct (LEDMan_any_heating _ _ _ _); [|reflexivity].
    exfalso. now apply H, Hh.
  - unfold p, LEDMan_new_state.
    destruct (Panic_IsPanic w); [now left|].
    destruct (LEDMan_any_heating _ _ _ _); auto.
  - do 3 (split; [reflexivity|]). split; [exact Hidx|].
    split; [|split].
    + intros Hne. unfold w', LEDMan_UpdateState. fold p. unfold millis.
      now rewrite bool_decide_eq_true_2.
    + intros He. unfold w', LEDMan_UpdateState. fold p.
      rewrite bool_decide_eq_false_2; [reflexivity|]. intros Hn. now apply Hn.
    + unfold LEDMan_Update. fold w'. unfold millis. cbv zeta.
      rewrite <- Hidx. destruct w'. cbn. now case_bool_decide.
Qed.

End LedFacts.

(** ** The legacy sketch *)

(** The legacy [Off] is guarded: with the output inactive it returns at
    once. *)
Lemma Legacy_Off_guarded (w : Legacy.World) :
  Legacy.heater_is_off_ w = true -> Legacy.Off w = w.
Proof. unfold Legacy.Off. now intros ->. Qed.

Lemma Legacy_On_guarded (w : Legacy.World) :
  Legacy.heater_is_off_ w = false -> Legacy.On w = w.
Proof. unfold Legacy.On. now intros ->. Qed.

(** The legacy latch is write-once as well. *)
Lemma Legacy_StartPanic_latched clk (w : Legacy.World) :
  Legacy.is_panic_ w = true -> Legacy.StartPanic clk w = w.
Proof. unfold Legacy.StartPanic. now intros ->. Qed.

(** The legacy over-temperature test is strict: a sample equal to
    [TEMP_MAX] raises no fault. *)
Lemma Legacy_Update_at_max clk (w : Legacy.World) :
  Legacy.is_panic_ (Legacy.Update clk Legacy.TEMP_MAX w) =
  Legacy.is_panic_ w.
Proof.
  unfold Legacy.Update.
  change (flt Legacy.TEMP_MAX Legacy.TEMP_MAX) with false.
  change (fle (fadd Legacy.TARGET_TEMP_C TEMP_ALLOWANCE) Legacy.TEMP_MAX)
    with true.
  change (fle Legacy.TEMP_MAX (fsub Legacy.TARGET_TEMP_C TEMP_ALLOWANCE))
    with false.
  unfold Legacy.SetState.
  rewrite bool_decide_eq_false_2
    by (unfold Legacy.NumStates, Legacy.LEDState.COOLING; lia).
  unfold Legacy.LED_enter, Legacy.Off, Legacy.IsPanic,
    Legacy.millis, Legacy.digitalWrite, Legacy.emit.
  destruct w as [p cbs n idx on last st off gl gu rd tr]; cbn.
  destruct st, off, p; cbn; try reflexivity; now case_bool_decide.
Qed.

(** The legacy [loop] counts disconnected readings: below five in a row
    a further one raises no fault. *)
Lemma Legacy_loop_debounced clk t (w : Legacy.World) :
  Legacy.is_panic_ w = false -> Legacy.GUndetectedCount w < 5 ->
  feq t DEVICE_DISCONNECTED_C = true ->
  Legacy.is_panic_ (Legacy.loop clk t w) = false.
Proof.
  intros P G D. unfold Legacy.loop, Legacy.LED_Update, Legacy.IsPanic,
    Legacy.millis, Legacy.digitalWrite, Legacy.emit. rewrite D.
  destruct w as [p cbs n idx on last st off gl gu rd tr]; cbn in *.
  subst p. repeat (case_bool_decide; cbn; try lia; try reflexivity).
Qed.

(** ** Output activation and deactivation *)

(** C9, as the code has it. [On] with the output active does nothing.
    [Off] has no guard: on every call, also with the output inactive, it
    writes the inactive level to the relay, sets the output flag
    inactive and, exactly when the latch is triggered, sets the state to
    [OFF]; it touches nothing else. With the latch untriggered and the
    output inactive the write is all it does, and a second [Off] in a
    row only repeats the write. The legacy sketch keeps the guard: there
    [Off] with the heater off does nothing, and with the heater on it
    does what [Off] does here. *)
Theorem On_idempotent_Off_rewrites c w :
  (heater_is_off_ (ctrl c w) = false -> TempController_On c w = w) /\
  TempController_On c (TempController_On c w) = TempController_On c w /\
  TempController_Off c w =
  set_ctrl c
    (set_heater_is_off true
       (if is_panic_ w then set_st OFF (ctrl c w) else ctrl c w))
    (digitalWrite (relay_pin_ (ctrl c w)) RELAY_INACTIVE_STATE w) /\
  trace (TempController_Off c w) =
  trace w ++ [DigitalWrite (relay_pin_ (ctrl c w)) RELAY_INACTIVE_STATE] /\
  heater_is_off_ (ctrl c (TempController_Off c w)) = true /\
  (is_panic_ w = true -> st_ (ctrl c (TempController_Off c w)) = OFF) /\
  (is_panic_ w = false ->
   st_ (ctrl c (TempController_Off c w)) = st_ (ctrl c w)) /\
  (forall c', c' <> c -> ctrl c' (TempController_Off c w) = ctrl c' w) /\
  (heater_is_off_ (ctrl c w) = true -> is_panic_ w = false ->
   TempController_Off c w =
   digitalWrite (relay_pin_ (ctrl c w)) RELAY_INACTIVE_STATE w) /\
  TempController_Off c (TempController_Off c w) =
  digitalWrite (relay_pin_ (ctrl c w)) RELAY_INACTIVE_STATE
    (TempController_Off c w) /\
  (forall lw, Legacy.heater_is_off_ lw = true -> Legacy.Off lw = lw) /\
  (forall lw, Legacy.heater_is_off_ lw = false ->
     Legacy.Off lw =
     Legacy.set_controller
       (if Legacy.is_panic_ lw then OFF else Legacy.st_ lw) true
       (Legacy.digitalWrite Legacy.RELAY_PIN RELAY_INACTIVE_STATE lw)) /\
  (forall lw, Legacy.heater_is_off_ lw = false -> Legacy.On lw = lw).
Proof.
  assert (forall lw, Legacy.heater_is_off_ lw = false ->
     Legacy.Off lw =
     Legacy.set_controller
       (if Legacy.is_panic_ lw then OFF else Legacy.st_ lw) true
       (Legacy.digitalWrite Legacy.RELAY_PIN RELAY_INACTIVE_STATE lw)) as LO.
  { intros lw H. unfold Legacy.Off, Legacy.IsPanic, Legacy.digitalWrite,
      Legacy.emit.
    destruct lw as [p cbs n idx on last st off gl gu rd tr]. cbn in *.
    subst off. now destruct p. }
  assert (forall c', c' <> c -> ctrl c' (TempController_Off c w) = ctrl c' w)
    as Other
    by (intros c' Hne; rewrite Off_world;
        destruct c, c', w; try contradiction; reflexivity).
  split; [|split; [|split; [|split; [|split; [|split; [|split;
    [|split; [|split; [|split; [|split; [|split]]]]]]]]]]];
    [..|exact Legacy_Off_guarded|exact LO|exact Legacy_On_guarded];
    try exact Other;
    rewrite ?On_world, ?Off_world; unfold digitalWrite, emit;
    destruct c,
      w as [ip cbs n pi cs nc idx on last [u1 s1 h1 t1 m1 o1 r1 d1]
              [u2 s2 h2 t2 m2 o2 r2 d2] gl rd tr];
    cbn; try (intros; subst; reflexivity);
    try (now destruct h1); try (now destruct h2);
    try (now destruct ip).
Qed.

(** C9, counterexample: in the initial state the output of [nico] is
    inactive, and [Off] still writes to its relay. *)
Lemma Off_when_inactive_writes_relay :
  heater_is_off_ (ctrl Nico initial_world) = true /\
  trace initial_world = [] /\
  trace (TempController_Off Nico initial_world) =
  [DigitalWrite 8 RELAY_INACTIVE_STATE] /\
  TempController_Off Nico initial_world <> initial_world.
Proof. repeat split. discriminate. Qed.

(** ** The hysteresis band *)

Section BandFacts.
Variable clk : nat -> Z.

Lemma Update_target c t w :
  target_ (ctrl c (TempController_Update clk c t w)) = target_ (ctrl c w).
Proof.
  pose proof (ev_consts _ _ (Update_evolves clk c t w) c) as E.
  unfold consts in E. congruence.
Qed.

Lemma panic_Off_result r u l c w :
  let w' := TempController_Off c (PANIC clk u r l w) in
  st_ (ctrl c w') = OFF /\ heater_is_off_ (ctrl c w') = true /\
  is_panic_ w' = true /\
  exists d, trace w' = trace w ++ d /\ only_low d.
Proof.
  unfold PANIC. destruct (StartPanic_spec clk r u l w) as (P & S & _).
  set (w1 := Panic_StartPanic clk r u l w) in *. cbv zeta.
  destruct (sd_trace _ _ S) as (d & Et & Ld).
  rewrite (proj1 (Off_latch c w1)), Off_trace, Off_world, P, ctrl_set_ctrl_eq.
  cbn. do 3 (split; [reflexivity|]).
  exists (d ++ [DigitalWrite (relay_pin_ (ctrl c w1)) RELAY_INACTIVE_STATE]).
  split; [now rewrite Et, app_assoc|].
  apply only_low_app; [exact Ld|].
  intros p l0 H%list_elem_of_singleton. congruence.
Qed.

Lemma DesyncMan_Update_trace c t w :
  trace (snd (DesyncMan_Update clk c t w)) = trace w.
Proof.
  unfold DesyncMan_Update, DesyncMan_Begin, set_desync, millis.
  destruct c, w; cbn; now destruct (not_inited_ _).
Qed.

(** Not in [HEATING], output inactive, sample above the lower edge. *)
Lemma Update_stays_inactive c t w :
  st_ (ctrl c w) <> HEATING -> heater_is_off_ (ctrl c w) = true ->
  fle t (fsub (target_ (ctrl c w)) TEMP_ALLOWANCE) = false ->
  let w' := TempController_Update clk c t w in
  st_ (ctrl c w') <> HEATING /\ heater_is_off_ (ctrl c w') = true /\
  exists d, trace w' = trace w ++ d /\ only_low d.
Proof.
  intros St H Hlo. unfold TempController_Update.
  assert (exists d, trace w = trace w ++ d /\ only_low d) as Same
    by (exists []; split; [now rewrite app_nil_r|apply only_low_nil]).
  destruct (st_ (ctrl c w)) eqn:E; [congruence| |now rewrite E].
  destruct (fle (max_ (ctrl c w)) t).
  - destruct (panic_Off_result PanicReason.OverMax (uid_ (ctrl c w)) 358 c w)
      as (S1 & S2 & _ & S3).
    cbv zeta. rewrite S1. split; [discriminate|]. split; assumption.
  - rewrite Hlo. cbv zeta. rewrite E. split; [discriminate|]. split; assumption.
Qed.

Lemma Update_OFF c t w :
  st_ (ctrl c w) = OFF -> TempController_Update clk c t w = w.
Proof. unfold TempController_Update. now intros ->. Qed.

Lemma Updates_OFF c ts : forall w,
  st_ (ctrl c w) = OFF -> TempController_Updates clk c ts w = w.
Proof.
  induction ts as [|t ts IH]; intros w H; cbn; [reflexivity|].
  rewrite Update_OFF by exact H. now apply IH.
Qed.

Lemma Updates_stay_inactive c lo ts : forall w,
  lo = fsub (target_ (ctrl c w)) TEMP_ALLOWANCE ->
  st_ (ctrl c w) <> HEATING -> heater_is_off_ (ctrl c w) = true ->
  Forall (fun t => fle t lo = false) ts ->
  let w' := TempController_Updates clk c ts w in
  st_ (ctrl c w') <> HEATING /\ heater_is_off_ (ctrl c w') = true /\
  exists d, trace w' = trace w ++ d /\ only_low d.
Proof.
  induction ts as [|t ts IH]; intros w -> St H Hts; cbn.
  { split; [exact St|]. split; [exact H|]. exists [].
    split; [now rewrite app_nil_r|apply only_low_nil]. }
  apply Forall_cons in Hts as [Ht Hts].
  destruct (Update_stays_inactive c t w St H Ht) as (S1 & H1 & d1 & E1 & L1).
  destruct (IH (TempController_Update clk c t w)) as (S2 & H2 & d2 & E2 & L2);
    [now rewrite Update_target|exact S1|exact H1|exact Hts|].
  split; [exact S2|]. split; [exact H2|]. exists (d1 ++ d2).
  split; [|now apply only_low_app].
  unfold TempController_Updates in E2. now rewrite E2, E1, app_assoc.
Qed.

End BandFacts.

Section BandRuns.
Variable clk : nat -> Z.

Lemma Update_max c t w :
  max_ (ctrl c (TempController_Update clk c t w)) = max_ (ctrl c w).
Proof.
  pose proof (ev_consts _ _ (Update_evolves clk c t w) c) as E.
  unfold consts in E. congruence.
Qed.

Lemma panic_Off_cause r u l c w :
  is_panic_ w = false ->
  reason (panic_info_ (TempController_Off c (PANIC clk u r l w))) = r.
Proof.
  intros P. unfold PANIC.
  destruct (StartPanic_spec clk r u l w) as (_ & _ & I).
  destruct (I P) as (E & _).
  now rewrite (proj1 (proj2 (Off_latch c _))), E.
Qed.

(** In [HEATING], sample below the upper edge: the step changes nothing
    of the output exactly when neither fault test fires; otherwise the
    fault shuts the loop down with its cause recorded. *)
Lemma Update_heating_below c t w :
  st_ (ctrl c w) = HEATING ->
  fle (fadd (target_ (ctrl c w)) TEMP_ALLOWANCE) t = false ->
  let w' := TempController_Update clk c t w in
  (heating_fault clk c t w = false /\
   st_ (ctrl c w') = HEATING /\
   heater_is_off_ (ctrl c w') = heater_is_off_ (ctrl c w) /\
   trace w' = trace w /\ is_panic_ w' = is_panic_ w) \/
  (heating_fault clk c t w = true /\
   st_ (ctrl c w') = OFF /\ heater_is_off_ (ctrl c w') = true /\
   is_panic_ w' = true /\
   (is_panic_ w = false ->
    reason (panic_info_ w') = heating_cause c t w) /\
   exists d, trace w' = trace w ++ d /\ only_low d).
Proof.
  intros St Hhi. unfold TempController_Update, heating_fault, heating_cause.
  rewrite St.
  destruct (fle (max_ (ctrl c w)) t) eqn:M.
  { right. cbv zeta.
    destruct (panic_Off_result clk PanicReason.OverMax (uid_ (ctrl c w)) 358
                c w) as (S1 & S2 & S3 & S4).
    split; [reflexivity|]. split; [exact S1|]. split; [exact S2|].
    split; [exact S3|]. split; [|exact S4].
    intros P. now apply panic_Off_cause. }
  pose proof (DesyncMan_Update_frame clk c t w) as F.
  pose proof (DesyncMan_Update_trace clk c t w) as T.
  destruct (DesyncMan_Update clk c t w) as [desync w1]. cbn [fst snd] in *.
  pose proof (frame_ctrl c _ _ F) as Fc. unfold ctl in Fc.
  pose proof (fr_is_panic _ _ F) as Fp.
  destruct desync.
  { right. cbv zeta.
    destruct (panic_Off_result clk PanicReason.DesyncNoRise
                (uid_ (ctrl c w1)) 367 c w1) as (S1 & S2 & S3 & d & Ed & Ld).
    split; [reflexivity|]. split; [exact S1|]. split; [exact S2|].
    split; [exact S3|]. split.
    - intros P. apply panic_Off_cause. congruence.
    - exists d. split; [congruence|exact Ld]. }
  assert (target_ (ctrl c w1) = target_ (ctrl c w)) as -> by congruence.
  rewrite Hhi. left. cbv zeta.
  split; [reflexivity|]. split; [congruence|]. split; [congruence|].
  split; [exact T|exact Fp].
Qed.

Lemma Updates_heating_below c hi ts : forall w,
  hi = fadd (target_ (ctrl c w)) TEMP_ALLOWANCE ->
  st_ (ctrl c w) = HEATING ->
  Forall (fun t => fle hi t = false) ts ->
  let w' := TempController_Updates clk c ts w in
  ((forall k t, ts !! k = Some t ->
      heating_fault clk c t
        (TempController_Updates clk c (take k ts) w) = false) /\
   st_ (ctrl c w') = HEATING /\
   heater_is_off_ (ctrl c w') = heater_is_off_ (ctrl c w) /\
   trace w' = trace w /\ is_panic_ w' = is_panic_ w) \/
  (exists k t,
     ts !! k = Some t /\
     (forall j t', (j < k)%nat -> ts !! j = Some t' ->
        heating_fault clk c t'
          (TempController_Updates clk c (take j ts) w) = false) /\
     heating_fault clk c t
       (TempController_Updates clk c (take k ts) w) = true /\
     w' = TempController_Update clk c t
            (TempController_Updates clk c (take k ts) w) /\
     st_ (ctrl c w') = OFF /\ heater_is_off_ (ctrl c w') = true /\
     is_panic_ w' = true /\
     (is_panic_ w = false ->
      reason (panic_info_ w') =
      heating_cause c t (TempController_Updates clk c (take k ts) w)) /\
     exists d, trace w' = trace w ++ d /\ only_low d).
Proof.
  induction ts as [|t ts IH]; intros w -> St Hts.
  { left. cbn. split; [intros k t [=]|auto]. }
  apply Forall_cons in Hts as [Ht Hts]. cbv zeta.
  change (TempController_Updates clk c (t :: ts) w)
    with (TempController_Updates clk c ts (TempController_Update clk c t w)).
  destruct (Update_heating_below c t w St Ht)
    as [(F1 & S1 & H1 & T1 & P1)|(F1 & S1 & H1 & P1 & R1 & D1)].
  - specialize (IH (TempController_Update clk c t w)).
    assert (fadd (target_ (ctrl c w)) TEMP_ALLOWANCE =
            fadd (target_ (ctrl c (TempController_Update clk c t w)))
              TEMP_ALLOWANCE) as Ehi by now rewrite Update_target.
    specialize (IH Ehi S1 Hts).
    cbv zeta in IH.
    destruct IH as [(A & S2 & H2 & T2 & P2)
                   |(k & t' & Hk & A & F2 & E2 & S2 & H2 & P2 & R2 & D2)].
    + left. split; [|split; [exact S2|split; [|split]]]; try congruence.
      intros [|k] t' Hk.
      * injection Hk as <-. exact F1.
      * apply (A k t' Hk).
    + right. exists (S k), t'. split; [exact Hk|]. split.
      { intros [|j] t'' Hj Hl.
        - injection Hl as <-. exact F1.
        - apply (A j t''); [lia|exact Hl]. }
      split; [exact F2|]. split; [exact E2|]. split; [exact S2|].
      split; [exact H2|]. split; [exact P2|]. split.
      { intros P. apply R2. congruence. }
      destruct D2 as (d & Ed & Ld). exists d. split; [congruence|exact Ld].
  - right. exists 0%nat, t. split; [reflexivity|].
    split; [intros j t' Hj; lia|].
    rewrite (Updates_OFF clk c ts (TempController_Update clk c t w))
      by exact S1.
    split; [exact F1|]. split; [reflexivity|]. auto.
Qed.

(** C5, as the code has it. For every sequence of samples fed to
    [Update]: from [COOLING] with the output inactive, while no sample is
    at or below target - allowance the output stays inactive and no
    relay is switched on. From [HEATING], while no sample is at or above
    target + allowance: if at no sample a fault test fires (the sample
    at or over the maximum, or the watchdog reporting no rise), the
    state, the output, the relay and the latch are untouched; otherwise,
    at the first sample at which one fires, that step's fault has shut
    the loop down ([OFF], output inactive, latch triggered, cause
    [OverMax] or [DesyncNoRise] recorded if the latch was untriggered)
    and the later samples change nothing. A sample strictly inside the
    band is neither at or below the lower edge nor at or above the upper
    edge. *)
Theorem hysteresis_band c ts w :
  let lo := fsub (target_ (ctrl c w)) TEMP_ALLOWANCE in
  let hi := fadd (target_ (ctrl c w)) TEMP_ALLOWANCE in
  let w' := TempController_Updates clk c ts w in
  let before k := TempController_Updates clk c (take k ts) w in
  (st_ (ctrl c w) = COOLING -> heater_is_off_ (ctrl c w) = true ->
   Forall (fun t => fle t lo = false) ts ->
   st_ (ctrl c w') <> HEATING /\ heater_is_off_ (ctrl c w') = true /\
   exists d, trace w' = trace w ++ d /\ only_low d) /\
  (st_ (ctrl c w) = HEATING ->
   Forall (fun t => fle hi t = false) ts ->
   ((forall k t, ts !! k = Some t ->
       heating_fault clk c t (before k) = false) /\
    st_ (ctrl c w') = HEATING /\
    heater_is_off_ (ctrl c w') = heater_is_off_ (ctrl c w) /\
    trace w' = trace w /\ Panic_IsPanic w' = Panic_IsPanic w) \/
   (exists k t,
      ts !! k = Some t /\
      (forall j t', (j < k)%nat -> ts !! j = Some t' ->
         heating_fault clk c t' (before j) = false) /\
      heating_fault clk c t (before k) = true /\
      w' = TempController_Update clk c t (before k) /\
      st_ (ctrl c w') = OFF /\ heater_is_off_ (ctrl c w') = true /\
      Panic_IsPanic w' = true /\
      (Panic_IsPanic w = false ->
       reason (panic_info_ w') = heating_cause c t (before k)) /\
      exists d, trace w' = trace w ++ d /\ only_low d)) /\
  (forall t, in_band c w t -> fle t lo = false /\ fle hi t = false).
Proof.
  intros lo hi w' before. split; [|split].
  - intros St H Hts. apply (Updates_stay_inactive clk c lo); auto. congruence.
  - intros St Hts. now apply (Updates_heating_below c hi).
  - intros t [H1 H2]. split; now apply flt_not_fle.
Qed.

End BandRuns.

(** C5, counterexample: [nico] (target 24) is heating after the sample
    23.0; the watchdog takes its baseline at the sample 24.0, and three
    minutes later the sample 24.0, strictly inside the band and below
    24.25, switches the output off. *)
Lemma desync_deactivates_inside_band :
  let w := TempController_Updates clk_three_minutes Nico
             [f32 23 0; f32 24 0] initial_world in
  let t := f32 24 0 in
  let w' := TempController_Update clk_three_minutes Nico t w in
  st_ (ctrl Nico w) = HEATING /\
  heater_is_off_ (ctrl Nico w) = false /\
  flt (fsub (target_ (ctrl Nico w)) TEMP_ALLOWANCE) t = true /\
  flt t (fadd (target_ (ctrl Nico w)) TEMP_ALLOWANCE) = true /\
  fle (fadd (target_ (ctrl Nico w)) TEMP_ALLOWANCE) t = false /\
  heater_is_off_ (ctrl Nico w') = true /\
  pin_writes (relay_pin_ (ctrl Nico w)) (trace w) = [RELAY_ACTIVE_STATE] /\
  pin_writes (relay_pin_ (ctrl Nico w)) (trace w') =
  [RELAY_ACTIVE_STATE; RELAY_INACTIVE_STATE].
Proof. vm_compute. repeat split. Qed.

(** ** No heating after a fault *)

Lemma quench_quench t : quench (quench t) = quench t.
Proof. reflexivity. Qed.

Lemma shut_quench t t' : shut (quench t) t' -> t' = quench t.
Proof. now intros [->| ->]. Qed.

Lemma shut_quench_eq t t' : shut t t' -> quench t' = quench t.
Proof. now intros [->| ->]. Qed.

Lemma run_callbacks_hits n : forall i w j c,
  is_panic_ w = true -> (i <= j < i + n)%nat ->
  (j < callback_count_ w)%nat ->
  callbacks_ w !! j = Some (Some (CallOff c)) ->
  ctrl c (Panic_run_callbacks n i w) = quench (ctrl c w).
Proof.
  induction n as [|n IH]; intros i w j c P Hj Hc L; [lia|].
  cbn [Panic_run_callbacks]. rewrite bool_decide_eq_true_2 by lia.
  destruct (decide (j = i)) as [->|Hne].
  - rewrite L. cbn [invoke].
    apply shut_quench.
    replace (quench (ctrl c w)) with (ctrl c (TempController_Off c w))
      by (rewrite Off_world, P; now destruct c).
    apply shutdown_ctrl, run_callbacks_shutdown.
    now rewrite (proj1 (Off_latch c w)).
  - destruct (callbacks_ w !! i) as [[[c']|]|] eqn:Li;
      [|apply (IH (S i) w j c); auto; lia..].
    cbn [invoke].
    pose proof (Off_shutdown c' w P) as Sd.
    rewrite (IH (S i) (TempController_Off c' w) j c).
    + apply shut_quench_eq, shutdown_ctrl, Sd.
    + now rewrite (proj1 (Off_latch c' w)).
    + lia.
    + now rewrite (sd_callback_count _ _ Sd).
    + now rewrite (sd_callbacks _ _ Sd).
Qed.

Lemma all_off_shut w w' :
  (forall c, shut (ctrl c w) (ctrl c w')) -> all_off w -> all_off w'.
Proof. intros S A c. destruct (A c), (S c) as [->| ->]; auto. Qed.

Lemma safe_run_refl w : safe_run w w.
Proof.
  split; auto.
  - intros [_ F]. exact F.
  - intros P A. split; [exact P|]. split; [exact A|].
    exists []. split; [now rewrite app_nil_r|apply no_activation_nil].
Qed.

Lemma safe_run_trans w1 w2 w3 :
  safe_run w1 w2 -> safe_run w2 w3 -> safe_run w1 w3.
Proof.
  intros [C1 N1 F1 L1] [C2 N2 F2 L2]. split; try congruence.
  - intros F P. apply F2; [|exact P]. split.
    + intros c. destruct (proj1 F c) as (i & H1 & H2 & H3).
      exists i. rewrite C1, N1. auto.
    + now apply F1.
  - intros P A.
    destruct (L1 P A) as (P2 & A2 & d1 & E1 & D1).
    destruct (L2 P2 A2) as (P3 & A3 & d2 & E2 & D2).
    split; [exact P3|]. split; [exact A3|]. exists (d1 ++ d2).
    split; [now rewrite E2, E1, app_assoc|now apply no_activation_app].
Qed.

Lemma frame_all_off w w' : frame w w' -> all_off w -> all_off w'.
Proof.
  intros F A c. pose proof (frame_ctrl c _ _ F) as E. unfold ctl in E.
  destruct (A c) as [A1 A2]. split; congruence.
Qed.

Lemma frame_safe_run w w' : frame w w' -> safe_run w w'.
Proof.
  intros F. split; [apply F|apply F|..].
  - intros [_ Fs] P. rewrite (fr_is_panic _ _ F) in P.
    eapply frame_all_off; eauto.
  - intros P A. rewrite (fr_is_panic _ _ F).
    split; [exact P|]. split; [eapply frame_all_off; eauto|apply F].
Qed.

Lemma Off_all_off c w :
  is_panic_ w = true -> all_off w -> all_off (TempController_Off c w).
Proof.
  intros P. apply all_off_shut. intros c'.
  apply shutdown_ctrl, Off_shutdown, P.
Qed.

Lemma Off_safe_run c w : safe_run w (TempController_Off c w).
Proof.
  destruct (Off_latch c w) as (EP & _ & _).
  split.
  - rewrite Off_world. now destruct c, w.
  - rewrite Off_world. now destruct c, w.
  - intros [_ F]. rewrite EP. intros P. now apply Off_all_off; auto.
  - intros P A. rewrite EP. split; [exact P|].
    split; [now apply Off_all_off|].
    destruct (sd_trace _ _ (Off_shutdown c w P)) as (d & E & L).
    exists d. auto using only_low_no_activation.
Qed.

Section SafeFacts.
Variable clk : nat -> Z.

(** With a callback for every controller, the first fault turns every
    controller off. *)
Lemma StartPanic_all_off r u l w :
  covered w -> is_panic_ w = false ->
  all_off (Panic_StartPanic clk r u l w).
Proof.
  intros C P c. rewrite StartPanic_unfold by exact P.
  erewrite logs_only_ctrl
    by (eapply logs_only_trans; [apply Log_println_logs|apply PrintPanic_logs]).
  destruct (C c) as (i & H1 & H2 & H3).
  rewrite (run_callbacks_hits UCHAR_RANGE 0 _ i c);
    [split; reflexivity|reflexivity|lia|exact H1|exact H3].
Qed.

Lemma StartPanic_safe_run r u l w : safe_run w (Panic_StartPanic clk r u l w).
Proof.
  destruct (StartPanic_spec clk r u l w) as (P' & S & _).
  split; [apply S|apply S|..].
  - intros [C F] _. destruct (is_panic_ w) eqn:P.
    + rewrite StartPanic_latched by exact P. auto.
    + now apply StartPanic_all_off.
  - intros P A. rewrite StartPanic_latched by exact P.
    apply safe_run_refl; auto.
Qed.

Lemma Register_safe_run tc w : safe_run w (LEDMan_Register clk tc w).
Proof.
  unfold LEDMan_Register, PANIC. destruct tc as [c|].
  2: apply StartPanic_safe_run.
  case_bool_decide; [apply StartPanic_safe_run|].
  split; auto.
  - intros [_ F] P c'. destruct (F P c'). now destruct c'.
  - intros P A. split; [exact P|]. split.
    + intros c'. destruct (A c'). now destruct c'.
    + exists []. split; [cbn; now rewrite app_nil_r|apply no_activation_nil].
Qed.

(** A step out of a state that is not [OFF] and that keeps the latch and
    the callback table. *)
Lemma live_safe_run c w w' :
  st_ (ctrl c w) <> OFF ->
  is_panic_ w' = is_panic_ w -> callbacks_ w' = callbacks_ w ->
  callback_count_ w' = callback_count_ w ->
  safe_run w w'.
Proof.
  intros St EP EC EN. split; auto.
  - intros [_ F]. rewrite EP. intros P. destruct (F P c). congruence.
  - intros P A. destruct (A c). congruence.
Qed.

Lemma panic_Off_safe_run r u l c w :
  safe_run w (TempController_Off c (PANIC clk u r l w)).
Proof.
  eapply safe_run_trans; [apply StartPanic_safe_run|apply Off_safe_run].
Qed.

Lemma Update_safe_run c t w : safe_run w (TempController_Update clk c t w).
Proof.
  unfold TempController_Update.
  destruct (st_ (ctrl c w)) eqn:St; [| |apply safe_run_refl];
    (destruct (fle (max_ (ctrl c w)) t); [apply panic_Off_safe_run|]).
  - pose proof (DesyncMan_Update_frame clk c t w) as F.
    destruct (DesyncMan_Update clk c t w) as [desync w1]. cbn [snd] in F.
    destruct desync.
    { eapply safe_run_trans; [apply frame_safe_run, F|].
      apply panic_Off_safe_run. }
    destruct (fle _ t); [|apply frame_safe_run, F].
    apply (live_safe_run c); [congruence|..];
      rewrite ?is_panic_set_ctrl, Off_world;
      destruct F; destruct c, w, w1; cbn in *; congruence.
  - destruct (fle t _); [|apply safe_run_refl].
    apply (live_safe_run c); [congruence|..];
      rewrite ?is_panic_set_ctrl, On_world;
      unfold DesyncMan_Reset, set_desync;
      destruct c, w; cbn; now destruct (heater_is_off_ _).
Qed.

Lemma Loop_safe_run c t w : safe_run w (TempController_Loop clk c t w).
Proof.
  unfold TempController_Loop, Panic_IsPanic.
  destruct (is_panic_ w); [apply safe_run_refl|]. cbv zeta.
  assert (safe_run w (emit (RequestTemperatures (one_wire_ (ctrl c w))) w))
    as E by (apply frame_safe_run, emit_frame; intros p l [=]).
  eapply safe_run_trans; [exact E|].
  destruct (feq t DEVICE_DISCONNECTED_C).
  - eapply safe_run_trans; [apply StartPanic_safe_run|].
    apply frame_safe_run, logs_only_frame, Log_println_logs.
  - eapply safe_run_trans;
      [apply frame_safe_run, PrintState_frame|apply Update_safe_run].
Qed.

Lemma loop_safe_run sample w : safe_run w (loop clk sample w).
Proof.
  unfold loop. cbv zeta.
  eapply safe_run_trans; [apply frame_safe_run, (LEDMan_Update_frame clk)|].
  generalize (LEDMan_Update clk w). clear w. intros w.
  unfold millis, Panic_IsPanic. cbn.
  assert (forall v, frame w (set_reads v w)) as Er
    by (intros v; destruct w; frame_by (@nil Event)).
  case_bool_decide; [apply frame_safe_run, Er|].
  eapply safe_run_trans; [apply frame_safe_run, (Er (S (reads w)))|].
  eapply safe_run_trans.
  { apply frame_safe_run.
    instantiate (1 := set_GLastReadMs (wrap32 (clk (reads w)))
                        (set_reads (S (reads w)) w)).
    destruct w; frame_by (@nil Event). }
  destruct (is_panic_ w).
  - apply frame_safe_run, logs_only_frame, PrintPanic_logs.
  - eapply safe_run_trans; apply Loop_safe_run.
Qed.

Lemma step_safe_run op w : runtime_op op -> safe_run w (step clk op w).
Proof.
  destruct op; cbn [step runtime_op]; intros H; try contradiction.
  - apply StartPanic_safe_run.
  - apply frame_safe_run, logs_only_frame, PrintPanic_logs.
  - apply Register_safe_run.
  - apply frame_safe_run, LEDMan_UpdateState_frame.
  - apply frame_safe_run, LEDMan_Update_frame.
  - apply frame_safe_run, Begin_frame.
  - apply Off_safe_run.
  - apply Update_safe_run.
  - apply Loop_safe_run.
  - apply loop_safe_run.
Qed.

Lemma run_safe_run ops : forall w,
  Forall runtime_op ops -> safe_run w (run clk ops w).
Proof.
  induction ops as [|op ops IH]; intros w H; [apply safe_run_refl|].
  apply Forall_cons in H as [H1 H2]. cbn.
  apply (safe_run_trans _ (step clk op w));
    [now apply step_safe_run|now apply IH].
Qed.

End SafeFacts.

Section NoHeatingFacts.
Variable clk : nat -> Z.

Lemma LEDMan_Update_effect w :
  let w' := LEDMan_Update clk w in
  is_panic_ w' = is_panic_ w /\ panic_info_ w' = panic_info_ w /\
  nico w' = nico w /\ trap w' = trap w /\
  exists l, trace w' = trace w ++ [DigitalWrite LED_BUILTIN l].
Proof.
  unfold LEDMan_Update, LEDMan_UpdateState, millis, digitalWrite, emit.
  cbv zeta. destruct w; cbn.
  repeat (case_bool_decide; cbn); repeat split; eexists; reflexivity.
Qed.

Lemma loop_latched sample w :
  is_panic_ w = true ->
  (forall c, ctrl c (loop clk sample w) = ctrl c w) /\
  exists d, trace (loop clk sample w) = trace w ++ d /\ indicator_only d.
Proof.
  intros P. unfold loop. cbv zeta.
  destruct (LEDMan_Update_effect w) as (EP & _ & En & Et & l & El).
  remember (LEDMan_Update clk w) as w1 eqn:Hw1. clear Hw1.
  unfold millis, Panic_IsPanic. cbn.
  assert (indicator_only [DigitalWrite LED_BUILTIN l]) as I1.
  { intros e ->%list_elem_of_singleton. left. now exists l. }
  case_bool_decide.
  { split; [intros []; cbn; congruence|]. cbn. eauto. }
  rewrite EP, P.
  destruct (PrintPanic_logs
              (set_GLastReadMs (wrap32 (clk (reads w1)))
                 (set_reads (S (reads w1)) w1))) as (d & -> & Hd).
  split; [intros []; cbn; congruence|]. cbn. rewrite El.
  exists ([DigitalWrite LED_BUILTIN l] ++ d).
  split; [now rewrite <- app_assoc|].
  intros e [H0|H0]%elem_of_app; [now apply I1|]. right. now apply Hd.
Qed.

Lemma Update_latches_quietly c t w :
  is_panic_ w = false ->
  is_panic_ (TempController_Update clk c t w) = true ->
  exists d, trace (TempController_Update clk c t w) = trace w ++ d /\
            only_low d.
Proof.
  intros P. unfold TempController_Update.
  assert (exists d, trace w = trace w ++ d /\ only_low d) as Same
    by (exists []; split; [now rewrite app_nil_r|apply only_low_nil]).
  destruct (st_ (ctrl c w)) eqn:St; [| |intros _; exact Same];
    (destruct (fle (max_ (ctrl c w)) t);
     [intros _; apply (panic_Off_result clk PanicReason.OverMax)|]).
  - pose proof (DesyncMan_Update_trace clk c t w) as T.
    pose proof (fr_is_panic _ _ (DesyncMan_Update_frame clk c t w)) as EP.
    destruct (DesyncMan_Update clk c t w) as [desync w1]. cbn [snd] in *.
    rewrite <- T. destruct desync.
    { intros _. apply (panic_Off_result clk PanicReason.DesyncNoRise). }
    destruct (fle _ t); [|congruence].
    rewrite is_panic_set_ctrl, (proj1 (Off_latch c w1)). congruence.
  - destruct (fle t _); [|congruence].
    rewrite is_panic_set_ctrl, (proj1 (On_keeps c _)).
    unfold DesyncMan_Reset, set_desync. rewrite is_panic_set_ctrl. congruence.
Qed.

Lemma Loop_latches_quietly c t w :
  is_panic_ (TempController_Loop clk c t w) = true ->
  exists d, trace (TempController_Loop clk c t w) = trace w ++ d /\
            only_low d.
Proof.
  unfold TempController_Loop, Panic_IsPanic.
  destruct (is_panic_ w) eqn:P.
  { intros _. exists []. split; [now rewrite app_nil_r|apply only_low_nil]. }
  cbv zeta.
  set (w1 := emit (RequestTemperatures (one_wire_ (ctrl c w))) w).
  assert (trace w1 = trace w ++ [RequestTemperatures (one_wire_ (ctrl c w))])
    as T1 by reflexivity.
  assert (only_low [RequestTemperatures (one_wire_ (ctrl c w))]) as L1
    by (intros p l H%list_elem_of_singleton; discriminate).
  destruct (feq t DEVICE_DISCONNECTED_C); intros P'.
  - destruct (StartPanic_spec clk PanicReason.SensorDisconnected
                (uid_ (ctrl c w1)) 394 w1) as (_ & Sd & _).
    unfold PANIC.
    set (w2 := Panic_StartPanic clk _ _ _ w1) in *.
    destruct (sd_trace _ _ Sd) as (d2 & E2 & L2).
    destruct (Log_println_logs
                [PStr "CTRL: "; PInt (uid_ (ctrl c w2));
                 PStr "Heater -> OFF (fail-safe)"] w2) as (d3 & -> & L3).
    cbn. rewrite E2, T1.
    exists ([RequestTemperatures (one_wire_ (ctrl c w))] ++ d2 ++ d3).
    split; [now rewrite <- !app_assoc|].
    auto using only_low_app, serial_only_only_low.
  - pose proof (fr_is_panic _ _ (PrintState_frame c t w1)) as EP.
    assert (logs_only w1 (TempController_PrintState c t w1)) as (d2 & E2 & L2).
    { unfold TempController_PrintState. cbv zeta.
      eapply logs_only_trans; [apply Log_print_logs|].
      eapply logs_only_trans; [|apply Log_print_logs].
      destruct (st_ _); apply Log_print_logs. }
    assert (trace (TempController_PrintState c t w1) =
            trace w ++ [RequestTemperatures (one_wire_ (ctrl c w))] ++ d2)
      as T2 by (rewrite E2; cbn; now rewrite <- app_assoc).
    destruct (Update_latches_quietly c t (TempController_PrintState c t w1))
      as (d3 & E3 & L3); [rewrite EP; exact P|exact P'|].
    exists ([RequestTemperatures (one_wire_ (ctrl c w))] ++ d2 ++ d3).
    split; [rewrite E3, T2; now rewrite <- !app_assoc|].
    auto using only_low_app, serial_only_only_low.
Qed.

End NoHeatingFacts.

Section NoHeating.
Variable clk : nat -> Z.

Lemma setup_state :
  let w0 := setup clk initial_world in
  is_panic_ w0 = false /\
  callback_count_ w0 = 2%nat /\
  callbacks_ w0 = [Some (CallOff Nico); Some (CallOff Trap); None; None] /\
  relay_pin_ (nico w0) = 8 /\ relay_pin_ (trap w0) = 12.
Proof. vm_compute. repeat split. Qed.

Lemma setup_fail_safe : fail_safe (setup clk initial_world).
Proof.
  destruct setup_state as (P & N & C & _). split; [|congruence].
  pose proof UCHAR_RANGE_bound. unfold MAX_CALLBACKS in *.
  intros []; [exists 0%nat|exists 1%nat]; rewrite N, C;
    (split; [lia|split; [lia|reflexivity]]).
Qed.

(** C2. In a run of the sketch ([setup], then any operations), once the
    latch is triggered every controller is in [OFF] with its output
    inactive and stays so, and every later write to a relay is of the
    inactive level. With the latch triggered [Loop] does nothing and a
    pass of [loop] touches no controller, only the LED and the log; and
    a pass of [Loop] that ends with the latch triggered has switched no
    relay on. *)
Theorem no_heating_after_panic ops1 ops2 :
  Forall runtime_op ops1 -> Forall runtime_op ops2 ->
  let w1 := run clk ops1 (setup clk initial_world) in
  let w2 := run clk ops2 w1 in
  Panic_IsPanic w1 = true ->
  (Panic_IsPanic w2 = true /\
   (forall c, st_ (ctrl c w2) = OFF /\ TempController_IsHeating c w2 = false) /\
   exists d, trace w2 = trace w1 ++ d /\
     forall c l, DigitalWrite (relay_pin_ (ctrl c w2)) l ∈ d ->
                 l = RELAY_INACTIVE_STATE) /\
  (forall c t w, Panic_IsPanic w = true -> TempController_Loop clk c t w = w) /\
  (forall sample w, Panic_IsPanic w = true ->
     (forall c, ctrl c (loop clk sample w) = ctrl c w) /\
     exists d, trace (loop clk sample w) = trace w ++ d /\ indicator_only d) /\
  (forall c t w, Panic_IsPanic (TempController_Loop clk c t w) = true ->
     exists d, trace (TempController_Loop clk c t w) = trace w ++ d /\
               only_low d).
Proof.
  intros R1 R2 w1 w2 P1.
  split; [|split; [|split]].
  - pose proof (run_safe_run clk ops1 (setup clk initial_world) R1) as S1.
    fold w1 in S1.
    pose proof (sr_fail_safe _ _ S1 setup_fail_safe P1) as A1.
    pose proof (run_safe_run clk ops2 w1 R2) as S2. fold w2 in S2.
    destruct (sr_latched _ _ S2 P1 A1) as (P2 & A2 & d & E & D).
    split; [exact P2|]. split.
    { intros c. destruct (A2 c) as [H1 H2]. unfold TempController_IsHeating.
      now rewrite H2. }
    exists d. split; [exact E|]. intros c l Hin.
    destruct (D _ _ Hin) as [Hled|Hl]; [exfalso|exact Hl].
    pose proof (ev_consts _ _ (run_evolves clk ops2 w1) c) as C2.
    pose proof (ev_consts _ _
                  (run_evolves clk ops1 (setup clk initial_world)) c) as C1.
    fold w1 in C1, C2. fold w2 in C2. unfold consts in C1, C2.
    assert (relay_pin_ (ctrl c w2) =
            relay_pin_ (ctrl c (setup clk initial_world))) as Epin
      by congruence.
    rewrite Epin in Hled. destruct setup_state as (_ & _ & _ & Pn & Pt).
    destruct c; cbn in Hled; rewrite ?Pn, ?Pt in Hled; discriminate.
  - intros c t w P. unfold TempController_Loop. now rewrite P.
  - intros sample w P. now apply loop_latched.
  - intros c t w. apply Loop_latches_quietly.
Qed.

End NoHeating.

(** * Concrete runs *)


(** C2 on a run: a pass of [loop] in which [trap]'s sensor is
    disconnected, then more passes and calls. *)
Lemma no_heating_after_panic_witness :
  let ops1 := [OpMainLoop sample_fault] in
  let ops2 := [OpMainLoop (fun _ => f32 20 0); OpUpdate Nico (f32 20 0);
               OpLoop Trap (f32 20 0)] in
  let w1 := run clk_steady ops1 (setup clk_steady initial_world) in
  let w2 := run clk_steady ops2 w1 in
  Forall runtime_op ops1 /\ Forall runtime_op ops2 /\
  Panic_IsPanic w1 = true /\
  Panic_IsPanic w2 = true /\
  (forall c, st_ (ctrl c w2) = OFF /\ TempController_IsHeating c w2 = false).
Proof.
  cbv zeta.
  assert (Forall runtime_op [OpMainLoop sample_fault]) as R1
    by (repeat constructor).
  assert (Forall runtime_op
            [OpMainLoop (fun _ => f32 20 0); OpUpdate Nico (f32 20 0);
             OpLoop Trap (f32 20 0)]) as R2 by (repeat constructor).
  assert (Panic_IsPanic
            (run clk_steady [OpMainLoop sample_fault]
               (setup clk_steady initial_world)) = true) as P
    by (vm_compute; reflexivity).
  destruct (no_heating_after_panic clk_steady _ _ R1 R2 P)
    as ((H1 & H2 & _) & _).
  split; [exact R1|]. split; [exact R2|]. split; [exact P|].
  split; [exact H1|exact H2].
Defined.

(** C3 on a run: [nico] heats at 23.0 and is shut off at 29.0. *)
Lemma OFF_implies_inactive_witness :
  let w := run clk_steady [OpUpdate Nico (f32 23 0); OpUpdate Nico (f32 29 0)]
             initial_world in
  st_ (ctrl Nico initial_world) = COOLING /\
  heater_is_off_ (ctrl Nico initial_world) = true /\
  st_ (ctrl Nico w) = OFF /\
  heater_is_off_ (ctrl Nico w) = true /\ Panic_IsPanic w = true.
Proof.
  cbv zeta.
  destruct (OFF_implies_inactive clk_steady
              [OpUpdate Nico (f32 23 0); OpUpdate Nico (f32 29 0)]
              initial_world Nico eq_refl eq_refl) as (H & _).
  split; [reflexivity|]. split; [reflexivity|].
  split; [vm_compute; reflexivity|]. apply H. vm_compute. reflexivity.
Defined.

(** C6 on the watchdog of [nico]: baseline 23.0 at one second, and
    23.125 three minutes later, a rise of less than 0.25. *)
Lemma DesyncMan_Update_spec_witness :
  let w := initial_world in
  let w1 := snd (DesyncMan_Update clk_three_minutes Nico (f32 23 0) w) in
  not_inited_ (desync_man_ (ctrl Nico w)) = true /\
  sub32 (wrap32 (clk_three_minutes (S (reads w))))
    (wrap32 (clk_three_minutes (reads w))) < TIME_TO_WAIT /\
  fst (DesyncMan_Update clk_three_minutes Nico (f32 23 0) w) = false /\
  desync_man_ (ctrl Nico w1) = mkDesyncMan 1000 (f32 23 0) false /\
  fst (DesyncMan_Updates clk_three_minutes Nico [f32 185 (-3)] w1) !! 0%nat
  = Some true.
Proof.
  cbv zeta.
  assert (not_inited_ (desync_man_ (ctrl Nico initial_world)) = true) as N
    by reflexivity.
  assert (sub32 (wrap32 (clk_three_minutes (S (reads initial_world))))
            (wrap32 (clk_three_minutes (reads initial_world)))
          < TIME_TO_WAIT) as Hc by (vm_compute; reflexivity).
  destruct (DesyncMan_Update_spec clk_three_minutes Nico (f32 23 0)
              [f32 185 (-3)] initial_world N)
    as (_ & _ & H2 & _ & H1 & _ & _ & _ & H3).
  split; [exact N|]. split; [exact Hc|]. split; [exact (H1 Hc)|].
  split; [exact H2|].
  apply (H3 0%nat (f32 185 (-3)) eq_refl).
  split; vm_compute; [discriminate|reflexivity].
Defined.

Lemma registry_ok_initial : registry_ok initial_world.
Proof.
  split; [reflexivity|]. split; [vm_compute; lia|].
  intros i Hi. vm_compute in Hi. lia.
Qed.

(** C8 on the sketch, with both controllers registered: idle after
    [setup] (pattern 2), with [nico] heating (pattern 1), and after a
    fault (pattern 0). *)
Lemma LEDMan_pattern_witness :
  let idle := run clk_steady [OpSetup] initial_world in
  let heat := run clk_steady [OpSetup; OpUpdate Nico (f32 23 0)]
                initial_world in
  let fault := run clk_steady [OpSetup; OpUpdate Nico (f32 23 0);
                               OpStartPanic PanicReason.Other 7 99]
                 initial_world in
  registry_ok idle /\ registry_ok heat /\ registry_ok fault /\
  num_controllers_ heat = 2%nat /\
  is_panic_ idle = false /\ ~ some_heating idle /\
  LEDMan_new_state idle = 2 /\
  is_panic_ heat = false /\ some_heating heat /\
  LEDMan_new_state heat = 1 /\
  currentStateIndex_ (LEDMan_UpdateState clk_steady heat) = 1 /\
  ledOn_ (LEDMan_UpdateState clk_steady heat) = true /\
  is_panic_ fault = true /\
  LEDMan_new_state fault = 0 /\
  currentStateIndex_ (LEDMan_UpdateState clk_steady fault) = 0.
Proof.
  cbv zeta.
  assert (forall ops, registry_ok (run clk_steady ops initial_world)) as R
    by (intros ops;
        apply (ev_registry _ _ (run_evolves clk_steady ops initial_world)),
          registry_ok_initial).
  pose proof (R [OpSetup]) as Ri.
  pose proof (R [OpSetup; OpUpdate Nico (f32 23 0)]) as Rh.
  pose proof (R [OpSetup; OpUpdate Nico (f32 23 0);
                 OpStartPanic PanicReason.Other 7 99]) as Rf.
  clear R.
  assert (is_panic_ (run clk_steady [OpSetup] initial_world) = false) as Pi
    by (vm_compute; reflexivity).
  assert (is_panic_ (run clk_steady [OpSetup; OpUpdate Nico (f32 23 0)]
                       initial_world) = false) as Ph
    by (vm_compute; reflexivity).
  assert (is_panic_ (run clk_steady [OpSetup; OpUpdate Nico (f32 23 0);
                                     OpStartPanic PanicReason.Other 7 99]
                       initial_world) = true) as Pf
    by (vm_compute; reflexivity).
  assert (currentStateIndex_
            (run clk_steady [OpSetup; OpUpdate Nico (f32 23 0)]
               initial_world) = 0) as Ch
    by (vm_compute; reflexivity).
  assert (~ some_heating (run clk_steady [OpSetup] initial_world)) as Ni.
  { intros (j & c & _ & _ & Hc). destruct c; vm_compute in Hc; discriminate. }
  assert (some_heating
            (run clk_steady [OpSetup; OpUpdate Nico (f32 23 0)]
               initial_world)) as Sh.
  { exists 0%nat, Nico. split; [vm_compute; lia|].
    split; vm_compute; reflexivity. }
  remember (run clk_steady [OpSetup] initial_world) as idle eqn:Ei.
  remember (run clk_steady [OpSetup; OpUpdate Nico (f32 23 0)]
              initial_world) as heat eqn:Eh.
  remember (run clk_steady [OpSetup; OpUpdate Nico (f32 23 0);
                            OpStartPanic PanicReason.Other 7 99]
              initial_world) as fault eqn:Ef.
  pose proof (LEDMan_pattern clk_steady idle Ri) as Ti.
  pose proof (LEDMan_pattern clk_steady heat Rh) as Th.
  pose proof (LEDMan_pattern clk_steady fault Rf) as Tf.
  cbv zeta in Ti, Th, Tf.
  destruct Ti as (_ & _ & _ & _ & I2 & _).
  destruct Th as (_ & _ & _ & H1 & _ & _ & _ & _ & _ & H2 & H3 & _).
  destruct Tf as (_ & _ & F0 & _ & _ & _ & _ & _ & _ & F1 & _).
  pose proof (I2 Pi Ni) as E2.
  pose proof (H1 Ph Sh) as E1.
  pose proof (F0 Pf) as E0.
  rewrite E1 in H2, H3. rewrite E0 in F1. rewrite Ch in H3.
  destruct H3 as (_ & H3 & _); [discriminate|].
  split; [exact Ri|]. split; [exact Rh|]. split; [exact Rf|].
  split; [rewrite Eh; vm_compute; reflexivity|].
  split; [exact Pi|]. split; [exact Ni|]. split; [exact E2|].
  split; [exact Ph|]. split; [exact Sh|]. split; [exact E1|].
  split; [exact H2|]. split; [exact H3|].
  split; [exact Pf|]. split; [exact E0|exact F1].
Defined.

(** C10 on the initial state: the first registration. *)
Lemma LEDMan_Register_bounded_witness :
  let w' := LEDMan_Register clk_steady (Some Nico) initial_world in
  registry_ok initial_world /\
  num_controllers_ w' = 1%nat /\
  take 1 (controllers_ w') = [Some Nico] /\
  registry_ok w'.
Proof.
  cbv zeta.
  assert (registry_ok initial_world) as R.
  { split; [reflexivity|]. split; [vm_compute; lia|].
    intros i Hi. vm_compute in Hi. lia. }
  destruct (LEDMan_Register_bounded clk_steady (Some Nico) initial_world R)
    as (_ & H1 & H2 & _).
  destruct (H1 Nico eq_refl) as (E & T); [vm_compute; lia|].
  split; [exact R|]. split; [now rewrite E|]. split; [exact T|exact H2].
Defined.

(** * Further properties *)

(** ** An invariant rule for the sketch *)

Lemma LED_writes_only_nil : LED_writes_only [].
Proof. intros p l H. inversion H. Qed.

Lemma LED_writes_only_app d1 d2 :
  LED_writes_only d1 -> LED_writes_only d2 -> LED_writes_only (d1 ++ d2).
Proof. intros H1 H2 p l [H|H]%elem_of_app; eauto. Qed.

Lemma serial_only_LED_writes d : serial_only d -> LED_writes_only d.
Proof. intros H p l [(v & [=])|[=]]%H. Qed.

Lemma silent_refl w : silent w w.
Proof.
  split; auto. exists []. split; [now rewrite app_nil_r|apply LED_writes_only_nil].
Qed.

Lemma silent_trans w1 w2 w3 : silent w1 w2 -> silent w2 w3 -> silent w1 w3.
Proof.
  intros H1 H2.
  destruct (si_trace _ _ H1) as (d1 & E1 & L1).
  destruct (si_trace _ _ H2) as (d2 & E2 & L2).
  destruct H1, H2. split; try congruence.
  exists (d1 ++ d2). split; [|now apply LED_writes_only_app].
  now rewrite E2, E1, app_assoc.
Qed.

Lemma silent_ctrl c w w' : silent w w' -> ctl (ctrl c w') = ctl (ctrl c w).
Proof. intros []. now destruct c. Qed.

Lemma logs_only_silent w w' : logs_only w w' -> silent w w'.
Proof.
  intros (d & -> & H). destruct w; split; cbn; auto.
  exists d. auto using serial_only_LED_writes.
Qed.

(** A step that appends the events [d] and changes nothing a [silent]
    step keeps. *)
Ltac silent_by d :=
  split; cbn; auto; exists d;
  (split; [rewrite ?app_nil_r, <- ?app_assoc; reflexivity|]);
  intros p l Hin; apply list_elem_of_In in Hin; cbn in Hin;
  intuition (try congruence; eauto).

Lemma emit_silent e w :
  (forall p l, e = DigitalWrite p l -> p = LED_BUILTIN) ->
  silent w (emit e w).
Proof. intros H. destruct w. silent_by [e]. Qed.

Lemma PrintState_silent c t w : silent w (TempController_PrintState c t w).
Proof.
  apply logs_only_silent. unfold TempController_PrintState. cbv zeta.
  eapply logs_only_trans; [apply Log_print_logs|].
  eapply logs_only_trans; [|apply Log_print_logs].
  destruct (st_ _); apply Log_print_logs.
Qed.

Lemma DesyncMan_Reset_silent c w : silent w (DesyncMan_Reset c w).
Proof.
  unfold DesyncMan_Reset, set_desync. destruct c, w; silent_by (@nil Event).
Qed.

Lemma set_reads_silent v w : silent w (set_reads v w).
Proof. destruct w; silent_by (@nil Event). Qed.

Lemma set_GLastReadMs_silent v w : silent w (set_GLastReadMs v w).
Proof. destruct w; silent_by (@nil Event). Qed.

Section SilentFacts.
Variable clk : nat -> Z.

Lemma DesyncMan_Update_silent c t w :
  silent w (snd (DesyncMan_Update clk c t w)).
Proof.
  unfold DesyncMan_Update, DesyncMan_Begin, set_desync, millis.
  destruct c, w; cbn; destruct (not_inited_ _); cbn; silent_by (@nil Event).
Qed.

Lemma LEDMan_UpdateState_silent w : silent w (LEDMan_UpdateState clk w).
Proof.
  unfold LEDMan_UpdateState, millis. case_bool_decide; [|apply silent_refl].
  destruct w; silent_by (@nil Event).
Qed.

Lemma LEDMan_Update_silent w : silent w (LEDMan_Update clk w).
Proof.
  unfold LEDMan_Update. cbv zeta.
  eapply silent_trans; [apply LEDMan_UpdateState_silent|].
  generalize (LEDMan_UpdateState clk w). clear w. intros w.
  unfold millis. cbn. case_bool_decide; cbn.
  - destruct w as [ip cbs n pi cs nc idx on last tn tt gl rd tr].
    silent_by [DigitalWrite LED_BUILTIN (if negb on then HIGH else LOW)].
  - destruct w as [ip cbs n pi cs nc idx on last tn tt gl rd tr].
    silent_by [DigitalWrite LED_BUILTIN (if on then HIGH else LOW)].
Qed.

Section Rule.
Variables (ok : PanicReason.t -> Prop) (Inv : World -> Prop).
Hypothesis Hst : stable ok Inv.
Hypothesis Hok : sketch_causes ok.

Lemma run_callbacks_stable n : forall i w,
  Inv w -> Inv (Panic_run_callbacks n i w).
Proof using Hst.
  induction n as [|n IH]; intros i w H; cbn [Panic_run_callbacks]; [exact H|].
  case_bool_decide; [|exact H].
  destruct (callbacks_ w !! i) as [[[c]|]|]; [|now apply IH..].
  apply IH. cbn [invoke]. now apply (sb_Off _ _ Hst).
Qed.

Lemma StartPanic_stable r u l w :
  ok r -> Inv w -> Inv (Panic_StartPanic clk r u l w).
Proof using Hst.
  intros Hr H. destruct (is_panic_ w) eqn:P.
  { now rewrite StartPanic_latched. }
  rewrite StartPanic_unfold by exact P.
  eapply (sb_silent _ _ Hst).
  { apply logs_only_silent.
    eapply logs_only_trans; [apply Log_println_logs|apply PrintPanic_logs]. }
  apply run_callbacks_stable. now apply (sb_latch _ _ Hst).
Qed.

Lemma Register_stable tc w : Inv w -> Inv (LEDMan_Register clk tc w).
Proof using Hst Hok.
  intros H. destruct Hok as (_ & _ & _ & Hr).
  unfold LEDMan_Register, PANIC. destruct tc as [c|].
  2: now apply StartPanic_stable.
  case_bool_decide; [now apply StartPanic_stable|].
  apply (sb_register _ _ Hst); [lia|exact H].
Qed.

Lemma Update_stable c t w : Inv w -> Inv (TempController_Update clk c t w).
Proof using Hst Hok.
  intros H. destruct Hok as (_ & Hmax & Hdes & _).
  unfold TempController_Update, PANIC.
  destruct (st_ (ctrl c w)) eqn:St; [| |exact H];
    (destruct (fle (max_ (ctrl c w)) t);
     [apply (sb_Off _ _ Hst); now apply StartPanic_stable|]).
  - pose proof (DesyncMan_Update_silent c t w) as F.
    destruct (DesyncMan_Update clk c t w) as [desync w1]. cbn [snd] in F.
    pose proof (sb_silent _ _ Hst _ _ F H) as H1.
    destruct desync.
    { apply (sb_Off _ _ Hst). now apply StartPanic_stable. }
    destruct (fle _ t); [|exact H1].
    apply (sb_cool _ _ Hst c w1); [|exact H1].
    pose proof (silent_ctrl c _ _ F) as E. unfold ctl in E. congruence.
  - destruct (fle t _); [|exact H].
    now apply (sb_heat _ _ Hst c w).
Qed.

Lemma Loop_stable c t w : Inv w -> Inv (TempController_Loop clk c t w).
Proof using Hst Hok.
  intros H. unfold TempController_Loop, Panic_IsPanic, PANIC.
  destruct (is_panic_ w); [exact H|]. cbv zeta.
  assert (Inv (emit (RequestTemperatures (one_wire_ (ctrl c w))) w)) as H1.
  { eapply (sb_silent _ _ Hst); [|exact H]. apply emit_silent. intros p l [=]. }
  destruct (feq t DEVICE_DISCONNECTED_C).
  - eapply (sb_silent _ _ Hst);
      [apply logs_only_silent, Log_println_logs|].
    apply StartPanic_stable; [apply Hok|exact H1].
  - apply Update_stable.
    eapply (sb_silent _ _ Hst); [apply PrintState_silent|exact H1].
Qed.

Lemma loop_stable sample w : Inv w -> Inv (loop clk sample w).
Proof using Hst Hok.
  intros H. unfold loop. cbv zeta.
  pose proof (sb_silent _ _ Hst _ _ (LEDMan_Update_silent w) H) as H1.
  remember (LEDMan_Update clk w) as w1 eqn:E. clear E H.
  unfold millis, Panic_IsPanic. cbn.
  pose proof (sb_silent _ _ Hst _ _ (set_reads_silent (S (reads w1)) w1) H1)
    as H2.
  case_bool_decide; [exact H2|].
  pose proof (sb_silent _ _ Hst _ _
                (set_GLastReadMs_silent (wrap32 (clk (reads w1)))
                   (set_reads (S (reads w1)) w1)) H2) as H3.
  destruct (is_panic_ w1).
  - eapply (sb_silent _ _ Hst); [|exact H3].
    apply logs_only_silent, PrintPanic_logs.
  - now apply Loop_stable, Loop_stable.
Qed.

Lemma step_stable op w :
  pass_op op -> caused ok op -> Inv w -> Inv (step clk op w).
Proof using Hst Hok.
  destruct op; cbn [step pass_op caused]; intros Hp Hc H; try contradiction.
  - now apply StartPanic_stable.
  - eapply (sb_silent _ _ Hst); [|exact H].
    apply logs_only_silent, PrintPanic_logs.
  - now apply Register_stable.
  - eapply (sb_silent _ _ Hst); [|exact H]. apply LEDMan_UpdateState_silent.
  - eapply (sb_silent _ _ Hst); [|exact H]. apply LEDMan_Update_silent.
  - now apply (sb_Off _ _ Hst).
  - now apply Update_stable.
  - now apply Loop_stable.
  - now apply loop_stable.
Qed.

Lemma run_stable ops : forall w,
  Forall pass_op ops -> Forall (caused ok) ops -> Inv w ->
  Inv (run clk ops w).
Proof using Hst Hok.
  induction ops as [|op ops IH]; intros w Hp Hc H; [exact H|].
  apply Forall_cons in Hp as [Hp1 Hp2]. apply Forall_cons in Hc as [Hc1 Hc2].
  cbn. apply IH; auto. now apply step_stable.
Qed.

(** With [Begin] and [Init] keeping [Inv] too, every operation does. *)
Hypothesis HBegin : forall c w, Inv w -> Inv (TempController_Begin c w).
Hypothesis HInit : forall a w, Inv w -> Inv (Panic_Init a w).

Lemma setup_stable w : Inv w -> Inv (setup clk w).
Proof using Hst Hok HBegin HInit.
  intros H. unfold setup. cbv zeta.
  do 2 apply Register_stable. apply HInit.
  do 2 (eapply (sb_silent _ _ Hst);
          [apply logs_only_silent, Log_println_logs|]).
  eapply (sb_silent _ _ Hst); [apply emit_silent; intros p l [=]|].
  do 2 apply HBegin.
  eapply (sb_silent _ _ Hst); [|exact H].
  apply emit_silent. intros p l [=].
Qed.

Lemma step_stable_all op w : caused ok op -> Inv w -> Inv (step clk op w).
Proof using Hst Hok HBegin HInit.
  intros Hc H.
  destruct op; try (now apply step_stable); cbn [step].
  - now apply HInit.
  - now apply HBegin.
  - now apply setup_stable.
Qed.

Lemma run_stable_all ops : forall w,
  Forall (caused ok) ops -> Inv w -> Inv (run clk ops w).
Proof using Hst Hok HBegin HInit.
  induction ops as [|op ops IH]; intros w Hc H; [exact H|].
  apply Forall_cons in Hc as [Hc1 Hc2].
  cbn. apply IH; auto. now apply step_stable_all.
Qed.

End Rule.
End SilentFacts.

(** ** The panic handler, continued *)

(** X1. [PanicReasonStr] names every cause differently, so that the
    printed name identifies the cause. *)
Theorem PanicReasonStr_inj r1 r2 :
  PanicReasonStr r1 = PanicReasonStr r2 -> r1 = r2.
Proof. destruct r1, r2; cbn; intros H; try reflexivity; discriminate H. Qed.

Lemma Init_loop_spec src : forall i dst,
  (i + length src <= length dst)%nat ->
  Panic_Init_loop src i dst = take i dst ++ src ++ drop (i + length src) dst.
Proof.
  induction src as [|cb rest IH]; intros i dst Hle; cbn [Panic_Init_loop].
  { cbn. now rewrite Nat.add_0_r, take_drop. }
  cbn [length] in Hle.
  rewrite IH by (rewrite length_insert; lia).
  rewrite (take_S_r _ _ cb) by (apply list_lookup_insert_eq; lia).
  rewrite take_insert_ge by lia.
  rewrite drop_insert_lt by lia.
  replace (i + length (cb :: rest))%nat with (S i + length rest)%nat
    by (cbn [length]; lia).
  now rewrite <- app_assoc.
Qed.

Section InitFacts.
Variable clk : nat -> Z.

(** X2. [Panic::Init] on the four-slot table stores the given pointers in
    the first slots, keeps the others and sets the count; nothing else
    changes. The callbacks a first fault then runs are the non-null ones
    of the array, once each and in its order, whatever was registered
    before. *)
Theorem Panic_Init_table a r u l w :
  length (callbacks_ w) = MAX_CALLBACKS ->
  let w' := Panic_Init a w in
  (callback_count_ w' <= MAX_CALLBACKS)%nat /\
  callback_count_ w' = length (cbs a) /\
  callbacks_ w' = cbs a ++ drop (length (cbs a)) (callbacks_ w) /\
  length (callbacks_ w') = MAX_CALLBACKS /\
  registered_callbacks w' = omap id (cbs a) /\
  w' = set_callbacks (callbacks_ w') (callback_count_ w') w /\
  (is_panic_ w = false ->
   exists logs,
     trace (Panic_StartPanic clk r u l w') =
     trace w ++ map (shutdown_write w) (omap id (cbs a)) ++ logs /\
     serial_only logs).
Proof.
  intros L w'.
  assert (length (cbs a) <= MAX_CALLBACKS)%nat as B
    by (apply (bool_decide_eq_true_1 _ (cbs_static_assert a))).
  assert (callbacks_ w' = cbs a ++ drop (length (cbs a)) (callbacks_ w)) as E.
  { unfold w', Panic_Init. cbn. rewrite Init_loop_spec by (cbn; lia).
    reflexivity. }
  assert (registered_callbacks w' = omap id (cbs a)) as R.
  { unfold registered_callbacks. rewrite E.
    change (callback_count_ w') with (length (cbs a)).
    now rewrite take_app_length. }
  split; [exact B|]. split; [reflexivity|]. split; [exact E|].
  split; [rewrite E, length_app, length_drop; lia|].
  split; [exact R|]. split; [reflexivity|].
  intros P.
  destruct (StartPanic_trace clk r u l w' P B) as (logs & Et & Hl).
  exists logs. split; [|exact Hl]. rewrite Et, R. reflexivity.
Qed.

(** X3. A fault raised with the cause [None] is latched like any other,
    but [PrintPanic] then reports that there is none: the log of the
    fault ends with the lines PANIC START and Panic: <none>. *)
Theorem StartPanic_None_reported_as_none u l w :
  is_panic_ w = false ->
  let w' := Panic_StartPanic clk PanicReason.None u l w in
  Panic_IsPanic w' = true /\
  panic_info_ w' = mkPanicInfo (wrap32 (clk (reads w))) l u PanicReason.None /\
  Panic_PrintPanic w' = Log_println [PStr "Panic: <none>"] w' /\
  exists pre,
    trace w' =
    pre ++ [SerialPrint (PStr "PANIC START"); SerialPrintln;
            SerialPrint (PStr "Panic: <none>"); SerialPrintln].
Proof.
  intros P w'.
  destruct (StartPanic_spec clk PanicReason.None u l w) as (P1 & _ & I1).
  fold w' in P1, I1. destruct (I1 P) as (I & _).
  split; [exact P1|]. split; [exact I|].
  split; [unfold Panic_PrintPanic; now rewrite I|].
  unfold w'. rewrite StartPanic_unfold by exact P.
  set (w1 := Panic_run_callbacks _ _ _).
  assert (panic_info_ w1 =
          mkPanicInfo (wrap32 (clk (reads w))) l u PanicReason.None) as I1'
    by (unfold w1; now rewrite (proj1 (proj2 (run_callbacks_latch _ _ _)))).
  unfold Panic_PrintPanic.
  change (panic_info_ (Log_println [PStr "PANIC START"] w1))
    with (panic_info_ w1).
  rewrite I1'. cbn. exists (trace w1). now rewrite <- !app_assoc.
Qed.

End InitFacts.

(** ** Invariants of every run *)

Lemma enter_heating_unfold c w :
  (let w1 := DesyncMan_Reset c w in
   let w2 := TempController_On c w1 in
   set_ctrl c (set_st HEATING (ctrl c w2)) w2) = enter_heating c w.
Proof. reflexivity. Qed.

Lemma leave_heating_unfold c w :
  (let w2 := TempController_Off c w in
   set_ctrl c (set_st COOLING (ctrl c w2)) w2) = leave_heating c w.
Proof. reflexivity. Qed.

Lemma enter_heating_world c w :
  enter_heating c w =
  set_ctrl c
    (mkTempController (uid_ (ctrl c w)) HEATING false (target_ (ctrl c w))
       (max_ (ctrl c w)) (one_wire_ (ctrl c w)) (relay_pin_ (ctrl c w))
       (mkDesyncMan (start_time_ (desync_man_ (ctrl c w)))
          (start_temp_ (desync_man_ (ctrl c w))) true))
    (set_trace
       (trace w ++
        (if heater_is_off_ (ctrl c w)
         then [DigitalWrite (relay_pin_ (ctrl c w)) RELAY_ACTIVE_STATE]
         else []))
       w).
Proof.
  unfold enter_heating. cbv zeta. rewrite On_world.
  unfold DesyncMan_Reset, set_desync.
  destruct c,
    w as [ip cbs n pi cs nc idx on last [u1 s1 h1 t1 m1 o1 r1 d1]
            [u2 s2 h2 t2 m2 o2 r2 d2] gl rd tr];
    cbn; destruct h1, h2; cbn; now rewrite ?app_nil_r.
Qed.

Lemma leave_heating_world c w :
  leave_heating c w =
  set_ctrl c (set_heater_is_off true (set_st COOLING (ctrl c w)))
    (set_trace
       (trace w ++ [DigitalWrite (relay_pin_ (ctrl c w)) RELAY_INACTIVE_STATE])
       w).
Proof.
  unfold leave_heating. cbv zeta. rewrite Off_world.
  destruct c,
    w as [ip cbs n pi cs nc idx on last [u1 s1 h1 t1 m1 o1 r1 d1]
            [u2 s2 h2 t2 m2 o2 r2 d2] gl rd tr];
    cbn; now destruct ip.
Qed.

Lemma Begin_world c w :
  TempController_Begin c w =
  set_trace
    (trace w ++ [PinMode (relay_pin_ (ctrl c w)) OUTPUT;
                 DigitalWrite (relay_pin_ (ctrl c w)) RELAY_INACTIVE_STATE;
                 SensorBegin (one_wire_ (ctrl c w))]) w.
Proof.
  unfold TempController_Begin, pinMode, digitalWrite, emit.
  destruct c, w; cbn; now rewrite <- !app_assoc.
Qed.

Lemma record_ok_stable : stable named record_ok.
Proof.
  split.
  - intros w w' S [H1 H2]. unfold record_ok.
    rewrite (si_is_panic _ _ S), (si_panic_info _ _ S). auto.
  - intros c w [H1 H2]. unfold record_ok.
    destruct (Off_latch c w) as (-> & -> & _). auto.
  - intros now r u l w P Hr _. split; [discriminate|]. intros _. exact Hr.
  - intros c w _ H. rewrite enter_heating_world. now destruct c, w.
  - intros c w _ H. rewrite leave_heating_world. now destruct c, w.
  - intros c w _ H. exact H.
Qed.

Lemma active_is_heating_stable : stable any_cause active_is_heating.
Proof.
  split.
  - intros w w' S H c. pose proof (silent_ctrl c _ _ S) as E. unfold ctl in E.
    specialize (H c).
    assert (st_ (ctrl c w') = st_ (ctrl c w)) as -> by congruence.
    assert (heater_is_off_ (ctrl c w') = heater_is_off_ (ctrl c w)) as ->
      by congruence.
    exact H.
  - intros c w H c'. specialize (H c'). rewrite Off_world.
    destruct c, c', w, is_panic_; cbn in *; auto; discriminate.
  - intros now r u l w _ _ H c. specialize (H c). now destruct c.
  - intros c w _ H c'. specialize (H c'). rewrite enter_heating_world.
    destruct c, c', w; cbn in *; auto.
  - intros c w _ H c'. specialize (H c'). rewrite leave_heating_world.
    destruct c, c', w; cbn in *; auto; discriminate.
  - intros c w _ H c'. specialize (H c'). now destruct c'.
Qed.

Lemma Forall_any_cause ops : Forall (caused any_cause) ops.
Proof. apply Forall_forall. intros [] _; exact I. Qed.

Lemma sketch_causes_named : sketch_causes named.
Proof. repeat split; discriminate. Qed.

Lemma sketch_causes_any : sketch_causes any_cause.
Proof. repeat split. Qed.

Lemma PrintPanic_report w :
  reason (panic_info_ w) <> PanicReason.None ->
  Panic_PrintPanic w =
  set_trace (trace w ++ panic_report (panic_info_ w)) w.
Proof.
  intros H. unfold Panic_PrintPanic, panic_report.
  destruct w as [ip cbs n [m l u r] cs nc idx on last tn tt gl rd tr].
  cbn in *. destruct r; [contradiction|..];
    unfold Log_println, Log_print, emit; cbn;
    now rewrite <- ?app_assoc.
Qed.

Section RunInvariants.
Variable clk : nat -> Z.

(** X4. In a run from the initial state in which no caller raises a fault
    with the cause [None]: while the latch is untriggered the record is
    the initial one and [PrintPanic] prints the line Panic: <none>; once
    it is triggered the record names a cause and [PrintPanic] prints it
    with id, line and time, changing nothing but the log. *)
Theorem PrintPanic_reports_first_fault ops :
  Forall (caused named) ops ->
  let w := run clk ops initial_world in
  (Panic_IsPanic w = false ->
   panic_info_ w = mkPanicInfo 0 0 0 PanicReason.None /\
   Panic_PrintPanic w = Log_println [PStr "Panic: <none>"] w) /\
  (Panic_IsPanic w = true ->
   reason (panic_info_ w) <> PanicReason.None /\
   Panic_PrintPanic w =
   set_trace (trace w ++ panic_report (panic_info_ w)) w).
Proof.
  intros Hc w.
  assert (record_ok w) as [H1 H2].
  { apply (run_stable_all clk named record_ok record_ok_stable
             sketch_causes_named); [| |exact Hc|].
    - intros c w0 [K1 K2]. rewrite Begin_world. split; auto.
    - intros a w0 [K1 K2]. split; auto.
    - split; [reflexivity|discriminate]. }
  split; intros P.
  - split; [now apply H1|]. unfold Panic_PrintPanic. now rewrite (H1 P).
  - split; [now apply H2|]. now apply PrintPanic_report, H2.
Qed.

(** X5. From the initial state of the controllers and under any
    operations, an output that is active belongs to a controller in
    state [HEATING]. *)
Theorem active_only_in_HEATING ops w0 c :
  (forall c', heater_is_off_ (ctrl c' w0) = true) ->
  let w := run clk ops w0 in
  TempController_IsHeating c w = true -> st_ (ctrl c w) = HEATING.
Proof.
  intros H0 w Hh.
  assert (active_is_heating w) as A.
  { apply (run_stable_all clk any_cause active_is_heating
             active_is_heating_stable sketch_causes_any);
      [| |apply Forall_any_cause|].
    - intros c' w1 K c''. rewrite Begin_world. specialize (K c'').
      now destruct c'', w1.
    - intros a w1 K c'. specialize (K c'). now destruct c'.
    - intros c' K. rewrite H0 in K. discriminate. }
  apply A. unfold TempController_IsHeating in Hh.
  now destruct (heater_is_off_ (ctrl c w)).
Qed.

End RunInvariants.

(** ** The relays follow the output flags *)

Lemma pin_writes_app p tr d :
  pin_writes p (tr ++ d) = pin_writes p tr ++ pin_writes p d.
Proof. apply omap_app. Qed.

Lemma pin_writes_LED p d :
  p <> LED_BUILTIN -> LED_writes_only d -> pin_writes p d = [].
Proof.
  intros Hp. induction d as [|e d IH]; intros H; [reflexivity|].
  assert (pin_writes p d = []) as E.
  { apply IH. intros q l Hin. apply (H q l). now right. }
  unfold pin_writes in *. cbn. rewrite E.
  destruct e as [| q l | | | | |]; try reflexivity.
  case_bool_decide as Hq; [|reflexivity].
  exfalso. apply Hp. subst q. apply (H p l). now left.
Qed.

Lemma relays_agree_same w w' :
  (forall c, relay_pin_ (ctrl c w') = relay_pin_ (ctrl c w)) ->
  (forall c, heater_is_off_ (ctrl c w') = heater_is_off_ (ctrl c w)) ->
  (forall c, pin_writes (relay_pin_ (ctrl c w)) (trace w') =
             pin_writes (relay_pin_ (ctrl c w)) (trace w)) ->
  relays_agree w -> relays_agree w'.
Proof.
  intros Hp Hf Ht (D & L & A). unfold relays_agree, relay_level in *.
  pose proof (Hp Nico) as PN. pose proof (Hp Trap) as PT. cbn in PN, PT.
  split; [congruence|]. split.
  - intros c. rewrite Hp. apply L.
  - intros c. rewrite Hp, Hf, Ht. apply A.
Qed.

Lemma relays_agree_write c w w' :
  (forall c', relay_pin_ (ctrl c' w') = relay_pin_ (ctrl c' w)) ->
  (forall c', c' <> c ->
     heater_is_off_ (ctrl c' w') = heater_is_off_ (ctrl c' w)) ->
  trace w' =
    trace w ++
    [DigitalWrite (relay_pin_ (ctrl c w)) (relay_level (ctrl c w'))] ->
  relays_agree w -> relays_agree w'.
Proof.
  intros Hp Hf Ht (D & L & A). unfold relays_agree in *.
  pose proof (Hp Nico) as PN. pose proof (Hp Trap) as PT. cbn in PN, PT.
  split; [congruence|]. split.
  { intros c'. rewrite Hp. apply L. }
  intros c'. rewrite Hp, Ht, pin_writes_app.
  unfold pin_writes at 2. cbn.
  destruct (CtrlId_eq_dec c' c) as [->|Hne].
  - rewrite bool_decide_eq_true_2 by reflexivity. cbn. apply last_snoc.
  - rewrite bool_decide_eq_false_2.
    + cbn. rewrite app_nil_r. unfold relay_level.
      rewrite (Hf c' Hne). apply A.
    + destruct c, c'; cbn; congruence.
Qed.

Lemma relays_agree_stable : stable any_cause relays_agree.
Proof.
  split.
  - intros w w' S H. destruct (si_trace _ _ S) as (d & Hd & Hl).
    apply (relays_agree_same w); [..|exact H];
      intros c; pose proof (silent_ctrl c _ _ S) as E; unfold ctl in E;
      try congruence.
    rewrite Hd, pin_writes_app, (pin_writes_LED _ d); [apply app_nil_r| |exact Hl].
    destruct H as (_ & L & _). apply L.
  - intros c w H. apply (relays_agree_write c w); [..|exact H];
      rewrite Off_world.
    + intros c'. destruct c, c', w, (is_panic_); reflexivity.
    + intros c' Hne. destruct c, c', w; try reflexivity; contradiction.
    + destruct c, w; reflexivity.
  - intros now r u l w _ _ H.
    apply (relays_agree_same w); [..|exact H]; intros c; now destruct c.
  - intros c w _ H. destruct (heater_is_off_ (ctrl c w)) eqn:F.
    + apply (relays_agree_write c w); [..|exact H];
        rewrite enter_heating_world, F.
      * intros c'. destruct c, c', w; reflexivity.
      * intros c' Hne. destruct c, c', w; try reflexivity; contradiction.
      * destruct c, w; reflexivity.
    + apply (relays_agree_same w); [..|exact H]; intros c';
        rewrite enter_heating_world, F.
      * destruct c, c', w; reflexivity.
      * destruct c, c', w; cbn in *; congruence.
      * destruct c, c', w; cbn; now rewrite app_nil_r.
  - intros c w _ H. apply (relays_agree_write c w); [..|exact H];
      rewrite leave_heating_world.
    + intros c'. destruct c, c', w; reflexivity.
    + intros c' Hne. destruct c, c', w; try reflexivity; contradiction.
    + destruct c, w; reflexivity.
  - intros c w _ H.
    apply (relays_agree_same w); [..|exact H]; intros c'; now destruct c'.
Qed.

Section RelayFacts.
Variable clk : nat -> Z.

Lemma setup_relays_agree : relays_agree (setup clk initial_world).
Proof.
  split; [|split].
  - vm_compute. discriminate.
  - intros []; vm_compute; discriminate.
  - intros []; vm_compute; reflexivity.
Qed.

(** X6. Once the relays agree with the output flags (as they do after
    [setup]), they keep doing so under every operation of the passes of
    [loop]: the last level written to the relay pin of a controller is
    [HIGH] exactly when [IsHeating] reports it active. *)
Theorem relay_follows_IsHeating ops w0 c :
  relays_agree w0 -> Forall pass_op ops ->
  let w := run clk ops w0 in
  last (pin_writes (relay_pin_ (ctrl c w)) (trace w)) =
  Some (if TempController_IsHeating c w then RELAY_ACTIVE_STATE
        else RELAY_INACTIVE_STATE).
Proof.
  intros H0 Hp w.
  assert (relays_agree w) as (_ & _ & A).
  { apply (run_stable clk any_cause relays_agree relays_agree_stable
             sketch_causes_any); auto using Forall_any_cause. }
  rewrite A. unfold relay_level, TempController_IsHeating.
  now destruct (heater_is_off_ (ctrl c w)).
Qed.

End RelayFacts.

(** ** The passes of the controllers *)

Section PassFacts.
Variable clk : nat -> Z.

Lemma frame_latch w w' :
  frame w w' -> is_panic_ w' = is_panic_ w /\ panic_info_ w' = panic_info_ w.
Proof. intros F. split; [apply (fr_is_panic _ _ F)|apply (fr_panic_info _ _ F)]. Qed.

Lemma frame_ctl c w w' : frame w w' -> ctl (ctrl c w') = ctl (ctrl c w).
Proof. intros F. destruct c; [apply (fr_nico _ _ F)|apply (fr_trap _ _ F)]. Qed.

Lemma PANIC_record r u l w :
  is_panic_ w = false ->
  uid (panic_info_ (PANIC clk u r l w)) = u /\
  reason (panic_info_ (PANIC clk u r l w)) = r /\
  line (panic_info_ (PANIC clk u r l w)) = l.
Proof.
  intros P. unfold PANIC.
  destruct (StartPanic_spec clk r u l w) as (_ & _ & H).
  destruct (H P) as (-> & _). now cbn.
Qed.

(** The cause of a fault raised by [Update]. *)
Lemma Update_cause c t w :
  is_panic_ w = false ->
  is_panic_ (TempController_Update clk c t w) = true ->
  st_ (ctrl c w) <> OFF /\
  uid (panic_info_ (TempController_Update clk c t w)) = uid_ (ctrl c w) /\
  ((fle (max_ (ctrl c w)) t = true /\
    reason (panic_info_ (TempController_Update clk c t w)) =
      PanicReason.OverMax /\
    line (panic_info_ (TempController_Update clk c t w)) = 358) \/
   (fle (max_ (ctrl c w)) t = false /\ st_ (ctrl c w) = HEATING /\
    fst (DesyncMan_Update clk c t w) = true /\
    reason (panic_info_ (TempController_Update clk c t w)) =
      PanicReason.DesyncNoRise /\
    line (panic_info_ (TempController_Update clk c t w)) = 367)).
Proof.
  intros P. unfold TempController_Update.
  destruct (st_ (ctrl c w)) eqn:St.
  - destruct (fle (max_ (ctrl c w)) t) eqn:M.
    { intros _. destruct (Off_latch c
        (PANIC clk (uid_ (ctrl c w)) PanicReason.OverMax 358 w))
        as (_ & -> & _).
      destruct (PANIC_record PanicReason.OverMax (uid_ (ctrl c w)) 358 w P)
        as (-> & -> & ->).
      split; [discriminate|]. split; [reflexivity|]. now left. }
    pose proof (DesyncMan_Update_frame clk c t w) as F.
    destruct (DesyncMan_Update clk c t w) as [desync w1]. cbn [snd fst] in *.
    destruct (frame_latch _ _ F) as (P1 & _).
    pose proof (frame_ctl c _ _ F) as E. unfold ctl in E.
    destruct desync.
    { intros _. destruct (Off_latch c
        (PANIC clk (uid_ (ctrl c w1)) PanicReason.DesyncNoRise 367 w1))
        as (_ & -> & _).
      destruct (PANIC_record PanicReason.DesyncNoRise (uid_ (ctrl c w1)) 367 w1)
        as (-> & -> & ->); [congruence|].
      split; [discriminate|]. split; [congruence|]. right. auto. }
    destruct (fle (fadd _ _) t).
    + intros L. exfalso. cbv zeta in L. rewrite is_panic_set_ctrl in L.
      destruct (Off_latch c w1) as (L1 & _). congruence.
    + intros L. congruence.
  - destruct (fle (max_ (ctrl c w)) t) eqn:M.
    { intros _. destruct (Off_latch c
        (PANIC clk (uid_ (ctrl c w)) PanicReason.OverMax 358 w))
        as (_ & -> & _).
      destruct (PANIC_record PanicReason.OverMax (uid_ (ctrl c w)) 358 w P)
        as (-> & -> & ->).
      split; [discriminate|]. split; [reflexivity|]. now left. }
    destruct (fle t (fsub _ _)).
    + intros L. exfalso. cbv zeta in L. rewrite is_panic_set_ctrl in L.
      rewrite On_world in L.
      destruct (heater_is_off_ _), c, w; cbn in *; congruence.
    + intros L. congruence.
  - intros L. congruence.
Qed.

(** X7. A fault raised by [Loop] names its controller and its cause, in
    the order the code tests them: a disconnected sensor first (line 394),
    then a sample at or over the maximum (line 358), and only for a
    controller in [HEATING] a temperature that did not rise (line 367). *)
Theorem Loop_fault_cause c t w :
  Panic_IsPanic w = false ->
  let w' := TempController_Loop clk c t w in
  Panic_IsPanic w' = true ->
  uid (panic_info_ w') = uid_ (ctrl c w) /\
  ((feq t DEVICE_DISCONNECTED_C = true /\
    reason (panic_info_ w') = PanicReason.SensorDisconnected /\
    line (panic_info_ w') = 394) \/
   (feq t DEVICE_DISCONNECTED_C = false /\ st_ (ctrl c w) <> OFF /\
    fle (max_ (ctrl c w)) t = true /\
    reason (panic_info_ w') = PanicReason.OverMax /\
    line (panic_info_ w') = 358) \/
   (feq t DEVICE_DISCONNECTED_C = false /\ st_ (ctrl c w) = HEATING /\
    fle (max_ (ctrl c w)) t = false /\
    reason (panic_info_ w') = PanicReason.DesyncNoRise /\
    line (panic_info_ w') = 367)).
Proof.
  unfold Panic_IsPanic. intros P. cbv zeta.
  unfold TempController_Loop, Panic_IsPanic. rewrite P. cbv zeta.
  remember (emit (RequestTemperatures (one_wire_ (ctrl c w))) w) as w1 eqn:E1.
  assert (is_panic_ w1 = false) as P1 by (subst w1; now destruct w).
  assert (ctrl c w1 = ctrl c w) as C1 by (subst w1; now destruct c, w).
  destruct (feq t DEVICE_DISCONNECTED_C) eqn:D.
  - intros _.
    destruct (logs_only_latch _ _
      (Log_println_logs
         [PStr "CTRL: ";
          PInt (uid_ (ctrl c
            (PANIC clk (uid_ (ctrl c w1)) PanicReason.SensorDisconnected 394
               w1)));
          PStr "Heater -> OFF (fail-safe)"]
         (PANIC clk (uid_ (ctrl c w1)) PanicReason.SensorDisconnected 394 w1)))
      as (_ & -> & _).
    destruct (PANIC_record PanicReason.SensorDisconnected (uid_ (ctrl c w1))
                394 w1 P1) as (-> & -> & ->).
    split; [now rewrite C1|]. now left.
  - pose proof (PrintState_frame c t w1) as F.
    remember (TempController_PrintState c t w1) as w2 eqn:E2. clear E2.
    destruct (frame_latch _ _ F) as (P2 & _).
    pose proof (frame_ctl c _ _ F) as E. unfold ctl in E.
    intros L.
    destruct (Update_cause c t w2) as (St & U & H); [congruence|exact L|].
    rewrite U. split; [congruence|]. right.
    destruct H as [(M & R & Ln)|(M & Sh & _ & R & Ln)].
    + left. repeat split; try assumption; congruence.
    + right. repeat split; try assumption; congruence.
Qed.

End PassFacts.

(** ** Switching *)

Section SwitchFacts.
Variable clk : nat -> Z.

Lemma Update_enters c t w :
  st_ (ctrl c w) = COOLING -> fle (max_ (ctrl c w)) t = false ->
  fle t (fsub (target_ (ctrl c w)) TEMP_ALLOWANCE) = true ->
  TempController_Update clk c t w = enter_heating c w.
Proof.
  intros St M Lo. unfold TempController_Update. now rewrite St, M, Lo.
Qed.

Lemma Update_leaves c t w :
  st_ (ctrl c w) = HEATING -> fle (max_ (ctrl c w)) t = false ->
  fst (DesyncMan_Update clk c t w) = false ->
  fle (fadd (target_ (ctrl c w)) TEMP_ALLOWANCE) t = true ->
  TempController_Update clk c t w =
  leave_heating c (snd (DesyncMan_Update clk c t w)).
Proof.
  intros St M D Hi. unfold TempController_Update. rewrite St, M.
  pose proof (frame_ctl c _ _ (DesyncMan_Update_frame clk c t w)) as E.
  destruct (DesyncMan_Update clk c t w) as [desync w1]. cbn [fst snd] in *.
  subst desync. unfold ctl in E.
  assert (target_ (ctrl c w1) = target_ (ctrl c w)) as -> by congruence.
  now rewrite Hi.
Qed.

(** X8. The two switches of [Update], for a sample below the maximum and
    whatever the latch. From [COOLING] a sample at or below the lower edge
    enters [HEATING]: the output is active, the relay is written [HIGH]
    if the output was inactive, and the watchdog is cleared. From
    [HEATING] a sample at or above the upper edge that the watchdog
    accepts enters [COOLING]: the output is inactive and the relay is
    written [LOW]. The other controller is not touched. *)
Theorem Update_switches c t w :
  fle (max_ (ctrl c w)) t = false ->
  let w' := TempController_Update clk c t w in
  (st_ (ctrl c w) = COOLING ->
   fle t (fsub (target_ (ctrl c w)) TEMP_ALLOWANCE) = true ->
   st_ (ctrl c w') = HEATING /\
   TempController_IsHeating c w' = true /\
   not_inited_ (desync_man_ (ctrl c w')) = true /\
   is_panic_ w' = is_panic_ w /\
   trace w' =
   trace w ++
   (if heater_is_off_ (ctrl c w)
    then [DigitalWrite (relay_pin_ (ctrl c w)) RELAY_ACTIVE_STATE]
    else []) /\
   forall c', c' <> c -> ctrl c' w' = ctrl c' w) /\
  (st_ (ctrl c w) = HEATING ->
   fst (DesyncMan_Update clk c t w) = false ->
   fle (fadd (target_ (ctrl c w)) TEMP_ALLOWANCE) t = true ->
   st_ (ctrl c w') = COOLING /\
   TempController_IsHeating c w' = false /\
   is_panic_ w' = is_panic_ w /\
   trace w' =
   trace w ++ [DigitalWrite (relay_pin_ (ctrl c w)) RELAY_INACTIVE_STATE] /\
   forall c', c' <> c -> ctrl c' w' = ctrl c' w).
Proof.
  intros M. cbv zeta. split.
  - intros St Lo. rewrite Update_enters by assumption.
    rewrite enter_heating_world. unfold TempController_IsHeating.
    rewrite ctrl_set_ctrl_eq, is_panic_set_ctrl. cbn.
    repeat split; try (now destruct c, w).
    intros c' Hne. rewrite ctrl_set_ctrl_ne by exact Hne. now destruct c'.
  - intros St D Hi. rewrite Update_leaves by assumption.
    pose proof (DesyncMan_Update_frame clk c t w) as F.
    pose proof (DesyncMan_Update_trace clk c t w) as T.
    assert (forall c', c' <> c ->
              ctrl c' (snd (DesyncMan_Update clk c t w)) = ctrl c' w) as O.
    { intros c' Hne. unfold DesyncMan_Update, DesyncMan_Begin, set_desync,
        millis.
      destruct c, c', w; try contradiction; cbn;
        now destruct (not_inited_ _). }
    destruct (DesyncMan_Update clk c t w) as [desync w1]. cbn [fst snd] in *.
    destruct (frame_latch _ _ F) as (P1 & _).
    pose proof (frame_ctl c _ _ F) as E. unfold ctl in E.
    rewrite leave_heating_world. unfold TempController_IsHeating.
    rewrite ctrl_set_ctrl_eq, is_panic_set_ctrl. cbn.
    split; [reflexivity|]. split; [reflexivity|].
    split; [now destruct w1|].
    split.
    { assert (relay_pin_ (ctrl c w1) = relay_pin_ (ctrl c w)) as <-
        by congruence.
      rewrite <- T. now destruct c, w1. }
    intros c' Hne. rewrite ctrl_set_ctrl_ne by exact Hne.
    rewrite <- (O c' Hne). now destruct c'.
Qed.

End SwitchFacts.

(** ** The pass of [loop] and the LED *)

Lemma sub32_elapsed g d :
  0 <= d < 2 ^ 32 -> sub32 (wrap32 (g + d)) (wrap32 g) = d.
Proof.
  intros H. unfold sub32, wrap32.
  rewrite <- Zminus_mod. replace (g + d - g) with d by lia.
  now apply Z.mod_small.
Qed.

Section LoopFacts.
Variable clk : nat -> Z.

Lemma LEDMan_Update_keeps w :
  let w' := LEDMan_Update clk w in
  GLastReadMs w' = GLastReadMs w /\
  callbacks_ w' = callbacks_ w /\ callback_count_ w' = callback_count_ w.
Proof.
  unfold LEDMan_Update, LEDMan_UpdateState, millis, digitalWrite, emit.
  cbv zeta. destruct w; cbn.
  repeat (case_bool_decide; cbn); repeat split.
Qed.

Lemma StartPanic_GLastReadMs r u l w :
  GLastReadMs (Panic_StartPanic clk r u l w) = GLastReadMs w.
Proof.
  destruct (StartPanic_spec clk r u l w) as (_ & Sd & _).
  apply (sd_GLastReadMs _ _ Sd).
Qed.

Lemma Off_GLastReadMs c w :
  GLastReadMs (TempController_Off c w) = GLastReadMs w.
Proof. rewrite Off_world. now destruct c, w. Qed.

Lemma Update_GLastReadMs c t w :
  GLastReadMs (TempController_Update clk c t w) = GLastReadMs w.
Proof.
  unfold TempController_Update, PANIC.
  assert (GLastReadMs (snd (DesyncMan_Update clk c t w)) = GLastReadMs w) as D.
  { unfold DesyncMan_Update, DesyncMan_Begin, set_desync, millis.
    destruct c, w; cbn; now destruct (not_inited_ _). }
  destruct (DesyncMan_Update clk c t w) as [desync w1]. cbn [snd] in D.
  destruct (st_ (ctrl c w)); [| |reflexivity];
    (destruct (fle (max_ (ctrl c w)) t);
     [now rewrite Off_GLastReadMs, StartPanic_GLastReadMs|]).
  - destruct desync.
    { now rewrite Off_GLastReadMs, StartPanic_GLastReadMs. }
    destruct (fle (fadd _ _) t); [|exact D].
    rewrite leave_heating_unfold, leave_heating_world, <- D.
    now destruct c, w1.
  - destruct (fle t (fsub _ _)); [|reflexivity].
    rewrite enter_heating_unfold, enter_heating_world. now destruct c, w.
Qed.

Lemma Loop_GLastReadMs c t w :
  GLastReadMs (TempController_Loop clk c t w) = GLastReadMs w.
Proof.
  unfold TempController_Loop, PANIC. destruct (Panic_IsPanic w); [reflexivity|].
  cbv zeta. destruct (feq t DEVICE_DISCONNECTED_C).
  - unfold Log_println, Log_print, emit.
    change (GLastReadMs (set_trace ?a (set_trace ?b ?x))) with (GLastReadMs x).
    now rewrite StartPanic_GLastReadMs.
  - rewrite Update_GLastReadMs.
    unfold TempController_PrintState. cbv zeta.
    now destruct (st_ _).
Qed.

(** X9. The read gate of [loop] measures the time since the last read
    modulo 2^32, so across a wrap-around of the clock as well. Less than
    [READ_INTERVAL_MS] after the last read the pass only drives the LED:
    the latch, the controllers and the time of the last read are as they
    were and one LED write is logged. Otherwise the time of the last read
    becomes the clock value of the pass. *)
Theorem loop_read_gate sample w g d :
  GLastReadMs w = wrap32 g ->
  clk (reads (LEDMan_Update clk w)) = g + d -> 0 <= d < 2 ^ 32 ->
  let w' := loop clk sample w in
  (d < READ_INTERVAL_MS ->
   GLastReadMs w' = GLastReadMs w /\
   is_panic_ w' = is_panic_ w /\ panic_info_ w' = panic_info_ w /\
   (forall c, ctrl c w' = ctrl c w) /\
   exists l, trace w' = trace w ++ [DigitalWrite LED_BUILTIN l]) /\
  (READ_INTERVAL_MS <= d -> GLastReadMs w' = wrap32 (g + d)).
Proof.
  intros G C D. cbv zeta. unfold loop. cbv zeta.
  destruct (LEDMan_Update_effect clk w) as (EP & EI & En & Et & l & El).
  destruct (LEDMan_Update_keeps w) as (EG & _).
  remember (LEDMan_Update clk w) as w1 eqn:Hw1. clear Hw1.
  unfold millis, Panic_IsPanic. cbn [fst snd].
  change (GLastReadMs (set_reads (S (reads w1)) w1)) with (GLastReadMs w1).
  rewrite C, EG, G, sub32_elapsed by exact D.
  split; intros H.
  - rewrite bool_decide_eq_true_2 by exact H. cbn.
    split; [congruence|]. split; [exact EP|]. split; [exact EI|].
    split; [intros []; assumption|]. now exists l.
  - rewrite bool_decide_eq_false_2 by lia.
    destruct (is_panic_ _).
    + now destruct (PrintPanic_logs
        (set_GLastReadMs (wrap32 (g + d)) (set_reads (S (reads w1)) w1)))
        as (dd & -> & _).
    + now rewrite !Loop_GLastReadMs.
Qed.

Lemma Loop_disconnected_latches c t w :
  feq t DEVICE_DISCONNECTED_C = true ->
  is_panic_ (TempController_Loop clk c t w) = true.
Proof.
  intros D. unfold TempController_Loop, Panic_IsPanic, PANIC.
  destruct (is_panic_ w) eqn:P; [exact P|]. cbv zeta. rewrite D.
  unfold Log_println, Log_print, emit.
  change (is_panic_ (set_trace ?a (set_trace ?b ?x))) with (is_panic_ x).
  exact (proj1 (StartPanic_spec clk _ _ _ _)).
Qed.

Lemma Loop_stays_latched c t w :
  is_panic_ w = true -> TempController_Loop clk c t w = w.
Proof. unfold TempController_Loop, Panic_IsPanic. now intros ->. Qed.

(** X10. A disconnected sensor stops both heaters within the pass that
    reads it. In a pass of [loop] that reaches the controllers, with a
    shutdown callback for every controller in the table, a disconnected
    reading of either sensor leaves the latch triggered and every
    controller in [OFF] with its output inactive; and when the reading is
    that of [nico], the pass ends with [nico]'s [Loop]: the sensor of
    [trap] is not read any more. *)
Theorem loop_disconnect_stops_all sample w c :
  covered w -> Panic_IsPanic w = false ->
  READ_INTERVAL_MS <=
    sub32 (fst (millis clk (LEDMan_Update clk w))) (GLastReadMs w) ->
  feq (sample c) DEVICE_DISCONNECTED_C = true ->
  let w' := loop clk sample w in
  Panic_IsPanic w' = true /\ all_off w' /\
  (c = Nico ->
   w' = TempController_Loop clk Nico (sample Nico)
          (set_GLastReadMs (fst (millis clk (LEDMan_Update clk w)))
             (snd (millis clk (LEDMan_Update clk w))))).
Proof.
  unfold Panic_IsPanic. intros Cv P G D. cbv zeta.
  assert (is_panic_ (loop clk sample w) = true /\
          (c = Nico ->
           loop clk sample w =
           TempController_Loop clk Nico (sample Nico)
             (set_GLastReadMs (fst (millis clk (LEDMan_Update clk w)))
                (snd (millis clk (LEDMan_Update clk w)))))) as [L N].
  { unfold loop. cbv zeta.
    destruct (LEDMan_Update_effect clk w) as (EP & _).
    destruct (LEDMan_Update_keeps w) as (EG & _).
    remember (LEDMan_Update clk w) as w1 eqn:Hw1. clear Hw1.
    unfold millis, Panic_IsPanic in *. cbn [fst snd] in *.
    change (GLastReadMs (set_reads (S (reads w1)) w1)) with (GLastReadMs w1).
    rewrite EG, bool_decide_eq_false_2 by lia.
    change (is_panic_ (set_GLastReadMs (wrap32 (clk (reads w1)))
                         (set_reads (S (reads w1)) w1)))
      with (is_panic_ w1).
    rewrite EP, P.
    remember (set_GLastReadMs (wrap32 (clk (reads w1)))
                (set_reads (S (reads w1)) w1)) as w3 eqn:Hw3. clear Hw3.
    destruct c.
    - pose proof (Loop_disconnected_latches Nico (sample Nico) w3 D) as Ln.
      rewrite (Loop_stays_latched Trap _ _ Ln). auto.
    - split; [|discriminate].
      now apply Loop_disconnected_latches. }
  split; [exact L|]. split; [|exact N].
  apply (sr_fail_safe _ _ (loop_safe_run clk sample w)); [|exact L].
  split; [exact Cv|]. congruence.
Qed.

(** X11. [LEDMan::Update] logs one write, of the phase it leaves in
    [ledOn_]. While the pattern stays as stored it reads the clock once
    and toggles the phase exactly when the half-period of the pattern has
    elapsed (modulo 2^32) since the last toggle. When the pattern changes
    it reads the clock twice, and the new pattern starts in the on phase
    unless its half-period has already elapsed between the two reads. *)
Theorem LEDMan_Update_blink w :
  let p := LEDMan_new_state w in
  let w' := LEDMan_Update clk w in
  let t0 := wrap32 (clk (reads w)) in
  let t1 := wrap32 (clk (S (reads w))) in
  let half := LEDMan_HalfPeriodForState p in
  trace w' =
  trace w ++ [DigitalWrite LED_BUILTIN (if ledOn_ w' then HIGH else LOW)] /\
  (p = currentStateIndex_ w ->
   reads w' = S (reads w) /\
   (half <= sub32 t0 (lastToggleMs_ w) ->
    ledOn_ w' = negb (ledOn_ w) /\ lastToggleMs_ w' = t0) /\
   (sub32 t0 (lastToggleMs_ w) < half ->
    ledOn_ w' = ledOn_ w /\ lastToggleMs_ w' = lastToggleMs_ w)) /\
  (p <> currentStateIndex_ w ->
   reads w' = S (S (reads w)) /\
   (half <= sub32 t1 t0 -> ledOn_ w' = false /\ lastToggleMs_ w' = t1) /\
   (sub32 t1 t0 < half -> ledOn_ w' = true /\ lastToggleMs_ w' = t0)).
Proof.
  cbv zeta. unfold LEDMan_Update, LEDMan_UpdateState. cbv zeta.
  remember (LEDMan_new_state w) as p eqn:Hp. clear Hp.
  unfold millis, digitalWrite, emit.
  destruct w as [ip cbs n pi cs nc idx on last tn tt gl rd tr].
  cbn [currentStateIndex_ ledOn_ lastToggleMs_ reads trace].
  destruct (decide (p = idx)) as [Hc|Hc].
  - rewrite (bool_decide_eq_false_2 (p <> idx)) by (intros N; now apply N).
    subst idx. cbn. split.
    { case_bool_decide; reflexivity. }
    split; [|intros E; contradiction]. intros _.
    split; [case_bool_decide; reflexivity|].
    split; intros H.
    + now rewrite bool_decide_eq_true_2 by exact H.
    + now rewrite bool_decide_eq_false_2 by lia.
  - rewrite (bool_decide_eq_true_2 (p <> idx)) by exact Hc.
    cbn. split.
    { case_bool_decide; reflexivity. }
    split; [intros E; contradiction|]. intros _.
    split; [case_bool_decide; reflexivity|].
    split; intros H.
    + now rewrite bool_decide_eq_true_2 by exact H.
    + now rewrite bool_decide_eq_false_2 by lia.
Qed.

End LoopFacts.

(** ** [setup] *)

Section SetupFacts.
Variable clk : nat -> Z.

Lemma Register_callbacks tc w :
  callbacks_ (LEDMan_Register clk tc w) = callbacks_ w /\
  callback_count_ (LEDMan_Register clk tc w) = callback_count_ w.
Proof.
  assert (forall r u l,
            callbacks_ (Panic_StartPanic clk r u l w) = callbacks_ w /\
            callback_count_ (Panic_StartPanic clk r u l w) =
            callback_count_ w) as H.
  { intros r u l. destruct (StartPanic_spec clk r u l w) as (_ & Sd & _).
    split; [apply (sd_callbacks _ _ Sd)|apply (sd_callback_count _ _ Sd)]. }
  unfold LEDMan_Register, PANIC. destruct tc as [c|]; [|apply H].
  case_bool_decide; [apply H|]. now destruct w.
Qed.

Lemma covered_callbacks w w' :
  callbacks_ w' = callbacks_ w -> callback_count_ w' = callback_count_ w ->
  covered w -> covered w'.
Proof. intros E1 E2 C c. rewrite E1, E2. apply C. Qed.

Lemma Register_fault tc w :
  is_panic_ w = false -> covered w ->
  (tc = None \/ (MAX_CONTROLLERS <= num_controllers_ w)%nat) ->
  let w' := LEDMan_Register clk tc w in
  is_panic_ w' = true /\ all_off w' /\
  reason (panic_info_ w') = PanicReason.LEDRegisterFail.
Proof.
  intros P C H. cbv zeta.
  assert (LEDMan_Register clk tc w =
          PANIC clk 0 PanicReason.LEDRegisterFail 209 w) as ->.
  { unfold LEDMan_Register. destruct tc as [c|]; [|reflexivity].
    destruct H as [H|H]; [discriminate|].
    now rewrite bool_decide_eq_true_2 by exact H. }
  split; [exact (proj1 (StartPanic_spec clk _ _ _ _))|].
  split; [now apply StartPanic_all_off|].
  now destruct (PANIC_record clk PanicReason.LEDRegisterFail 0 209 w P)
    as (_ & -> & _).
Qed.

Lemma Register_latched tc w :
  is_panic_ w = true ->
  (tc = None \/ (MAX_CONTROLLERS <= num_controllers_ w)%nat) ->
  LEDMan_Register clk tc w = w.
Proof.
  intros P H. unfold LEDMan_Register, PANIC.
  destruct tc as [c|]; [|now apply StartPanic_latched].
  destruct H as [H|H]; [discriminate|].
  rewrite bool_decide_eq_true_2 by exact H. now apply StartPanic_latched.
Qed.

Lemma setup_prefix ip x0 x1 x2 x3 n pi cs nc idx on last tn tt gl rd tr :
  let w := mkWorld ip [x0; x1; x2; x3] n pi cs nc idx on last tn tt gl rd tr in
  Panic_Init setup_cbs
    (Log_println [PStr "Target: 26 C, hysteresis: +/-0.5 C"]
       (Log_println
          [PStr (String (Ascii.ascii_of_nat 10)
                   "Nico temp controller starting...")]
          (Log_begin 9600
             (TempController_Begin Trap
                (TempController_Begin Nico (pinMode LED_BUILTIN OUTPUT w)))))) =
  mkWorld ip [Some (CallOff Nico); Some (CallOff Trap); x2; x3] 2 pi cs nc
    idx on last tn tt gl rd
    (tr ++
     [PinMode LED_BUILTIN OUTPUT;
      PinMode (relay_pin_ tn) OUTPUT;
      DigitalWrite (relay_pin_ tn) RELAY_INACTIVE_STATE;
      SensorBegin (one_wire_ tn);
      PinMode (relay_pin_ tt) OUTPUT;
      DigitalWrite (relay_pin_ tt) RELAY_INACTIVE_STATE;
      SensorBegin (one_wire_ tt);
      SerialBegin 9600;
      SerialPrint (PStr (String (Ascii.ascii_of_nat 10)
                           "Nico temp controller starting..."));
      SerialPrintln;
      SerialPrint (PStr "Target: 26 C, hysteresis: +/-0.5 C");
      SerialPrintln]).
Proof.
  cbv zeta. cbv -[app Ascii.ascii_of_nat].
  rewrite <- !app_assoc. reflexivity.
Qed.
(** X12. [setup] on statics with the four-slot tables, no fault latched:
    the callback table then starts with the shutdown callbacks of [nico]
    and [trap], so that every controller has one. With room for two more
    entries in the registry of [LEDMan], both controllers are appended to
    it in this order, no fault is raised and the controllers are as they
    were; the log is the pin set-up of the LED, the pin set-up of each
    relay with a write of the inactive level and the start of its
    sensor, and the two banner lines. Without room, the registration
    raises [LEDRegisterFail], and since the callbacks were installed
    first both controllers are shut off. *)
Theorem setup_installs w :
  is_panic_ w = false ->
  length (callbacks_ w) = MAX_CALLBACKS ->
  length (controllers_ w) = MAX_CONTROLLERS ->
  let w' := setup clk w in
  callback_count_ w' = 2%nat /\
  take 2 (callbacks_ w') = [Some (CallOff Nico); Some (CallOff Trap)] /\
  covered w' /\
  ((num_controllers_ w + 2 <= MAX_CONTROLLERS)%nat ->
   is_panic_ w' = false /\
   num_controllers_ w' = (num_controllers_ w + 2)%nat /\
   controllers_ w' !! num_controllers_ w = Some (Some Nico) /\
   controllers_ w' !! S (num_controllers_ w) = Some (Some Trap) /\
   (forall c, ctrl c w' = ctrl c w) /\
   trace w' =
   trace w ++
   [PinMode LED_BUILTIN OUTPUT;
    PinMode (relay_pin_ (nico w)) OUTPUT;
    DigitalWrite (relay_pin_ (nico w)) RELAY_INACTIVE_STATE;
    SensorBegin (one_wire_ (nico w));
    PinMode (relay_pin_ (trap w)) OUTPUT;
    DigitalWrite (relay_pin_ (trap w)) RELAY_INACTIVE_STATE;
    SensorBegin (one_wire_ (trap w));
    SerialBegin 9600;
    SerialPrint (PStr (String (Ascii.ascii_of_nat 10)
                         "Nico temp controller starting..."));
    SerialPrintln;
    SerialPrint (PStr "Target: 26 C, hysteresis: +/-0.5 C");
    SerialPrintln]) /\
  ((MAX_CONTROLLERS < num_controllers_ w + 2)%nat ->
   is_panic_ w' = true /\ all_off w' /\
   reason (panic_info_ w') = PanicReason.LEDRegisterFail).
Proof.
  intros P Lc Lr. cbv zeta. unfold setup. cbv zeta.
  destruct w as [ip cbs n pi cs nc idx on last tn tt gl rd tr].
  cbn in P, Lc, Lr. subst ip.
  destruct cbs as [|x0 [|x1 [|x2 [|x3 [|]]]]]; try discriminate Lc.
  pose proof (setup_prefix false x0 x1 x2 x3 n pi cs nc idx on last tn tt gl
                rd tr) as E6.
  cbv zeta in E6. rewrite E6. clear E6.
  remember (mkWorld false [Some (CallOff Nico); Some (CallOff Trap); x2; x3]
              2 pi cs nc idx on last tn tt gl rd _) as w6 eqn:E6.
  assert (covered w6) as C6.
  { pose proof UCHAR_RANGE_bound as B. unfold MAX_CALLBACKS in B.
    intros []; [exists 0%nat|exists 1%nat]; subst w6; cbn;
      (split; [lia|split; [lia|reflexivity]]). }
  destruct (Register_callbacks (Some Nico) w6) as (K1 & K2).
  destruct (Register_callbacks (Some Trap)
              (LEDMan_Register clk (Some Nico) w6)) as (K3 & K4).
  assert (covered (LEDMan_Register clk (Some Nico) w6)) as C7
    by (apply (covered_callbacks w6); assumption).
  split; [rewrite K4, K2; now subst w6|].
  split; [rewrite K3, K1; now subst w6|].
  split; [apply (covered_callbacks (LEDMan_Register clk (Some Nico) w6));
            assumption|].
  cbn [num_controllers_ nico trap trace].
  split; intros H.
  - assert (num_controllers_ w6 = nc) as N6 by now subst w6.
    assert (LEDMan_Register clk (Some Nico) w6 =
            set_controllers (<[nc := Some Nico]> (controllers_ w6))
              (S nc) w6) as E7.
    { unfold LEDMan_Register.
      now rewrite N6, bool_decide_eq_false_2
        by (unfold MAX_CONTROLLERS in *; lia). }
    rewrite E7.
    assert (LEDMan_Register clk (Some Trap)
              (set_controllers (<[nc := Some Nico]> (controllers_ w6))
                 (S nc) w6) =
            set_controllers
              (<[S nc := Some Trap]> (<[nc := Some Nico]> (controllers_ w6)))
              (S (S nc)) w6) as E8.
    { unfold LEDMan_Register.
      now rewrite bool_decide_eq_false_2
        by (cbn; unfold MAX_CONTROLLERS in *; lia). }
    rewrite E8. subst w6.
    cbn [set_controllers is_panic_ num_controllers_ controllers_ ctrl nico
         trap trace].
    unfold MAX_CONTROLLERS in *.
    split; [reflexivity|]. split; [lia|].
    split.
    { rewrite list_lookup_insert_ne by lia.
      apply list_lookup_insert_eq. lia. }
    split.
    { apply list_lookup_insert_eq. rewrite length_insert. lia. }
    split; [intros []; reflexivity|reflexivity].
  - assert (num_controllers_ w6 = nc) as N6 by now subst w6.
    assert (is_panic_ w6 = false) as P6 by now subst w6.
    destruct (decide (MAX_CONTROLLERS <= nc)%nat) as [Hf|Hf].
    + destruct (Register_fault (Some Nico) w6) as (F1 & F2 & F3);
        [exact P6|exact C6|right; now rewrite N6|].
      assert (LEDMan_Register clk (Some Nico) w6 =
              PANIC clk 0 PanicReason.LEDRegisterFail 209 w6) as E7.
      { unfold LEDMan_Register.
        now rewrite N6, bool_decide_eq_true_2 by exact Hf. }
      rewrite Register_latched; [auto|exact F1|].
      right. rewrite E7. unfold PANIC.
      destruct (StartPanic_spec clk PanicReason.LEDRegisterFail 0 209 w6)
        as (_ & Sd & _).
      rewrite (sd_num_controllers _ _ Sd). now rewrite N6.
    + assert (LEDMan_Register clk (Some Nico) w6 =
              set_controllers (<[nc := Some Nico]> (controllers_ w6))
                (S nc) w6) as E7.
      { unfold LEDMan_Register.
        now rewrite N6, bool_decide_eq_false_2 by exact Hf. }
      apply Register_fault; [now rewrite E7|exact C7|].
      right. rewrite E7. cbn. unfold MAX_CONTROLLERS in *. lia.
Qed.

End SetupFacts.

(** * The legacy sketch *)

Section LegacyFacts.
Variable clk : nat -> Z.

Lemma Legacy_LED_enter_keeps s w :
  let w' := Legacy.LED_enter clk s w in
  Legacy.is_panic_ w' = Legacy.is_panic_ w /\
  Legacy.callbacks_ w' = Legacy.callbacks_ w /\
  Legacy.callback_count_ w' = Legacy.callback_count_ w /\
  Legacy.st_ w' = Legacy.st_ w /\
  Legacy.heater_is_off_ w' = Legacy.heater_is_off_ w /\
  Legacy.GLastReadMs w' = Legacy.GLastReadMs w /\
  Legacy.GUndetectedCount w' = Legacy.GUndetectedCount w /\
  Legacy.trace w' = Legacy.trace w /\
  Legacy.currentStateIndex_ w' = s.
Proof.
  unfold Legacy.LED_enter, Legacy.millis. cbv zeta.
  destruct w; cbn. case_bool_decide as H; cbn; repeat split.
  first [now symmetry|now apply dec_stable in H].
Qed.

Lemma Legacy_Off_keeps w :
  let w' := Legacy.Off w in
  Legacy.is_panic_ w' = Legacy.is_panic_ w /\
  Legacy.callbacks_ w' = Legacy.callbacks_ w /\
  Legacy.callback_count_ w' = Legacy.callback_count_ w /\
  Legacy.currentStateIndex_ w' = Legacy.currentStateIndex_ w /\
  Legacy.GLastReadMs w' = Legacy.GLastReadMs w /\
  Legacy.GUndetectedCount w' = Legacy.GUndetectedCount w /\
  Legacy.heater_is_off_ w' = true.
Proof.
  unfold Legacy.Off, Legacy.IsPanic, Legacy.digitalWrite, Legacy.emit.
  destruct w as [p cbs n idx on last st off gl gu rd tr]; cbn.
  destruct off, p; cbn; repeat split.
Qed.

Lemma Legacy_invoke_keeps cb w :
  Legacy.is_panic_ (Legacy.invoke clk cb w) = Legacy.is_panic_ w /\
  Legacy.callbacks_ (Legacy.invoke clk cb w) = Legacy.callbacks_ w /\
  Legacy.callback_count_ (Legacy.invoke clk cb w) = Legacy.callback_count_ w.
Proof.
  destruct cb; cbn [Legacy.invoke].
  - destruct (Legacy_LED_enter_keeps Legacy.LEDState.PANIC w)
      as (? & ? & ? & _). auto.
  - destruct (Legacy_Off_keeps w) as (? & ? & ? & _). auto.
Qed.

Lemma Legacy_run_callbacks_keeps n : forall i w,
  Legacy.is_panic_ (Legacy.run_callbacks clk n i w) = Legacy.is_panic_ w /\
  Legacy.callbacks_ (Legacy.run_callbacks clk n i w) = Legacy.callbacks_ w /\
  Legacy.callback_count_ (Legacy.run_callbacks clk n i w) =
  Legacy.callback_count_ w.
Proof.
  induction n as [|n IH]; intros i w; cbn [Legacy.run_callbacks]; [easy|].
  case_bool_decide; [|easy].
  destruct (Legacy.callbacks_ w !! i) as [[cb|]|]; [|apply IH..].
  destruct (IH (S i) (Legacy.invoke clk cb w)) as (-> & -> & ->).
  apply Legacy_invoke_keeps.
Qed.

Lemma Legacy_StartPanic_keeps w :
  Legacy.is_panic_ (Legacy.StartPanic clk w) = true /\
  Legacy.callbacks_ (Legacy.StartPanic clk w) = Legacy.callbacks_ w /\
  Legacy.callback_count_ (Legacy.StartPanic clk w) = Legacy.callback_count_ w.
Proof.
  unfold Legacy.StartPanic. destruct (Legacy.is_panic_ w) eqn:P; [easy|].
  destruct (Legacy_run_callbacks_keeps UCHAR_RANGE 0
              (Legacy.set_panic true (Legacy.callbacks_ w)
                 (Legacy.callback_count_ w) w)) as (-> & -> & ->).
  easy.
Qed.

(** X13. The legacy [RegisterCallback] on the four-slot table: below four
    entries it stores the pointer in the next slot and counts it,
    changing nothing else; with four entries it stores nothing and
    raises the fault instead. The count never exceeds four. *)
Theorem Legacy_RegisterCallback_bounded cb w :
  length (Legacy.callbacks_ w) = Legacy.MAX_CALLBACKS ->
  (Legacy.callback_count_ w <= Legacy.MAX_CALLBACKS)%nat ->
  let w' := Legacy.RegisterCallback clk cb w in
  ((Legacy.callback_count_ w < Legacy.MAX_CALLBACKS)%nat ->
   w' = Legacy.set_panic (Legacy.is_panic_ w)
          (<[Legacy.callback_count_ w := cb]> (Legacy.callbacks_ w))
          (S (Legacy.callback_count_ w)) w /\
   Legacy.callbacks_ w' !! Legacy.callback_count_ w = Some cb /\
   take (Legacy.callback_count_ w) (Legacy.callbacks_ w') =
   take (Legacy.callback_count_ w) (Legacy.callbacks_ w)) /\
  (Legacy.callback_count_ w = Legacy.MAX_CALLBACKS ->
   w' = Legacy.StartPanic clk w /\
   Legacy.is_panic_ w' = true /\
   Legacy.callbacks_ w' = Legacy.callbacks_ w /\
   Legacy.callback_count_ w' = Legacy.callback_count_ w) /\
  (Legacy.callback_count_ w' <= Legacy.MAX_CALLBACKS)%nat /\
  length (Legacy.callbacks_ w') = Legacy.MAX_CALLBACKS.
Proof.
  intros L B. cbv zeta. unfold Legacy.RegisterCallback.
  destruct (Legacy_StartPanic_keeps w) as (S1 & S2 & S3).
  case_bool_decide as H.
  - cbn. split.
    { intros _. split; [reflexivity|].
      split; [apply list_lookup_insert_eq; lia|].
      apply take_insert_ge. lia. }
    split; [lia|]. split; [lia|]. now rewrite length_insert.
  - split; [intros H'; contradiction|].
    split; [intros _; auto|]. rewrite S2, S3. auto.
Qed.

(** X14. The legacy [SetState]. A state that is out of range raises the
    fault, and then the LED phase is off and the last write turns the LED
    off, whatever the callbacks did. A state in range that differs from
    the stored one is stored, starting in the on phase at the time of the
    clock; the stored state again changes nothing. No call touches the
    heater unless it raises the fault. *)
Theorem Legacy_SetState_range state w :
  let w' := Legacy.SetState clk state w in
  ((Legacy.NumStates <= state)%nat ->
   Legacy.is_panic_ w' = true /\ Legacy.ledOn_ w' = false /\
   Legacy.trace w' =
   Legacy.trace (Legacy.StartPanic clk w) ++ [DigitalWrite LED_BUILTIN LOW] /\
   Legacy.currentStateIndex_ w' =
   Legacy.currentStateIndex_ (Legacy.StartPanic clk w)) /\
  ((state < Legacy.NumStates)%nat ->
   Legacy.currentStateIndex_ w' = state /\
   Legacy.is_panic_ w' = Legacy.is_panic_ w /\
   Legacy.st_ w' = Legacy.st_ w /\
   Legacy.heater_is_off_ w' = Legacy.heater_is_off_ w /\
   Legacy.trace w' = Legacy.trace w /\
   (state <> Legacy.currentStateIndex_ w ->
    Legacy.ledOn_ w' = true /\
    Legacy.lastToggleMs_ w' = wrap32 (clk (Legacy.reads w)) /\
    Legacy.reads w' = S (Legacy.reads w)) /\
   (state = Legacy.currentStateIndex_ w -> w' = w)).
Proof.
  cbv zeta. unfold Legacy.SetState. split; intros H.
  - rewrite bool_decide_eq_true_2 by exact H. cbv zeta.
    destruct (Legacy_StartPanic_keeps w) as (S1 & _).
    remember (Legacy.StartPanic clk w) as w1 eqn:E. clear E.
    now destruct w1.
  - rewrite bool_decide_eq_false_2 by lia.
    destruct (Legacy_LED_enter_keeps state w)
      as (E1 & _ & _ & E2 & E3 & _ & _ & E4 & E5).
    split; [exact E5|]. split; [exact E1|]. split; [exact E2|].
    split; [exact E3|]. split; [exact E4|].
    unfold Legacy.LED_enter, Legacy.millis. cbv zeta.
    split; intros Hs.
    + rewrite bool_decide_eq_true_2 by exact Hs. now destruct w.
    + rewrite bool_decide_eq_false_2; [reflexivity|].
      intros N. now apply N.
Qed.

Lemma Legacy_SetState_in_range s w :
  (s < Legacy.NumStates)%nat ->
  Legacy.SetState clk s w = Legacy.LED_enter clk s w.
Proof.
  intros H. unfold Legacy.SetState.
  now rewrite bool_decide_eq_false_2 by lia.
Qed.

Lemma Legacy_On_keeps w :
  let w' := Legacy.On w in
  Legacy.is_panic_ w' = Legacy.is_panic_ w /\
  Legacy.callbacks_ w' = Legacy.callbacks_ w /\
  Legacy.callback_count_ w' = Legacy.callback_count_ w /\
  Legacy.currentStateIndex_ w' = Legacy.currentStateIndex_ w /\
  Legacy.GLastReadMs w' = Legacy.GLastReadMs w /\
  Legacy.GUndetectedCount w' = Legacy.GUndetectedCount w /\
  Legacy.heater_is_off_ w' = false.
Proof.
  unfold Legacy.On, Legacy.digitalWrite, Legacy.emit.
  destruct w as [p cbs n idx on last st off gl gu rd tr]; cbn.
  destruct off; cbn; repeat split.
Qed.

(** X15. The legacy [Update] raises the fault exactly for a controller
    that is not in [OFF] and a sample strictly over [TEMP_MAX]; the
    heater is then off. A sample equal to [TEMP_MAX] raises none. *)
Theorem Legacy_Update_faults_iff t w :
  Legacy.is_panic_ w = false ->
  let w' := Legacy.Update clk t w in
  (Legacy.is_panic_ w' = true <->
   Legacy.st_ w <> OFF /\ flt Legacy.TEMP_MAX t = true) /\
  (Legacy.is_panic_ w' = true -> Legacy.heater_is_off_ w' = true) /\
  Legacy.is_panic_ (Legacy.Update clk Legacy.TEMP_MAX w) = false.
Proof.
  intros P. cbv zeta.
  assert (forall t0,
    Legacy.is_panic_ (Legacy.Update clk t0 w) =
    match Legacy.st_ w with OFF => false | _ => flt Legacy.TEMP_MAX t0 end /\
    (flt Legacy.TEMP_MAX t0 = true -> Legacy.st_ w <> OFF ->
     Legacy.heater_is_off_ (Legacy.Update clk t0 w) = true)) as H.
  { intros t0. unfold Legacy.Update.
    assert (Legacy.is_panic_ (Legacy.Off (Legacy.StartPanic clk w)) = true /\
            Legacy.heater_is_off_ (Legacy.Off (Legacy.StartPanic clk w)) = true)
      as (F1 & F2).
    { destruct (Legacy_Off_keeps (Legacy.StartPanic clk w))
        as (-> & _ & _ & _ & _ & _ & ->).
      split; [apply Legacy_StartPanic_keeps|reflexivity]. }
    destruct (Legacy.st_ w) eqn:St.
    - destruct (flt Legacy.TEMP_MAX t0); [now split|].
      split; [|discriminate].
      destruct (fle (fadd _ _) t0); [|exact P]. cbv zeta.
      rewrite Legacy_SetState_in_range
        by (unfold Legacy.NumStates, Legacy.LEDState.COOLING; lia).
      destruct (Legacy_LED_enter_keeps Legacy.LEDState.COOLING
                  (Legacy.set_controller COOLING
                     (Legacy.heater_is_off_ (Legacy.Off w)) (Legacy.Off w)))
        as (-> & _).
      destruct (Legacy_Off_keeps w) as (E & _). cbn. congruence.
    - destruct (flt Legacy.TEMP_MAX t0); [now split|].
      split; [|discriminate].
      destruct (fle t0 (fsub _ _)); [|exact P]. cbv zeta.
      rewrite Legacy_SetState_in_range
        by (unfold Legacy.NumStates, Legacy.LEDState.HEATING; lia).
      destruct (Legacy_LED_enter_keeps Legacy.LEDState.HEATING
                  (Legacy.set_controller HEATING
                     (Legacy.heater_is_off_ (Legacy.On w)) (Legacy.On w)))
        as (-> & _).
      destruct (Legacy_On_keeps w) as (E & _). cbn. congruence.
    - split; [exact P|]. intros _ N. now contradiction N. }
  split; [|split].
  - destruct (H t) as (-> & _).
    destruct (Legacy.st_ w); split; try (intros [N F]);
      try (intros F); try (split; [discriminate|]); auto;
      try discriminate; now contradiction N.
  - destruct (H t) as (E & F). rewrite E.
    destruct (Legacy.st_ w) eqn:St; try discriminate;
      intros M; apply F; auto; discriminate.
  - destruct (H Legacy.TEMP_MAX) as (-> & _).
    change (flt Legacy.TEMP_MAX Legacy.TEMP_MAX) with false.
    now destruct (Legacy.st_ w).
Qed.

Lemma Legacy_run_callbacks_globals n : forall i w,
  Legacy.GLastReadMs (Legacy.run_callbacks clk n i w) = Legacy.GLastReadMs w /\
  Legacy.GUndetectedCount (Legacy.run_callbacks clk n i w) =
  Legacy.GUndetectedCount w.
Proof.
  induction n as [|n IH]; intros i w; cbn [Legacy.run_callbacks]; [easy|].
  case_bool_decide; [|easy].
  destruct (Legacy.callbacks_ w !! i) as [[cb|]|]; [|apply IH..].
  destruct (IH (S i) (Legacy.invoke clk cb w)) as (-> & ->).
  destruct cb; cbn [Legacy.invoke].
  - destruct (Legacy_LED_enter_keeps Legacy.LEDState.PANIC w)
      as (_ & _ & _ & _ & _ & ? & ? & _). auto.
  - destruct (Legacy_Off_keeps w) as (_ & _ & _ & _ & ? & ? & _). auto.
Qed.

Lemma Legacy_StartPanic_globals w :
  Legacy.GLastReadMs (Legacy.StartPanic clk w) = Legacy.GLastReadMs w /\
  Legacy.GUndetectedCount (Legacy.StartPanic clk w) =
  Legacy.GUndetectedCount w.
Proof.
  unfold Legacy.StartPanic. destruct (Legacy.is_panic_ w); [easy|].
  now destruct (Legacy_run_callbacks_globals UCHAR_RANGE 0
                  (Legacy.set_panic true (Legacy.callbacks_ w)
                     (Legacy.callback_count_ w) w)) as (-> & ->).
Qed.

Lemma Legacy_Update_globals t w :
  Legacy.GUndetectedCount (Legacy.Update clk t w) = Legacy.GUndetectedCount w.
Proof.
  unfold Legacy.Update.
  assert (Legacy.GUndetectedCount (Legacy.Off (Legacy.StartPanic clk w)) =
          Legacy.GUndetectedCount w) as F.
  { destruct (Legacy_Off_keeps (Legacy.StartPanic clk w))
      as (_ & _ & _ & _ & _ & -> & _).
    apply Legacy_StartPanic_globals. }
  destruct (Legacy.st_ w); [| |reflexivity];
    (destruct (flt Legacy.TEMP_MAX t); [exact F|]).
  - destruct (fle (fadd _ _) t); [|reflexivity]. cbv zeta.
    rewrite Legacy_SetState_in_range
      by (unfold Legacy.NumStates, Legacy.LEDState.COOLING; lia).
    destruct (Legacy_LED_enter_keeps Legacy.LEDState.COOLING
                (Legacy.set_controller COOLING
                   (Legacy.heater_is_off_ (Legacy.Off w)) (Legacy.Off w)))
      as (_ & _ & _ & _ & _ & _ & -> & _).
    now destruct (Legacy_Off_keeps w) as (_ & _ & _ & _ & _ & <- & _).
  - destruct (fle t (fsub _ _)); [|reflexivity]. cbv zeta.
    rewrite Legacy_SetState_in_range
      by (unfold Legacy.NumStates, Legacy.LEDState.HEATING; lia).
    destruct (Legacy_LED_enter_keeps Legacy.LEDState.HEATING
                (Legacy.set_controller HEATING
                   (Legacy.heater_is_off_ (Legacy.On w)) (Legacy.On w)))
      as (_ & _ & _ & _ & _ & _ & -> & _).
    now destruct (Legacy_On_keeps w) as (_ & _ & _ & _ & _ & <- & _).
Qed.

Lemma Legacy_LED_Update_keeps w :
  let w' := Legacy.LED_Update clk w in
  Legacy.is_panic_ w' = Legacy.is_panic_ w /\
  Legacy.callbacks_ w' = Legacy.callbacks_ w /\
  Legacy.callback_count_ w' = Legacy.callback_count_ w /\
  Legacy.currentStateIndex_ w' = Legacy.currentStateIndex_ w /\
  Legacy.st_ w' = Legacy.st_ w /\
  Legacy.heater_is_off_ w' = Legacy.heater_is_off_ w /\
  Legacy.GLastReadMs w' = Legacy.GLastReadMs w /\
  Legacy.GUndetectedCount w' = Legacy.GUndetectedCount w /\
  exists l, Legacy.trace w' = Legacy.trace w ++ [DigitalWrite LED_BUILTIN l].
Proof.
  unfold Legacy.LED_Update, Legacy.millis, Legacy.digitalWrite, Legacy.emit.
  cbv zeta. destruct w; cbn.
  case_bool_decide; cbn; repeat split; eexists; reflexivity.
Qed.

(** X16. The legacy [loop] counts missing readings. In a pass that
    reaches the sensor with no fault latched, a disconnected reading
    with fewer than five counted only adds one to the count: no fault,
    and the controller and the heater are as they were. With five
    counted it raises the fault and the heater is off. Any other
    reading resets the count. *)
Theorem Legacy_loop_debounce t w :
  Legacy.is_panic_ w = false ->
  READ_INTERVAL_MS <=
    sub32 (fst (Legacy.millis clk (Legacy.LED_Update clk w)))
      (Legacy.GLastReadMs w) ->
  let w' := Legacy.loop clk t w in
  (feq t DEVICE_DISCONNECTED_C = true -> Legacy.GUndetectedCount w < 5 ->
   Legacy.is_panic_ w' = false /\
   Legacy.GUndetectedCount w' = Legacy.GUndetectedCount w + 1 /\
   Legacy.st_ w' = Legacy.st_ w /\
   Legacy.heater_is_off_ w' = Legacy.heater_is_off_ w) /\
  (feq t DEVICE_DISCONNECTED_C = true -> 5 <= Legacy.GUndetectedCount w ->
   Legacy.is_panic_ w' = true /\ Legacy.heater_is_off_ w' = true) /\
  (feq t DEVICE_DISCONNECTED_C = false -> Legacy.GUndetectedCount w' = 0).
Proof.
  intros P G. cbv zeta. unfold Legacy.loop. cbv zeta.
  destruct (Legacy_LED_Update_keeps w)
    as (E1 & _ & _ & _ & E2 & E3 & E4 & E5 & _).
  remember (Legacy.LED_Update clk w) as w1 eqn:Hw1. clear Hw1.
  unfold Legacy.millis, Legacy.IsPanic in *. cbn [fst snd] in *.
  change (Legacy.GLastReadMs (Legacy.set_env (S (Legacy.reads w1))
                                (Legacy.trace w1) w1))
    with (Legacy.GLastReadMs w1).
  rewrite E4, bool_decide_eq_false_2 by lia.
  destruct w1 as [p cbs n idx on last st off gl gu rd tr].
  cbn in E1, E2, E3, E4, E5. subst p st off gl gu.
  cbn [Legacy.set_globals Legacy.set_env Legacy.is_panic_ Legacy.callbacks_
       Legacy.callback_count_ Legacy.currentStateIndex_ Legacy.ledOn_
       Legacy.lastToggleMs_ Legacy.st_ Legacy.heater_is_off_
       Legacy.GLastReadMs Legacy.GUndetectedCount Legacy.reads Legacy.trace
       Legacy.emit].
  rewrite P.
  cbn [Legacy.set_globals Legacy.set_env Legacy.is_panic_ Legacy.callbacks_
       Legacy.callback_count_ Legacy.currentStateIndex_ Legacy.ledOn_
       Legacy.lastToggleMs_ Legacy.st_ Legacy.heater_is_off_
       Legacy.GLastReadMs Legacy.GUndetectedCount Legacy.reads Legacy.trace
       Legacy.emit].
  split; [|split]; intros D.
  - intros C. rewrite D, bool_decide_eq_false_2 by lia. now cbn.
  - intros C. rewrite D, bool_decide_eq_true_2 by exact C.
    match goal with |- context [Legacy.Off ?x] =>
      destruct (Legacy_Off_keeps x) as (-> & _ & _ & _ & _ & _ & ->) end.
    split; [apply Legacy_StartPanic_keeps|reflexivity].
  - rewrite D. now rewrite Legacy_Update_globals.
Qed.

Lemma pin_writes_write p tr l :
  last (pin_writes p (tr ++ [DigitalWrite p l])) = Some l.
Proof.
  rewrite pin_writes_app. unfold pin_writes at 2. cbn.
  rewrite bool_decide_eq_true_2 by reflexivity. cbn. apply last_snoc.
Qed.

Lemma pin_writes_skip p tr e :
  (forall l, e <> DigitalWrite p l) ->
  pin_writes p (tr ++ [e]) = pin_writes p tr.
Proof.
  intros H. rewrite pin_writes_app. unfold pin_writes at 2. cbn.
  destruct e as [| q l | | | | |]; cbn; rewrite ?app_nil_r; try reflexivity.
  case_bool_decide as E; [|cbn; now rewrite app_nil_r].
  subst q. now contradiction (H l).
Qed.

(** Soundness does not depend on the LED phase, the clock reads and the
    time of the last read, nor on log entries other than relay writes. *)
Lemma Legacy_sound_same w w' :
  Legacy.is_panic_ w' = Legacy.is_panic_ w ->
  Legacy.callbacks_ w' = Legacy.callbacks_ w ->
  Legacy.callback_count_ w' = Legacy.callback_count_ w ->
  Legacy.currentStateIndex_ w' = Legacy.currentStateIndex_ w ->
  Legacy.st_ w' = Legacy.st_ w ->
  Legacy.heater_is_off_ w' = Legacy.heater_is_off_ w ->
  Legacy.GUndetectedCount w' = Legacy.GUndetectedCount w ->
  pin_writes Legacy.RELAY_PIN (Legacy.trace w') =
  pin_writes Legacy.RELAY_PIN (Legacy.trace w) ->
  Legacy_sound w -> Legacy_sound w'.
Proof.
  unfold Legacy_sound. intros -> -> -> -> -> -> -> ->. auto.
Qed.

Lemma Legacy_StartPanic_table w :
  Legacy.callbacks_ w = Legacy_table -> Legacy.callback_count_ w = 2%nat ->
  Legacy.is_panic_ w = false ->
  Legacy.StartPanic clk w =
  Legacy.Off
    (Legacy.LED_enter clk Legacy.LEDState.PANIC
       (Legacy.set_panic true Legacy_table 2 w)).
Proof.
  intros C N P. unfold Legacy.StartPanic. rewrite P, C, N.
  pose proof UCHAR_RANGE_bound as B. unfold MAX_CALLBACKS in B.
  destruct UCHAR_RANGE as [|[|[|n]]]; try lia.
  remember (Legacy.set_panic true Legacy_table 2 w) as w1 eqn:E1.
  assert (Legacy.callbacks_ w1 = Legacy_table /\
          Legacy.callback_count_ w1 = 2%nat) as (C1 & N1) by now subst w1.
  clear E1. cbn [Legacy.run_callbacks].
  rewrite N1, C1. cbn [Legacy_table lookup list_lookup].
  rewrite bool_decide_eq_true_2 by lia. cbn [Legacy.invoke].
  destruct (Legacy_LED_enter_keeps Legacy.LEDState.PANIC w1)
    as (_ & C2 & N2 & _).
  remember (Legacy.LED_enter clk Legacy.LEDState.PANIC w1) as w2 eqn:E2.
  clear E2. rewrite N2, N1, C2, C1.
  rewrite bool_decide_eq_true_2 by lia. cbn [Legacy_table lookup list_lookup].
  cbn [Legacy.invoke].
  destruct (Legacy_Off_keeps w2) as (_ & C3 & N3 & _).
  rewrite N3, N2, N1. now rewrite bool_decide_eq_false_2 by lia.
Qed.

(** Soundness read off the fields that [LED_enter] keeps. *)
Lemma Legacy_sound_enter s w :
  Legacy.callbacks_ w = Legacy_table -> Legacy.callback_count_ w = 2%nat ->
  (Legacy.is_panic_ w = true ->
   Legacy.heater_is_off_ w = true /\ Legacy.st_ w <> HEATING /\
   s = Legacy.LEDState.PANIC) ->
  (Legacy.is_panic_ w = false ->
   (Legacy.st_ w = HEATING /\ Legacy.heater_is_off_ w = false /\
    s = Legacy.LEDState.HEATING) \/
   (Legacy.st_ w = COOLING /\ Legacy.heater_is_off_ w = true /\
    s = Legacy.LEDState.COOLING)) ->
  last (pin_writes Legacy.RELAY_PIN (Legacy.trace w)) =
    Some (if Legacy.heater_is_off_ w then RELAY_INACTIVE_STATE
          else RELAY_ACTIVE_STATE) ->
  0 <= Legacy.GUndetectedCount w <= 5 ->
  Legacy_sound (Legacy.LED_enter clk s w).
Proof.
  intros C N HL HU HT HG.
  destruct (Legacy_LED_enter_keeps s w)
    as (E1 & E2 & E3 & E4 & E5 & _ & E6 & E7 & E8).
  unfold Legacy_sound. rewrite E1, E2, E3, E4, E5, E6, E7, E8.
  repeat split; auto; try apply HL; try apply HG; auto.
Qed.

(** A fault, with the shutdown that follows it at every place of call. *)
Lemma Legacy_fault_sound w :
  Legacy_sound w -> Legacy.is_panic_ w = false ->
  Legacy_sound (Legacy.Off (Legacy.StartPanic clk w)).
Proof.
  intros (C & N & _ & HU & HT & HG) P.
  rewrite Legacy_StartPanic_table by assumption.
  specialize (HU P).
  destruct (Legacy_LED_enter_keeps Legacy.LEDState.PANIC
              (Legacy.set_panic true Legacy_table 2 w))
    as (E1 & E2 & E3 & E4 & E5 & _ & E6 & E7 & E8).
  remember (Legacy.LED_enter clk Legacy.LEDState.PANIC
              (Legacy.set_panic true Legacy_table 2 w)) as w2 eqn:Hw2.
  clear Hw2.
  destruct w as [p cbs n idx on last st off gl gu rd tr].
  destruct w2 as [p2 cbs2 n2 idx2 on2 last2 st2 off2 gl2 gu2 rd2 tr2].
  cbn in *. subst p cbs n p2 cbs2 n2 st2 off2 gu2 tr2 idx2.
  unfold Legacy.Off, Legacy.IsPanic, Legacy.digitalWrite, Legacy.emit.
  destruct HU as [(-> & -> & ->)|(-> & -> & ->)]; cbn;
    unfold Legacy_sound; cbn;
    (split; [reflexivity|]); (split; [reflexivity|]);
    (split; [intros _; repeat split; discriminate|]);
    (split; [discriminate|]); (split; [|exact HG]).
  - apply pin_writes_write.
  - exact HT.
Qed.

Lemma Legacy_Update_sound t w :
  Legacy_sound w -> Legacy.is_panic_ w = false ->
  Legacy_sound (Legacy.Update clk t w).
Proof.
  intros Sd P. pose proof (Legacy_fault_sound w Sd P) as F.
  pose proof Sd as (C & N & HL & HU & HT & HG).
  pose proof (HU P) as St.
  unfold Legacy.Update.
  destruct St as [(St & Off & Idx)|(St & Off & Idx)]; rewrite St;
    (destruct (flt Legacy.TEMP_MAX t); [exact F|]).
  - destruct (fle (fadd _ _) t); [|exact Sd].
    cbv zeta.
    rewrite Legacy_SetState_in_range
      by (unfold Legacy.NumStates, Legacy.LEDState.COOLING; lia).
    unfold Legacy.Off, Legacy.IsPanic, Legacy.digitalWrite, Legacy.emit.
    destruct w as [p cbs n idx on last st off gl gu rd tr]. cbn in *.
    subst p cbs n st off idx. cbn.
    apply Legacy_sound_enter; cbn; auto; try discriminate.
    apply pin_writes_write.
  - destruct (fle t (fsub _ _)); [|exact Sd].
    cbv zeta.
    rewrite Legacy_SetState_in_range
      by (unfold Legacy.NumStates, Legacy.LEDState.HEATING; lia).
    unfold Legacy.On, Legacy.digitalWrite, Legacy.emit.
    destruct w as [p cbs n idx on last st off gl gu rd tr]. cbn in *.
    subst p cbs n st off idx. cbn.
    apply Legacy_sound_enter; cbn; auto; try discriminate.
    apply pin_writes_write.
Qed.

Lemma Legacy_loop_sound t w :
  Legacy_sound w -> Legacy_sound (Legacy.loop clk t w).
Proof.
  intros Sd. unfold Legacy.loop. cbv zeta.
  assert (Legacy_sound (Legacy.LED_Update clk w)) as S1.
  { destruct (Legacy_LED_Update_keeps w)
      as (E1 & E2 & E3 & E4 & E5 & E6 & _ & E7 & l & El).
    apply (Legacy_sound_same w); auto.
    rewrite El. apply pin_writes_skip. intros l'. discriminate. }
  remember (Legacy.LED_Update clk w) as w1 eqn:Hw1. clear Hw1 Sd w.
  unfold Legacy.millis, Legacy.IsPanic. cbn [fst snd].
  set (w2 := Legacy.set_env (S (Legacy.reads w1)) (Legacy.trace w1) w1).
  assert (Legacy_sound w2) as S2
    by (apply (Legacy_sound_same w1); auto).
  case_bool_decide; [exact S2|].
  set (w3 := Legacy.set_globals _ _ w2).
  assert (Legacy_sound w3) as S3
    by (apply (Legacy_sound_same w2); auto).
  destruct (Legacy.is_panic_ w3) eqn:P3.
  { destruct S3 as (C & N & HL & HU & HT & HG).
    destruct (HL P3) as (Off & _).
    rewrite Legacy_Off_guarded by exact Off.
    unfold Legacy_sound; auto. }
  set (w4 := Legacy.emit (RequestTemperatures Legacy.ONE_WIRE_BUS_PIN) w3).
  assert (Legacy_sound w4) as S4.
  { apply (Legacy_sound_same w3); auto.
    apply pin_writes_skip. intros l'. discriminate. }
  assert (Legacy.is_panic_ w4 = false) as P4 by exact P3.
  destruct (feq t DEVICE_DISCONNECTED_C).
  - case_bool_decide as H5; [now apply Legacy_fault_sound|].
    destruct S4 as (C & N & HL & HU & HT & HG).
    unfold Legacy_sound. cbn [Legacy.set_globals Legacy.is_panic_
      Legacy.callbacks_ Legacy.callback_count_ Legacy.currentStateIndex_
      Legacy.st_ Legacy.heater_is_off_ Legacy.GUndetectedCount Legacy.trace].
    repeat split; auto; try apply HL; try lia; auto.
  - apply Legacy_Update_sound; [|exact P4].
    destruct S4 as (C & N & HL & HU & HT & HG).
    unfold Legacy_sound. cbn [Legacy.set_globals Legacy.is_panic_
      Legacy.callbacks_ Legacy.callback_count_ Legacy.currentStateIndex_
      Legacy.st_ Legacy.heater_is_off_ Legacy.GUndetectedCount Legacy.trace].
    repeat split; auto; try apply HL; try lia; auto.
Qed.

Lemma Legacy_setup_sound : Legacy_sound (Legacy.setup clk Legacy.initial_world).
Proof.
  unfold Legacy_sound. vm_compute. repeat split; try discriminate; auto.
Qed.

Lemma Legacy_run_sound ts : forall w,
  Legacy_sound w -> Legacy_sound (Legacy_run clk ts w).
Proof.
  induction ts as [|t ts IH]; intros w Sd; [exact Sd|].
  cbn. apply IH. now apply Legacy_loop_sound.
Qed.

(** X17. The legacy sketch in operation ([setup], then any passes of
    [loop] with any readings and any clock): once the fault is latched
    the heater is off, the controller is not in [HEATING] and the LED
    shows the panic pattern; and the relay has last been written the
    level of the heater flag, so that a latched fault leaves the relay
    at the inactive level. *)
Theorem Legacy_no_heating_after_panic ts :
  let w := Legacy_run clk ts (Legacy.setup clk Legacy.initial_world) in
  last (pin_writes Legacy.RELAY_PIN (Legacy.trace w)) =
    Some (if Legacy.heater_is_off_ w then RELAY_INACTIVE_STATE
          else RELAY_ACTIVE_STATE) /\
  (Legacy.is_panic_ w = true ->
   Legacy.heater_is_off_ w = true /\ Legacy.st_ w <> HEATING /\
   Legacy.currentStateIndex_ w = Legacy.LEDState.PANIC /\
   last (pin_writes Legacy.RELAY_PIN (Legacy.trace w)) =
     Some RELAY_INACTIVE_STATE).
Proof.
  cbv zeta.
  destruct (Legacy_run_sound ts _ Legacy_setup_sound)
    as (_ & _ & HL & _ & HT & _).
  split; [exact HT|]. intros P. destruct (HL P) as (Off & St & Idx).
  repeat split; auto. now rewrite HT, Off.
Qed.

(** X18. The legacy sketch in operation, with no fault latched: the
    controller is in [HEATING] exactly when the heater is on and in
    [COOLING] otherwise, the LED shows the pattern of that state, and
    the count of missing readings is between zero and five. *)
Theorem Legacy_LED_shows_state ts :
  let w := Legacy_run clk ts (Legacy.setup clk Legacy.initial_world) in
  Legacy.is_panic_ w = false ->
  Legacy.st_ w = (if Legacy.heater_is_off_ w then COOLING else HEATING) /\
  Legacy.currentStateIndex_ w =
    (if Legacy.heater_is_off_ w then Legacy.LEDState.COOLING
     else Legacy.LEDState.HEATING) /\
  0 <= Legacy.GUndetectedCount w <= 5.
Proof.
  cbv zeta. intros P.
  destruct (Legacy_run_sound ts _ Legacy_setup_sound)
    as (_ & _ & _ & HU & _ & HG).
  destruct (HU P) as [(-> & -> & ->)|(-> & -> & ->)]; auto.
Qed.

End LegacyFacts.

(** * The two sketches *)

Section BothFacts.
Variable clk : nat -> Z.

(** Under the latch a legacy callback leaves the controller alone or, if
    the heater was on, shuts it off. *)
Lemma Legacy_invoke_shut cb w :
  Legacy.is_panic_ w = true ->
  Legacy.st_ (Legacy.invoke clk cb w) =
    (if Legacy.heater_is_off_ w then Legacy.st_ w else
       match cb with Legacy.CallOff => OFF | _ => Legacy.st_ w end) /\
  Legacy.heater_is_off_ (Legacy.invoke clk cb w) =
    match cb with
    | Legacy.CallOff => true
    | _ => Legacy.heater_is_off_ w
    end.
Proof.
  intros P. destruct cb; cbn [Legacy.invoke].
  - destruct (Legacy_LED_enter_keeps clk Legacy.LEDState.PANIC w)
      as (_ & _ & _ & -> & -> & _). now destruct (Legacy.heater_is_off_ w).
  - unfold Legacy.Off, Legacy.IsPanic, Legacy.digitalWrite, Legacy.emit.
    destruct w as [p cbs n idx on last st off gl gu rd tr]. cbn in *.
    subst p. now destruct off.
Qed.

Lemma Legacy_run_callbacks_shut n : forall i w,
  Legacy.is_panic_ w = true ->
  let w' := Legacy.run_callbacks clk n i w in
  (Legacy.st_ w' = Legacy.st_ w /\
   Legacy.heater_is_off_ w' = Legacy.heater_is_off_ w) \/
  (Legacy.heater_is_off_ w = false /\
   Legacy.st_ w' = OFF /\ Legacy.heater_is_off_ w' = true).
Proof.
  induction n as [|n IH]; intros i w P; cbn [Legacy.run_callbacks];
    [now left|].
  case_bool_decide; [|now left].
  destruct (Legacy.callbacks_ w !! i) as [[cb|]|]; [|now apply IH..].
  destruct (Legacy_invoke_shut cb w P) as (S1 & H1).
  assert (Legacy.is_panic_ (Legacy.invoke clk cb w) = true) as P1
    by (rewrite (proj1 (Legacy_invoke_keeps clk cb w)); exact P).
  destruct (IH (S i) (Legacy.invoke clk cb w) P1) as [(S2 & H2)|(H0 & S2 & H2)];
    cbv zeta; rewrite ?S2, ?H2, ?S1, ?H1.
  - destruct cb, (Legacy.heater_is_off_ w); auto.
  - right. rewrite H1 in H0. destruct cb; [auto|discriminate].
Qed.

(** The legacy fault, with the shutdown that follows it in [Update] and
    [loop]: the heater is off, and the controller is in [OFF] exactly
    when the heater was on. *)
Lemma Legacy_fault_Off w :
  let w' := Legacy.Off (Legacy.StartPanic clk w) in
  Legacy.is_panic_ w' = true /\ Legacy.heater_is_off_ w' = true /\
  Legacy.st_ w' =
    (if Legacy.heater_is_off_ w then Legacy.st_ w else OFF).
Proof.
  cbv zeta.
  destruct (Legacy_StartPanic_keeps clk w) as (P1 & _).
  assert ((Legacy.st_ (Legacy.StartPanic clk w) = Legacy.st_ w /\
           Legacy.heater_is_off_ (Legacy.StartPanic clk w) =
           Legacy.heater_is_off_ w) \/
          (Legacy.heater_is_off_ w = false /\
           Legacy.st_ (Legacy.StartPanic clk w) = OFF /\
           Legacy.heater_is_off_ (Legacy.StartPanic clk w) = true)) as Sh.
  { unfold Legacy.StartPanic. destruct (Legacy.is_panic_ w); [now left|].
    apply (Legacy_run_callbacks_shut UCHAR_RANGE 0
             (Legacy.set_panic true (Legacy.callbacks_ w)
                (Legacy.callback_count_ w) w)).
    reflexivity. }
  remember (Legacy.StartPanic clk w) as w1 eqn:E. clear E.
  unfold Legacy.Off, Legacy.IsPanic, Legacy.digitalWrite, Legacy.emit.
  destruct w1 as [p cbs n idx on last st off gl gu rd tr]. cbn in *.
  subst p.
  destruct Sh as [(-> & ->)|(-> & -> & ->)]; cbn;
    [destruct (Legacy.heater_is_off_ w)|]; cbn; auto.
Qed.

(** C4, as the two sketches have it. In [src/main.cpp], in [HEATING] or
    [COOLING], [Update] with a sample at or above [max_] does nothing
    but raise [OverMax] and call [Off]: the latch is triggered, the
    state is [OFF], the output is inactive and its relay is written
    inactive; the watchdog is not consulted and no relay is switched on.
    In the legacy [src/oldsystem.cpp] the test is strict: a sample
    strictly over [TEMP_MAX] does nothing but raise the fault and call
    [Off], after which the heater is off and the state is [OFF] exactly
    when the heater was on ([Off] is guarded); a sample equal to
    [TEMP_MAX] raises no fault and is left to the hysteresis rule, which
    switches [HEATING] to [COOLING] and leaves [COOLING] alone. *)
Theorem Update_over_max c t w :
  st_ (ctrl c w) <> OFF -> fle (max_ (ctrl c w)) t = true ->
  let w' := TempController_Update clk c t w in
  (w' = TempController_Off c
          (Panic_StartPanic clk PanicReason.OverMax (uid_ (ctrl c w)) 358 w) /\
   Panic_IsPanic w' = true /\
   (is_panic_ w = false ->
    panic_info_ w' =
    mkPanicInfo (wrap32 (clk (reads w))) 358 (uid_ (ctrl c w))
      PanicReason.OverMax) /\
   st_ (ctrl c w') = OFF /\
   heater_is_off_ (ctrl c w') = true /\
   desync_man_ (ctrl c w') = desync_man_ (ctrl c w) /\
   (exists d,
      trace w' = trace w ++ d /\ only_low d /\
      DigitalWrite (relay_pin_ (ctrl c w)) RELAY_INACTIVE_STATE ∈ d)) /\
  (forall tl lw,
     Legacy.st_ lw <> OFF -> flt Legacy.TEMP_MAX tl = true ->
     let lw' := Legacy.Update clk tl lw in
     lw' = Legacy.Off (Legacy.StartPanic clk lw) /\
     Legacy.is_panic_ lw' = true /\
     Legacy.heater_is_off_ lw' = true /\
     Legacy.st_ lw' =
       (if Legacy.heater_is_off_ lw then Legacy.st_ lw else OFF)) /\
  (forall lw,
     let lw' := Legacy.Update clk Legacy.TEMP_MAX lw in
     fle Legacy.TEMP_MAX Legacy.TEMP_MAX = true /\
     Legacy.is_panic_ lw' = Legacy.is_panic_ lw /\
     (Legacy.st_ lw = HEATING ->
      Legacy.st_ lw' = COOLING /\ Legacy.heater_is_off_ lw' = true) /\
     (Legacy.st_ lw = COOLING -> lw' = lw)).
Proof.
  intros St Hmax. cbv zeta. split; [|split].
  - exact (Update_over_max_main clk c t w St Hmax).
  - intros tl lw Sl Hl.
    assert (Legacy.Update clk tl lw = Legacy.Off (Legacy.StartPanic clk lw))
      as E.
    { unfold Legacy.Update. rewrite Hl. now destruct (Legacy.st_ lw). }
    rewrite E. split; [reflexivity|]. apply Legacy_fault_Off.
  - intros lw. split; [reflexivity|].
    split; [apply Legacy_Update_at_max|].
    unfold Legacy.Update.
    change (flt Legacy.TEMP_MAX Legacy.TEMP_MAX) with false.
    change (fle (fadd Legacy.TARGET_TEMP_C TEMP_ALLOWANCE) Legacy.TEMP_MAX)
      with true.
    change (fle Legacy.TEMP_MAX (fsub Legacy.TARGET_TEMP_C TEMP_ALLOWANCE))
      with false.
    split; intros ->; [|reflexivity]. cbv zeta.
    rewrite Legacy_SetState_in_range
      by (unfold Legacy.NumStates, Legacy.LEDState.COOLING; lia).
    destruct (Legacy_LED_enter_keeps clk Legacy.LEDState.COOLING
                (Legacy.set_controller COOLING
                   (Legacy.heater_is_off_ (Legacy.Off lw)) (Legacy.Off lw)))
      as (_ & _ & _ & -> & -> & _).
    cbn. split; [reflexivity|]. apply Legacy_Off_keeps.
Qed.

(** C7, as the two sketches have it. In [src/main.cpp] a pass of [Loop]
    whose reading is [DEVICE_DISCONNECTED_C] raises [SensorDisconnected]
    at once: the fault is recorded with the controller's id, the clock
    is read for the timestamp only, no watchdog changes and no
    controller changes except by being shut off; every relay write of
    the pass is the write of a shutdown callback, and a controller that
    no callback names is left as it was. In the legacy
    [src/oldsystem.cpp] a pass of [loop] that reaches the sensor counts
    such a reading: with fewer than five counted it only adds one to the
    count, raising no fault and leaving controller, heater and relay as
    they were; with five counted it raises the fault and then calls
    [Off] itself, after which the heater is off and the state is [OFF]
    exactly when the heater was on. [Update] is called in neither
    case. *)
Theorem Loop_disconnected c t w :
  is_panic_ w = false -> (callback_count_ w <= MAX_CALLBACKS)%nat ->
  feq t DEVICE_DISCONNECTED_C = true ->
  let w' := TempController_Loop clk c t w in
  (Panic_IsPanic w' = true /\
   panic_info_ w' =
   mkPanicInfo (wrap32 (clk (reads w))) 394 (uid_ (ctrl c w))
     PanicReason.SensorDisconnected /\
   reads w' = S (reads w) /\
   (forall c', desync_man_ (ctrl c' w') = desync_man_ (ctrl c' w) /\
               shut (ctrl c' w) (ctrl c' w')) /\
   (exists logs,
      trace w' =
      trace w ++ RequestTemperatures (one_wire_ (ctrl c w))
        :: map (shutdown_write w) (registered_callbacks w) ++ logs /\
      serial_only logs) /\
   (forall c', CallOff c' ∉ registered_callbacks w ->
               ctrl c' w' = ctrl c' w)) /\
  (forall lw,
     Legacy.is_panic_ lw = false ->
     READ_INTERVAL_MS <=
       sub32 (fst (Legacy.millis clk (Legacy.LED_Update clk lw)))
         (Legacy.GLastReadMs lw) ->
     let lw' := Legacy.loop clk t lw in
     let lw4 :=
       Legacy.emit (RequestTemperatures Legacy.ONE_WIRE_BUS_PIN)
         (Legacy.set_globals
            (fst (Legacy.millis clk (Legacy.LED_Update clk lw)))
            (Legacy.GUndetectedCount lw)
            (snd (Legacy.millis clk (Legacy.LED_Update clk lw)))) in
     (Legacy.GUndetectedCount lw < 5 ->
      lw' = Legacy.set_globals (Legacy.GLastReadMs lw4)
              (Legacy.GUndetectedCount lw + 1) lw4 /\
      Legacy.is_panic_ lw' = false /\
      Legacy.GUndetectedCount lw' = Legacy.GUndetectedCount lw + 1 /\
      Legacy.st_ lw' = Legacy.st_ lw /\
      Legacy.heater_is_off_ lw' = Legacy.heater_is_off_ lw /\
      pin_writes Legacy.RELAY_PIN (Legacy.trace lw') =
      pin_writes Legacy.RELAY_PIN (Legacy.trace lw)) /\
     (5 <= Legacy.GUndetectedCount lw ->
      lw' = Legacy.Off (Legacy.StartPanic clk lw4) /\
      Legacy.is_panic_ lw' = true /\
      Legacy.heater_is_off_ lw' = true /\
      Legacy.st_ lw' =
        (if Legacy.heater_is_off_ lw then Legacy.st_ lw else OFF))).
Proof.
  intros P B D. cbv zeta. split.
  { exact (Loop_disconnected_main clk c t w P B D). }
  intros lw Pl G.
  unfold Legacy.loop. cbv zeta.
  destruct (Legacy_LED_Update_keeps clk lw)
    as (E1 & _ & _ & _ & E2 & E3 & E4 & E5 & l & El).
  remember (Legacy.LED_Update clk lw) as w1 eqn:Hw1. clear Hw1.
  unfold Legacy.millis, Legacy.IsPanic in *. cbn [fst snd] in *.
  change (Legacy.GLastReadMs (Legacy.set_env (S (Legacy.reads w1))
                                (Legacy.trace w1) w1))
    with (Legacy.GLastReadMs w1).
  rewrite E4, bool_decide_eq_false_2 by lia.
  change (Legacy.is_panic_
            (Legacy.set_globals (wrap32 (clk (Legacy.reads w1)))
               (Legacy.GUndetectedCount
                  (Legacy.set_env (S (Legacy.reads w1)) (Legacy.trace w1) w1))
               (Legacy.set_env (S (Legacy.reads w1)) (Legacy.trace w1) w1)))
    with (Legacy.is_panic_ w1).
  rewrite E1, Pl, D.
  change (Legacy.GUndetectedCount
            (Legacy.set_env (S (Legacy.reads w1)) (Legacy.trace w1) w1))
    with (Legacy.GUndetectedCount w1).
  rewrite E5.
  remember (Legacy.emit (RequestTemperatures Legacy.ONE_WIRE_BUS_PIN)
              (Legacy.set_globals (wrap32 (clk (Legacy.reads w1)))
                 (Legacy.GUndetectedCount lw)
                 (Legacy.set_env (S (Legacy.reads w1)) (Legacy.trace w1) w1)))
    as w4 eqn:Hw4.
  assert (Legacy.GUndetectedCount w4 = Legacy.GUndetectedCount lw /\
          Legacy.is_panic_ w4 = false /\
          Legacy.st_ w4 = Legacy.st_ lw /\
          Legacy.heater_is_off_ w4 = Legacy.heater_is_off_ lw /\
          pin_writes Legacy.RELAY_PIN (Legacy.trace w4) =
          pin_writes Legacy.RELAY_PIN (Legacy.trace lw))
    as (C4 & P4 & S4 & H4 & T4).
  { assert (Legacy.trace w4 =
            Legacy.trace w1 ++
            [RequestTemperatures Legacy.ONE_WIRE_BUS_PIN]) as T
      by (subst w4; reflexivity).
    rewrite T, El, !pin_writes_skip by (intros l'; discriminate).
    subst w4. cbn. repeat split; congruence. }
  rewrite C4. split; intros C.
  - rewrite bool_decide_eq_false_2 by lia.
    split; [reflexivity|]. cbn. auto.
  - rewrite bool_decide_eq_true_2 by exact C.
    split; [reflexivity|].
    destruct (Legacy_fault_Off w4) as (F1 & F2 & F3).
    rewrite F3, H4, S4. auto.
Qed.

End BothFacts.

(** C4, counterexample: the legacy controller after [setup]. Heating
    after the sample 23.0, it reads 28.0, its maximum: no fault is
    raised and the hysteresis rule switches it to [COOLING]. And cooling
    with the heater off, it reads 29.0: the fault is raised, but the
    state stays [COOLING]. *)
Lemma Legacy_Update_max_is_no_fault :
  let w0 := Legacy.setup clk_steady Legacy.initial_world in
  let w := Legacy.Update clk_steady (f32 23 0) w0 in
  let w' := Legacy.Update clk_steady (f32 28 0) w in
  let w'' := Legacy.Update clk_steady (f32 29 0) w0 in
  Legacy.st_ w = HEATING /\ Legacy.is_panic_ w = false /\
  fle Legacy.TEMP_MAX (f32 28 0) = true /\
  Legacy.is_panic_ w' = false /\ Legacy.st_ w' = COOLING /\
  Legacy.st_ w0 = COOLING /\ fle Legacy.TEMP_MAX (f32 29 0) = true /\
  Legacy.is_panic_ w'' = true /\ Legacy.st_ w'' = COOLING.
Proof. vm_compute. repeat split. Qed.

(** C7, counterexample: the legacy sketch after [setup] reads a
    disconnected sensor in its first pass; the sensor is asked, and no
    fault is raised. *)
Lemma Legacy_first_disconnect_is_no_fault :
  let w := Legacy.setup clk_steady Legacy.initial_world in
  let w' := Legacy.loop clk_steady DEVICE_DISCONNECTED_C w in
  Legacy.is_panic_ w = false /\
  feq DEVICE_DISCONNECTED_C DEVICE_DISCONNECTED_C = true /\
  last (Legacy.trace w') = Some (RequestTemperatures Legacy.ONE_WIRE_BUS_PIN) /\
  Legacy.is_panic_ w' = false /\
  Legacy.GUndetectedCount w' = 1.
Proof. vm_compute. repeat split. Qed.

(** * Concrete runs, continued *)

(** X1 on one cause. *)
Lemma PanicReasonStr_inj_witness :
  PanicReasonStr PanicReason.OverMax = "OverMax"%string /\
  PanicReason.OverMax = PanicReason.OverMax.
Proof.
  split; [reflexivity|].
  apply (PanicReasonStr_inj PanicReason.OverMax PanicReason.OverMax).
  reflexivity.
Defined.

(** X2 on the array of [setup] and the initial table. *)
Lemma Panic_Init_table_witness :
  let w' := Panic_Init setup_cbs initial_world in
  length (callbacks_ initial_world) = MAX_CALLBACKS /\
  callback_count_ w' = 2%nat /\
  callbacks_ w' = [Some (CallOff Nico); Some (CallOff Trap); None; None] /\
  registered_callbacks w' = [CallOff Nico; CallOff Trap].
Proof.
  cbv zeta.
  assert (length (callbacks_ initial_world) = MAX_CALLBACKS) as L
    by reflexivity.
  destruct (Panic_Init_table clk_steady setup_cbs PanicReason.Other 0 0
              initial_world L) as (_ & H1 & H2 & _ & H3 & _).
  split; [exact L|]. split; [exact H1|]. split; [exact H2|exact H3].
Defined.

(** X3 on the initial state. *)
Lemma StartPanic_None_reported_as_none_witness :
  let w' := Panic_StartPanic clk_steady PanicReason.None 7 99 initial_world in
  is_panic_ initial_world = false /\
  Panic_IsPanic w' = true /\
  panic_info_ w' = mkPanicInfo 2500 99 7 PanicReason.None /\
  Panic_PrintPanic w' = Log_println [PStr "Panic: <none>"] w'.
Proof.
  cbv zeta.
  assert (is_panic_ initial_world = false) as P by reflexivity.
  destruct (StartPanic_None_reported_as_none clk_steady 7 99 initial_world P)
    as (H1 & H2 & H3 & _).
  split; [exact P|]. split; [exact H1|]. split; [exact H2|exact H3].
Defined.

(** X4 on the sketch: [setup], then a pass in which [trap]'s sensor is
    disconnected. *)
Lemma PrintPanic_reports_first_fault_witness :
  let ops := [OpSetup; OpMainLoop sample_fault] in
  let w := run clk_steady ops initial_world in
  Forall (caused named) ops /\
  Panic_IsPanic w = true /\
  reason (panic_info_ w) <> PanicReason.None /\
  Panic_PrintPanic w = set_trace (trace w ++ panic_report (panic_info_ w)) w.
Proof.
  cbv zeta.
  assert (Forall (caused named) [OpSetup; OpMainLoop sample_fault]) as F
    by (repeat constructor).
  assert (Panic_IsPanic
            (run clk_steady [OpSetup; OpMainLoop sample_fault] initial_world)
          = true) as P by (vm_compute; reflexivity).
  destruct (PrintPanic_reports_first_fault clk_steady _ F) as (_ & H).
  destruct (H P) as (H1 & H2).
  split; [exact F|]. split; [exact P|]. split; [exact H1|exact H2].
Defined.

(** X5 on [nico], which starts heating at 23.0. *)
Lemma active_only_in_HEATING_witness :
  let w := run clk_steady [OpUpdate Nico (f32 23 0)] initial_world in
  (forall c, heater_is_off_ (ctrl c initial_world) = true) /\
  TempController_IsHeating Nico w = true /\
  st_ (ctrl Nico w) = HEATING.
Proof.
  cbv zeta.
  assert (forall c, heater_is_off_ (ctrl c initial_world) = true) as H0
    by (intros []; reflexivity).
  assert (TempController_IsHeating Nico
            (run clk_steady [OpUpdate Nico (f32 23 0)] initial_world) = true)
    as Hh by (vm_compute; reflexivity).
  split; [exact H0|]. split; [exact Hh|].
  exact (active_only_in_HEATING clk_steady [OpUpdate Nico (f32 23 0)]
           initial_world Nico H0 Hh).
Defined.

(** X6 on the sketch: after [setup], a pass in which both sensors read
    23.0 leaves the relay of [nico] at [HIGH]. *)
Lemma relay_follows_IsHeating_witness :
  let w0 := setup clk_steady initial_world in
  let ops := [OpMainLoop (fun _ => f32 23 0)] in
  let w := run clk_steady ops w0 in
  relays_agree w0 /\ Forall pass_op ops /\
  last (pin_writes (relay_pin_ (ctrl Nico w)) (trace w)) =
  Some RELAY_ACTIVE_STATE.
Proof.
  cbv zeta.
  assert (Forall pass_op [OpMainLoop (fun _ => f32 23 0)]) as F
    by (repeat constructor).
  pose proof (relay_follows_IsHeating clk_steady
                [OpMainLoop (fun _ => f32 23 0)] _ Nico
                (setup_relays_agree clk_steady) F) as H.
  cbv zeta in H.
  split; [apply setup_relays_agree|]. split; [exact F|].
  rewrite H. vm_compute. reflexivity.
Defined.

(** X7 on the sketch after [setup]: [nico] reads 29.0. *)
Lemma Loop_fault_cause_witness :
  let w := setup clk_steady initial_world in
  let w' := TempController_Loop clk_steady Nico (f32 29 0) w in
  Panic_IsPanic w = false /\ Panic_IsPanic w' = true /\
  uid (panic_info_ w') = uid_ (ctrl Nico w).
Proof.
  cbv zeta.
  assert (Panic_IsPanic (setup clk_steady initial_world) = false) as P
    by reflexivity.
  assert (Panic_IsPanic
            (TempController_Loop clk_steady Nico (f32 29 0)
               (setup clk_steady initial_world)) = true) as L
    by (vm_compute; reflexivity).
  destruct (Loop_fault_cause clk_steady Nico (f32 29 0) _ P L) as (H & _).
  split; [exact P|]. split; [exact L|exact H].
Defined.

(** X8 on [nico], cooling, which reads 23.0. *)
Lemma Update_switches_witness :
  let w' := TempController_Update clk_steady Nico (f32 23 0) initial_world in
  fle (max_ (ctrl Nico initial_world)) (f32 23 0) = false /\
  st_ (ctrl Nico initial_world) = COOLING /\
  fle (f32 23 0) (fsub (target_ (ctrl Nico initial_world)) TEMP_ALLOWANCE)
  = true /\
  st_ (ctrl Nico w') = HEATING /\ TempController_IsHeating Nico w' = true.
Proof.
  cbv zeta.
  assert (fle (max_ (ctrl Nico initial_world)) (f32 23 0) = false) as M
    by (vm_compute; reflexivity).
  assert (fle (f32 23 0)
            (fsub (target_ (ctrl Nico initial_world)) TEMP_ALLOWANCE) = true)
    as Lo by (vm_compute; reflexivity).
  destruct (Update_switches clk_steady Nico (f32 23 0) initial_world M)
    as (H & _).
  destruct (H eq_refl Lo) as (H1 & H2 & _).
  split; [exact M|]. split; [reflexivity|]. split; [exact Lo|].
  split; [exact H1|exact H2].
Defined.

(** X9 on the first pass: the clock reads 7500 at the gate. *)
Lemma loop_read_gate_witness :
  let w' := loop clk_steady sample_fault initial_world in
  GLastReadMs initial_world = wrap32 0 /\
  clk_steady (reads (LEDMan_Update clk_steady initial_world)) = 0 + 7500 /\
  0 <= 7500 < 2 ^ 32 /\
  GLastReadMs w' = wrap32 (0 + 7500).
Proof.
  cbv zeta.
  assert (GLastReadMs initial_world = wrap32 0) as G by reflexivity.
  assert (clk_steady (reads (LEDMan_Update clk_steady initial_world))
          = 0 + 7500) as C by (vm_compute; reflexivity).
  assert (0 <= 7500 < 2 ^ 32) as D by (split; [discriminate|reflexivity]).
  destruct (loop_read_gate clk_steady sample_fault initial_world 0 7500
              G C D) as (_ & H).
  split; [exact G|]. split; [exact C|]. split; [exact D|].
  apply H. discriminate.
Defined.

(** X10 on the sketch after [setup]: [trap]'s sensor is disconnected. *)
Lemma loop_disconnect_stops_all_witness :
  let w := setup clk_steady initial_world in
  let w' := loop clk_steady sample_fault w in
  covered w /\ Panic_IsPanic w = false /\
  feq (sample_fault Trap) DEVICE_DISCONNECTED_C = true /\
  Panic_IsPanic w' = true /\ all_off w'.
Proof.
  cbv zeta.
  assert (covered (setup clk_steady initial_world)) as C
    by apply (setup_fail_safe clk_steady).
  assert (Panic_IsPanic (setup clk_steady initial_world) = false) as P
    by reflexivity.
  assert (READ_INTERVAL_MS <=
          sub32 (fst (millis clk_steady
                        (LEDMan_Update clk_steady
                           (setup clk_steady initial_world))))
            (GLastReadMs (setup clk_steady initial_world))) as G
    by (vm_compute; discriminate).
  assert (feq (sample_fault Trap) DEVICE_DISCONNECTED_C = true) as D
    by (vm_compute; reflexivity).
  destruct (loop_disconnect_stops_all clk_steady sample_fault _ Trap C P G D)
    as (H1 & H2 & _).
  split; [exact C|]. split; [exact P|]. split; [exact D|].
  split; [exact H1|exact H2].
Defined.

(** X12 on the initial state. *)
Lemma setup_installs_witness :
  let w' := setup clk_steady initial_world in
  is_panic_ initial_world = false /\
  length (callbacks_ initial_world) = MAX_CALLBACKS /\
  length (controllers_ initial_world) = MAX_CONTROLLERS /\
  callback_count_ w' = 2%nat /\ covered w' /\
  is_panic_ w' = false /\ num_controllers_ w' = 2%nat.
Proof.
  cbv zeta.
  destruct (setup_installs clk_steady initial_world eq_refl eq_refl eq_refl)
    as (H1 & _ & H2 & H3 & _).
  destruct H3 as (H4 & H5 & _); [vm_compute; lia|].
  split; [reflexivity|]. split; [reflexivity|]. split; [reflexivity|].
  split; [exact H1|]. split; [exact H2|]. split; [exact H4|exact H5].
Defined.

(** X13 on the initial table of the legacy sketch. *)
Lemma Legacy_RegisterCallback_bounded_witness :
  let w' := Legacy.RegisterCallback clk_steady (Some Legacy.CallOff)
              Legacy.initial_world in
  length (Legacy.callbacks_ Legacy.initial_world) = Legacy.MAX_CALLBACKS /\
  (Legacy.callback_count_ Legacy.initial_world <= Legacy.MAX_CALLBACKS)%nat /\
  Legacy.callbacks_ w' !! 0%nat = Some (Some Legacy.CallOff) /\
  (Legacy.callback_count_ w' <= Legacy.MAX_CALLBACKS)%nat.
Proof.
  cbv zeta.
  assert (Legacy.callback_count_ Legacy.initial_world
          <= Legacy.MAX_CALLBACKS)%nat as B by (vm_compute; lia).
  destruct (Legacy_RegisterCallback_bounded clk_steady (Some Legacy.CallOff)
              Legacy.initial_world eq_refl B) as (H1 & _ & H2 & _).
  destruct H1 as (_ & H3 & _); [vm_compute; lia|].
  split; [reflexivity|]. split; [exact B|]. split; [exact H3|exact H2].
Defined.

(** X15 on the legacy controller, cooling, which reads 29.0. *)
Lemma Legacy_Update_faults_iff_witness :
  let w' := Legacy.Update clk_steady (f32 29 0) Legacy.initial_world in
  Legacy.is_panic_ Legacy.initial_world = false /\
  Legacy.is_panic_ w' = true /\ Legacy.heater_is_off_ w' = true.
Proof.
  cbv zeta.
  destruct (Legacy_Update_faults_iff clk_steady (f32 29 0)
              Legacy.initial_world eq_refl) as (H1 & H2 & _).
  assert (Legacy.is_panic_
            (Legacy.Update clk_steady (f32 29 0) Legacy.initial_world)
          = true) as P.
  { apply H1. split; [discriminate|vm_compute; reflexivity]. }
  split; [reflexivity|]. split; [exact P|exact (H2 P)].
Defined.

(** X16 on the legacy sketch after [setup]: a first missing reading. *)
Lemma Legacy_loop_debounce_witness :
  let w := Legacy.setup clk_steady Legacy.initial_world in
  let w' := Legacy.loop clk_steady DEVICE_DISCONNECTED_C w in
  Legacy.is_panic_ w = false /\
  feq DEVICE_DISCONNECTED_C DEVICE_DISCONNECTED_C = true /\
  Legacy.GUndetectedCount w < 5 /\
  Legacy.is_panic_ w' = false /\
  Legacy.GUndetectedCount w' = Legacy.GUndetectedCount w + 1.
Proof.
  cbv zeta.
  assert (Legacy.is_panic_ (Legacy.setup clk_steady Legacy.initial_world)
          = false) as P by (vm_compute; reflexivity).
  assert (READ_INTERVAL_MS <=
          sub32 (fst (Legacy.millis clk_steady
                        (Legacy.LED_Update clk_steady
                           (Legacy.setup clk_steady Legacy.initial_world))))
            (Legacy.GLastReadMs
               (Legacy.setup clk_steady Legacy.initial_world))) as G
    by (vm_compute; discriminate).
  assert (feq DEVICE_DISCONNECTED_C DEVICE_DISCONNECTED_C = true) as D
    by (vm_compute; reflexivity).
  assert (Legacy.GUndetectedCount
            (Legacy.setup clk_steady Legacy.initial_world) < 5) as C
    by (vm_compute; reflexivity).
  destruct (Legacy_loop_debounce clk_steady DEVICE_DISCONNECTED_C _ P G)
    as (H & _).
  destruct (H D C) as (H1 & H2 & _).
  split; [exact P|]. split; [exact D|]. split; [exact C|].
  split; [exact H1|exact H2].
Defined.

(** X18 on the legacy sketch: [setup], then a pass that reads 23.0. *)
Lemma Legacy_LED_shows_state_witness :
  let w := Legacy_run clk_steady [f32 23 0]
             (Legacy.setup clk_steady Legacy.initial_world) in
  Legacy.is_panic_ w = false /\
  Legacy.st_ w = (if Legacy.heater_is_off_ w then COOLING else HEATING) /\
  Legacy.currentStateIndex_ w =
    (if Legacy.heater_is_off_ w then Legacy.LEDState.COOLING
     else Legacy.LEDState.HEATING).
Proof.
  cbv zeta.
  assert (Legacy.is_panic_
            (Legacy_run clk_steady [f32 23 0]
               (Legacy.setup clk_steady Legacy.initial_world)) = false) as P
    by (vm_compute; reflexivity).
  destruct (Legacy_LED_shows_state clk_steady [f32 23 0] P) as (H1 & H2 & _).
  split; [exact P|]. split; [exact H1|exact H2].
Defined.

(** C4 at the maximum itself: [nico], cooling, reads 28.0; and the
    legacy controller, heating, reads 29.0. *)
Lemma Update_over_max_witness :
  let w' := TempController_Update clk_steady Nico (f32 28 0) initial_world in
  let lw := Legacy.Update clk_steady (f32 23 0)
              (Legacy.setup clk_steady Legacy.initial_world) in
  let lw' := Legacy.Update clk_steady (f32 29 0) lw in
  st_ (ctrl Nico initial_world) <> OFF /\
  fle (max_ (ctrl Nico initial_world)) (f32 28 0) = true /\
  Panic_IsPanic w' = true /\
  reason (panic_info_ w') = PanicReason.OverMax /\
  st_ (ctrl Nico w') = OFF /\ heater_is_off_ (ctrl Nico w') = true /\
  Legacy.st_ lw = HEATING /\ Legacy.heater_is_off_ lw = false /\
  Legacy.is_panic_ lw' = true /\ Legacy.heater_is_off_ lw' = true /\
  Legacy.st_ lw' = OFF.
Proof.
  cbv zeta.
  assert (st_ (ctrl Nico initial_world) <> OFF) as St by discriminate.
  assert (fle (max_ (ctrl Nico initial_world)) (f32 28 0) = true) as Hm
    by (vm_compute; reflexivity).
  destruct (Update_over_max clk_steady Nico (f32 28 0) initial_world St Hm)
    as ((_ & H1 & H2 & H3 & H4 & _) & L & _).
  assert (Legacy.st_ (Legacy.Update clk_steady (f32 23 0)
                        (Legacy.setup clk_steady Legacy.initial_world))
          = HEATING) as Sl by (vm_compute; reflexivity).
  assert (Legacy.heater_is_off_
            (Legacy.Update clk_steady (f32 23 0)
               (Legacy.setup clk_steady Legacy.initial_world)) = false)
    as Hl by (vm_compute; reflexivity).
  remember (Legacy.Update clk_steady (f32 23 0)
              (Legacy.setup clk_steady Legacy.initial_world)) as lw eqn:El.
  assert (Legacy.st_ lw <> OFF) as Nl by (rewrite Sl; discriminate).
  assert (flt Legacy.TEMP_MAX (f32 29 0) = true) as Fl
    by (vm_compute; reflexivity).
  destruct (L (f32 29 0) lw Nl Fl) as (_ & L1 & L2 & L3).
  rewrite Hl in L3.
  split; [exact St|]. split; [exact Hm|]. split; [exact H1|].
  split; [now rewrite (H2 eq_refl)|]. split; [exact H3|].
  split; [exact H4|]. split; [exact Sl|]. split; [exact Hl|].
  split; [exact L1|]. split; [exact L2|exact L3].
Defined.

(** C7 on the sketch after [setup]: [trap] reads disconnected; and the
    legacy sketch with five missing readings counted reads a sixth. *)
Lemma Loop_disconnected_witness :
  let w := setup clk_steady initial_world in
  let w' := TempController_Loop clk_steady Trap DEVICE_DISCONNECTED_C w in
  let lw := Legacy_run clk_steady (replicate 5 DEVICE_DISCONNECTED_C)
              (Legacy.setup clk_steady Legacy.initial_world) in
  let lw' := Legacy.loop clk_steady DEVICE_DISCONNECTED_C lw in
  is_panic_ w = false /\ (callback_count_ w <= MAX_CALLBACKS)%nat /\
  feq DEVICE_DISCONNECTED_C DEVICE_DISCONNECTED_C = true /\
  Panic_IsPanic w' = true /\
  panic_info_ w' = mkPanicInfo 2500 394 2 PanicReason.SensorDisconnected /\
  reads w' = 1%nat /\
  Legacy.is_panic_ lw = false /\ Legacy.GUndetectedCount lw = 5 /\
  Legacy.is_panic_ lw' = true /\ Legacy.heater_is_off_ lw' = true.
Proof.
  cbv zeta.
  assert (is_panic_ (setup clk_steady initial_world) = false) as P
    by reflexivity.
  assert (callback_count_ (setup clk_steady initial_world)
          <= MAX_CALLBACKS)%nat as B by (vm_compute; lia).
  assert (feq DEVICE_DISCONNECTED_C DEVICE_DISCONNECTED_C = true) as D
    by (vm_compute; reflexivity).
  destruct (Loop_disconnected clk_steady Trap DEVICE_DISCONNECTED_C _ P B D)
    as ((H1 & H2 & H3 & _) & L).
  assert (Legacy.is_panic_
            (Legacy_run clk_steady (replicate 5 DEVICE_DISCONNECTED_C)
               (Legacy.setup clk_steady Legacy.initial_world)) = false) as Pl
    by (vm_compute; reflexivity).
  assert (Legacy.GUndetectedCount
            (Legacy_run clk_steady (replicate 5 DEVICE_DISCONNECTED_C)
               (Legacy.setup clk_steady Legacy.initial_world)) = 5) as Cl
    by (vm_compute; reflexivity).
  assert (READ_INTERVAL_MS <=
          sub32 (fst (Legacy.millis clk_steady
                        (Legacy.LED_Update clk_steady
                           (Legacy_run clk_steady
                              (replicate 5 DEVICE_DISCONNECTED_C)
                              (Legacy.setup clk_steady
                                 Legacy.initial_world)))))
            (Legacy.GLastReadMs
               (Legacy_run clk_steady (replicate 5 DEVICE_DISCONNECTED_C)
                  (Legacy.setup clk_steady Legacy.initial_world)))) as G
    by (vm_compute; discriminate).
  remember (Legacy_run clk_steady (replicate 5 DEVICE_DISCONNECTED_C)
              (Legacy.setup clk_steady Legacy.initial_world)) as lw eqn:El.
  destruct (L lw Pl G) as (_ & L5).
  destruct L5 as (_ & L1 & L2 & _); [rewrite Cl; discriminate|].
  split; [exact P|]. split; [exact B|]. split; [exact D|].
  split; [exact H1|]. split; [exact H2|]. split; [exact H3|].
  split; [exact Pl|]. split; [exact Cl|]. split; [exact L1|exact L2].
Defined.
